(** * The polyfile reader of plain-model-inspector

    A shallow embedding of [plain_model_inspector/io/polyfile.py]: the
    diagnostic model, the literal transformer and the semantic interpreter
    that walks a (transformed) Lark parse tree, with the properties of the
    interpreter that its specification states.

    The Lark parser itself is a library and is not embedded: parse trees are
    inputs of the development.  Python is dynamically typed and the
    interpreter relies on it (one child list holds trees, tokens, literal
    wrappers and diagnostics), so the embedding has one type [PyObj] of
    Python objects, and every operation that Python may refuse returns an
    [Outcome]: a value, a raised exception, or [Unmodelled] where the
    behaviour depends on a part of the runtime (pydantic's coercions,
    attribute lookup by a name taken from the data) that is not embedded.
    The trees that the grammar produces never get there ([conforms_modelled]).

    The methods of the interpreter run in a state monad over the fields of
    the instance, and [self.visit] on a child is a computation paired with
    the child, so that [visit] is structural on the tree.  Floats are
    binary64 numbers; the interpreter only moves them around. *)

From Stdlib Require Import String Ascii ZArith List Bool Lia Permutation.
From Stdlib Require Import Floats.PrimFloat Floats.SpecFloat Floats.FloatOps.
Import ListNotations.

Set Warnings "-register-all".

Open Scope string_scope.
Open Scope list_scope.
Open Scope Z_scope.

(** ** Outcomes of Python operations *)

Inductive Exception : Type :=
| AttributeError
| IndexError
| TypeError
| ValueError
| VisitError.

Inductive Outcome (A : Type) : Type :=
| Ok (a : A)
| Raise (e : Exception)
| Unmodelled.

Arguments Ok {A} a.
Arguments Raise {A} e.
Arguments Unmodelled {A}.

Definition obind {A B : Type} (o : Outcome A) (k : A -> Outcome B) : Outcome B :=
  match o with
  | Ok a => k a
  | Raise e => Raise e
  | Unmodelled => Unmodelled
  end.

Declare Scope outcome_scope.
Delimit Scope outcome_scope with outcome.
Notation "x <- o ;; k" := (obind o (fun x => k))
  (at level 61, o at next level, right associativity) : outcome_scope.
Notation "' p <- o ;; k" := (obind o (fun x => let p := x in k))
  (at level 61, p pattern, o at next level, right associativity) : outcome_scope.

(** [mapM f l]: run [f] on the items of [l] from left to right, stopping at
    the first one that does not return. *)
Fixpoint sequence {A : Type} (l : list (Outcome A)) : Outcome (list A) :=
  match l with
  | [] => Ok []
  | o :: rest => (a <- o ;; r <- sequence rest ;; Ok (a :: r))%outcome
  end.

Definition mapM {A B : Type} (f : A -> Outcome B) (l : list A) : Outcome (list B) :=
  sequence (map f l).

(** ** The data model *)

Inductive ParseErrorLevel : Type := FATAL | ERROR | WARNING | INFO.

Definition ParseErrorLevel_value (l : ParseErrorLevel) : Z :=
  match l with FATAL => 0 | ERROR => 1 | WARNING => 2 | INFO => 3 end.

Module ParseMsg.
Record t : Type := mk
  { level : ParseErrorLevel;
    line : Z * Z;
    column : Z * Z;
    reason : string }.
End ParseMsg.

Module DescriptionHeader.
Record t : Type := mk { content : string }.
End DescriptionHeader.

Module CommentLine.
Record t : Type := mk { content : string }.
End CommentLine.

Module Metadata.
Record t : Type := mk
  { name : string;
    n_rows : Z;
    n_columns : Z }.
End Metadata.

Module Point.
Record t : Type := mk
  { x : float;
    y : float;
    z : option float;
    data : list float }.
End Point.

Module PolyObject.
Record t : Type := mk
  { description : option DescriptionHeader.t;
    metadata : Metadata.t;
    points : list Point.t }.
End PolyObject.

(** The terminals of [polyfile_grammar] that reach a parse tree: those that
    a rule names.  Lark filters out the terminals whose name starts with an
    underscore ([_WS], [_END_OF_LINE]); [CR], [LF], [END_OF_LINE] and [CNAME]
    only occur inside other terminals. *)
Module TokenType.
Inductive t : Type :=
| WS | EMPTY_LINES | COMMENT | NAME | INT | FLOAT | INVALID_BLOCK.
End TokenType.

(** A Lark token: a [str] (its [value]) with a type and a source span. *)
Module Token.
Record t : Type := mk
  { type : TokenType.t;
    value : string;
    line : Z;
    column : Z;
    end_line : Z;
    end_column : Z }.
End Token.

(** The rules of [polyfile_grammar] that label a tree; [comment_line] and
    [point_line] are inlined by their [?] prefix. *)
Module Rule.
Inductive t : Type :=
| description_header
| name_line
| dimensions_valid
| dimensions_missing_column
| dimensions_exceeding_columns
| dimensions_line
| metadata
| point
| point_invalid
| points
| poly_block
| invalid_block
| poly_file.

Definition name (r : t) : string :=
  match r with
  | description_header => "description_header"
  | name_line => "name_line"
  | dimensions_valid => "dimensions_valid"
  | dimensions_missing_column => "dimensions_missing_column"
  | dimensions_exceeding_columns => "dimensions_exceeding_columns"
  | dimensions_line => "dimensions_line"
  | metadata => "metadata"
  | point => "point"
  | point_invalid => "point_invalid"
  | points => "points"
  | poly_block => "poly_block"
  | invalid_block => "invalid_block"
  | poly_file => "poly_file"
  end.
End Rule.

(** The Python objects that the transformer and the interpreter handle.
    [VTokenData] is the pydantic model [TokenData] (its [data] is [Any]);
    [VTree] is a Lark [Tree]. *)
Inductive PyObj : Type :=
| VNone
| VInt (n : Z)
| VFloat (f : float)
| VStr (s : string)
| VTuple (items : list PyObj)
| VList (items : list PyObj)
| VToken (t : Token.t)
| VParseMsg (m : ParseMsg.t)
| VCommentLine (c : CommentLine.t)
| VDescriptionHeader (d : DescriptionHeader.t)
| VTokenData (token : Token.t) (data : PyObj)
| VMetadata (m : Metadata.t)
| VPoint (p : Point.t)
| VPolyObject (o : PolyObject.t)
| VTree (data : Rule.t) (children : list PyObj).

(** ** Python primitives *)

(** [l[i]], with Python's negative indices. *)
Definition getitem {A : Type} (l : list A) (i : Z) : Outcome A :=
  let n := Z.of_nat (length l) in
  let j := if i <? 0 then i + n else i in
  if (j <? 0) || (n <=? j) then Raise IndexError
  else match nth_error l (Z.to_nat j) with
       | Some a => Ok a
       | None => Raise IndexError
       end.

(** [l[k:]]. *)
Definition slice_from {A : Type} (l : list A) (k : Z) : list A :=
  let n := Z.of_nat (length l) in
  let j := if k <? 0 then Z.max 0 (k + n) else k in
  skipn (Z.to_nat j) l.

Definition chars (s : string) : list PyObj :=
  map (fun c => VStr (String c EmptyString)) (list_ascii_of_string s).

(** [bool(o)]: pydantic models, trees and tokens of non-empty text define
    neither [__bool__] nor [__len__] and are true. *)
Definition truth (o : PyObj) : bool :=
  match o with
  | VNone => false
  | VInt n => negb (n =? 0)
  | VFloat f => negb (PrimFloat.eqb f 0%float)
  | VStr s => negb (String.eqb s EmptyString)
  | VTuple l | VList l => match l with [] => false | _ => true end
  | VToken t => negb (String.eqb (Token.value t) EmptyString)
  | _ => true
  end.

(** [iter(o)], as unpacking and [list.extend] use it.  Iterating a pydantic
    model yields its fields as pairs, which needs Python values that this
    embedding has not (enum members): left out. *)
Definition py_iter (o : PyObj) : Outcome (list PyObj) :=
  match o with
  | VTuple l | VList l => Ok l
  | VStr s => Ok (chars s)
  | VToken t => Ok (chars (Token.value t))
  | VNone | VInt _ | VFloat _ | VTree _ _ => Raise TypeError
  | _ => Unmodelled
  end.

(** [(a, b) = o]. *)
Definition unpack2 (o : PyObj) : Outcome (PyObj * PyObj) :=
  (l <- py_iter o ;;
   match l with
   | [a; b] => Ok (a, b)
   | _ => Raise ValueError
   end)%outcome.

(** [(a, b, c) = o]. *)
Definition unpack3 (o : PyObj) : Outcome (PyObj * PyObj * PyObj) :=
  (l <- py_iter o ;;
   match l with
   | [a; b; c] => Ok (a, b, c)
   | _ => Raise ValueError
   end)%outcome.

(** [msgs.append]: only a list has the method; Python looks it up before it
    evaluates the argument of the call. *)
Definition attr_append (msgs : PyObj) : Outcome (PyObj -> PyObj) :=
  match msgs with
  | VList l => Ok (fun x => VList (l ++ [x]))
  | _ => Raise AttributeError
  end.

(** [msgs.extend(it)] on a list [msgs]. *)
Definition list_extend (msgs : list PyObj) (it : PyObj) : Outcome (list PyObj) :=
  (l <- py_iter it ;; Ok (msgs ++ l))%outcome.

(** *** Attribute access *)

Definition attr_data (o : PyObj) : Outcome PyObj :=
  match o with
  | VTokenData _ d => Ok d
  | VTree r _ => Ok (VStr (Rule.name r))
  | VPoint p => Ok (VList (map VFloat (Point.data p)))
  | _ => Raise AttributeError
  end.

Definition attr_token (o : PyObj) : Outcome PyObj :=
  match o with
  | VTokenData t _ => Ok (VToken t)
  | _ => Raise AttributeError
  end.

Definition attr_content (o : PyObj) : Outcome PyObj :=
  match o with
  | VCommentLine c => Ok (VStr (CommentLine.content c))
  | VDescriptionHeader d => Ok (VStr (DescriptionHeader.content d))
  | _ => Raise AttributeError
  end.

Definition pair_obj (p : Z * Z) : PyObj := VTuple [VInt (fst p); VInt (snd p)].

Definition attr_line (o : PyObj) : Outcome PyObj :=
  match o with
  | VToken t => Ok (VInt (Token.line t))
  | VParseMsg m => Ok (pair_obj (ParseMsg.line m))
  | _ => Raise AttributeError
  end.

Definition attr_column (o : PyObj) : Outcome PyObj :=
  match o with
  | VToken t => Ok (VInt (Token.column t))
  | VParseMsg m => Ok (pair_obj (ParseMsg.column m))
  | _ => Raise AttributeError
  end.

Definition attr_end_line (o : PyObj) : Outcome PyObj :=
  match o with
  | VToken t => Ok (VInt (Token.end_line t))
  | _ => Raise AttributeError
  end.

Definition attr_end_column (o : PyObj) : Outcome PyObj :=
  match o with
  | VToken t => Ok (VInt (Token.end_column t))
  | _ => Raise AttributeError
  end.

(** *** Construction of the pydantic models

    A field given a value of its declared type is stored as it is.  Given
    another type pydantic tries to coerce the value, and fails or not
    depending on it: left out. *)

Definition new_ParseMsg (level : ParseErrorLevel) (l0 l1 c0 c1 : PyObj)
    (reason : string) : Outcome PyObj :=
  match l0, l1, c0, c1 with
  | VInt a, VInt b, VInt c, VInt d =>
      Ok (VParseMsg (ParseMsg.mk level (a, b) (c, d) reason))
  | _, _, _, _ => Unmodelled
  end.

Definition new_Metadata (name n_rows n_columns : PyObj) : Outcome PyObj :=
  match name, n_rows, n_columns with
  | VStr s, VInt r, VInt c => Ok (VMetadata (Metadata.mk s r c))
  | _, _, _ => Unmodelled
  end.

Definition as_float (o : PyObj) : Outcome float :=
  match o with VFloat f => Ok f | _ => Unmodelled end.

Definition as_optional_float (o : PyObj) : Outcome (option float) :=
  match o with VNone => Ok None | VFloat f => Ok (Some f) | _ => Unmodelled end.

Definition new_Point (x y z : PyObj) (data : list PyObj) : Outcome PyObj :=
  (x' <- as_float x ;;
   y' <- as_float y ;;
   z' <- as_optional_float z ;;
   data' <- mapM as_float data ;;
   Ok (VPoint (Point.mk x' y' z' data')))%outcome.

Definition as_Point (o : PyObj) : Outcome Point.t :=
  match o with VPoint p => Ok p | _ => Unmodelled end.

Definition new_PolyObject (description metadata points : PyObj) : Outcome PyObj :=
  (d <- match description with
        | VNone => Ok None
        | VDescriptionHeader h => Ok (Some h)
        | _ => Unmodelled
        end ;;
   m <- match metadata with VMetadata m => Ok m | _ => Unmodelled end ;;
   ps <- match points with VList l => mapM as_Point l | _ => Unmodelled end ;;
   Ok (VPolyObject (PolyObject.mk d m ps)))%outcome.

(** ** [_message_from_tokens]

    The span runs from the start of the first token to the end of the last
    one; Python evaluates the four attribute reads in this order. *)
Definition _message_from_tokens (tokens : list PyObj) (level : ParseErrorLevel)
    (reason : string) : Outcome PyObj :=
  (first <- getitem tokens 0 ;;
   l0 <- attr_line first ;;
   last <- getitem tokens (-1) ;;
   l1 <- attr_end_line last ;;
   first' <- getitem tokens 0 ;;
   c0 <- attr_column first' ;;
   last' <- getitem tokens (-1) ;;
   c1 <- attr_end_column last' ;;
   new_ParseMsg level l0 l1 c0 c1 reason)%outcome.

(** ** Strings and literals

    A text is a [string] whose characters stand for the code points below
    256.  [is_space] is [str.isspace] on them: the ASCII white space, the
    four separators 28 to 31, NEXT LINE (133) and NO-BREAK SPACE (160). *)

Definition is_space (c : ascii) : bool :=
  let n := Z.of_nat (nat_of_ascii c) in
  ((9 <=? n) && (n <=? 13)) || ((28 <=? n) && (n <=? 32))
  || (n =? 133) || (n =? 160).

(** [s.rstrip()]: without the white space at the end. *)
Fixpoint rstrip (s : string) : string :=
  match s with
  | EmptyString => EmptyString
  | String c r =>
      match rstrip r with
      | EmptyString => if is_space c then EmptyString else String c EmptyString
      | r' => String c r'
      end
  end.

(** [s[1:]]. *)
Definition drop_first (s : string) : string :=
  match s with
  | EmptyString => EmptyString
  | String _ r => r
  end.

Definition digit_value (c : ascii) : option Z :=
  let n := Z.of_nat (nat_of_ascii c) in
  if (48 <=? n) && (n <=? 57) then Some (n - 48) else None.

Fixpoint digits_value (acc : Z) (s : string) : option Z :=
  match s with
  | EmptyString => Some acc
  | String c r =>
      match digit_value c with
      | Some d => digits_value (10 * acc + d) r
      | None => None
      end
  end.

(** [sys.int_info.default_max_str_digits]: the longest decimal text that
    [int] converts (CPython 3.11). *)
Definition int_max_str_digits : Z := 4300.

(** [int(s)] for [s] in the class of the [INT] terminal (one or more decimal
    digits): the number, or [ValueError] when [s] has more digits than
    [int_max_str_digits], leading zeros counted; [ValueError] on the empty
    text.  Outside of the class Python accepts some texts (a sign,
    underscores, surrounding blanks, other decimal digits of Unicode) and
    raises on the others: left out. *)
Definition int_of_str (s : string) : Outcome Z :=
  match s with
  | EmptyString => Raise ValueError
  | _ =>
      match digits_value 0 s with
      | Some n =>
          if int_max_str_digits <? Z.of_nat (String.length s) then Raise ValueError
          else Ok n
      | None => Unmodelled
      end
  end.

(** The longest prefix of decimal digits, and the rest. *)
Fixpoint span_digits (s : string) : string * string :=
  match s with
  | EmptyString => (EmptyString, EmptyString)
  | String c r =>
      match digit_value c with
      | Some _ => let (d, t) := span_digits r in (String c d, t)
      | None => (EmptyString, s)
      end
  end.

Definition split_sign (s : string) : bool * string :=
  match s with
  | String "-" r => (true, r)
  | String "+" r => (false, r)
  | _ => (false, s)
  end.

(** The binary64 number nearest to [(-1)^neg * m * 10^e] (ties to even). *)
Definition float_of_decimal (neg : bool) (m : Z) (e : Z) : float :=
  match m with
  | Zpos p =>
      match e with
      | Zneg k =>
          SF2Prim (SFdiv prec emax (S754_finite neg p 0)
                                   (S754_finite false (Pos.pow 10 k) 0))
      | _ =>
          let v := Zpos p * 10 ^ e in
          SF2Prim (binary_normalize prec emax (if neg then - v else v) 0 neg)
      end
  | _ => SF2Prim (S754_zero neg)
  end.

Definition exponent_of_str (s : string) : option Z :=
  match s with
  | EmptyString => Some 0
  | String c r =>
      if (Ascii.eqb c "e" || Ascii.eqb c "E")%bool then
        let (neg, ds) := split_sign r in
        match ds with
        | EmptyString => None
        | _ =>
            match digits_value 0 ds with
            | Some n => Some (if neg then - n else n)
            | None => None
            end
        end
      else None
  end.

(** [float(s)] for [s] in the class of the [FLOAT] terminal and of plain
    decimal numbers: an optional sign, digits with an optional fraction, an
    optional exponent.  [None] outside of it (Python also reads [inf], [nan],
    underscores and surrounding blanks, and raises on the rest). *)
Definition float_of_str (s : string) : option float :=
  let (neg, s1) := split_sign s in
  let (ip, s2) := span_digits s1 in
  let (fp, s3) :=
    match s2 with
    | String "." r => span_digits r
    | _ => (EmptyString, s2)
    end in
  match digits_value 0 (ip ++ fp)%string, exponent_of_str s3 with
  | Some m, Some e =>
      match (ip ++ fp)%string with
      | EmptyString => None
      | _ => Some (float_of_decimal neg m (e - Z.of_nat (String.length fp)))
      end
  | _, _ => None
  end.

(** ** The literal transformer *)

Module PolyFileLiteralTransformer.

Definition COMMENT (token : Token.t) : Outcome PyObj :=
  Ok (VCommentLine (CommentLine.mk (rstrip (drop_first (Token.value token))))).

Definition EMPTY_LINES (token : Token.t) : Outcome PyObj :=
  _message_from_tokens [VToken token] WARNING
    "Unexpected empty lines will be ignored.".

Definition WS (token : Token.t) : Outcome PyObj :=
  _message_from_tokens [VToken token] WARNING
    "Unexpected empty whitespace will be ignored.".

Definition NAME (token : Token.t) : Outcome PyObj :=
  Ok (VTokenData token (VStr (Token.value token))).

Definition INT (token : Token.t) : Outcome PyObj :=
  (n <- int_of_str (Token.value token) ;;
   Ok (VTokenData token (VInt n)))%outcome.

Definition FLOAT (token : Token.t) : Outcome PyObj :=
  match float_of_str (Token.value token) with
  | Some f => Ok (VTokenData token (VFloat f))
  | None => Unmodelled
  end.

(** Lark raises [VisitError] in place of what a method of the transformer
    raises. *)
Definition visit_wrapped (o : Outcome PyObj) : Outcome PyObj :=
  match o with
  | Raise _ => Raise VisitError
  | _ => o
  end.

(** Lark calls the method named after the token's type, and keeps the token
    where the transformer has no such method. *)
Definition call_userfunc_token (token : Token.t) : Outcome PyObj :=
  match Token.type token with
  | TokenType.COMMENT => visit_wrapped (COMMENT token)
  | TokenType.EMPTY_LINES => visit_wrapped (EMPTY_LINES token)
  | TokenType.WS => visit_wrapped (WS token)
  | TokenType.NAME => visit_wrapped (NAME token)
  | TokenType.INT => visit_wrapped (INT token)
  | TokenType.FLOAT => visit_wrapped (FLOAT token)
  | TokenType.INVALID_BLOCK => Ok (VToken token)
  end.

(** Bottom-up: the children first, left to right, then the node; the
    transformer has no method for a rule, so a tree is rebuilt with its
    label.  A child that is neither a tree nor a token is kept. *)
Fixpoint transform (tree : PyObj) : Outcome PyObj :=
  match tree with
  | VTree data children =>
      (children' <- sequence (map transform children) ;;
       Ok (VTree data children'))%outcome
  | VToken token => call_userfunc_token token
  | _ => Ok tree
  end.

End PolyFileLiteralTransformer.

(** ** The semantic interpreter *)

Module PolyFileInterpreter.

(** The fields of an instance. *)
Record t : Type := mk
  { _has_z_value : bool;
    _min_n_columns : Z;
    _expected_n_columns : Z }.

Definition __init__ (has_z_value : bool) : t :=
  let min_n_columns := if negb has_z_value then 2 else 3 in
  {| _has_z_value := has_z_value;
     _min_n_columns := min_n_columns;
     _expected_n_columns := min_n_columns |}.

(** A method runs on the instance [self] and returns its outcome and the
    instance as the method leaves it. *)
Definition M (A : Type) : Type := t -> Outcome A * t.

Definition ret {A : Type} (a : A) : M A := fun self => (Ok a, self).

Definition bind {A B : Type} (m : M A) (k : A -> M B) : M B :=
  fun self =>
    match m self with
    | (Ok a, self') => k a self'
    | (Raise e, self') => (Raise e, self')
    | (Unmodelled, self') => (Unmodelled, self')
    end.

Definition lift {A : Type} (o : Outcome A) : M A := fun self => (o, self).

(** [self.f]. *)
Definition field {A : Type} (f : t -> A) : M A := fun self => (Ok (f self), self).

(** [self._expected_n_columns = n], which no method does: the test of
    [point_line] sets the field from outside. *)
Definition set_expected_n_columns (n : Z) : M unit :=
  fun self =>
    (Ok tt, {| _has_z_value := _has_z_value self;
               _min_n_columns := _min_n_columns self;
               _expected_n_columns := n |}).

Declare Scope M_scope.
Delimit Scope M_scope with M.
Notation "x <- m ;; k" := (bind m (fun x => k))
  (at level 61, m at next level, right associativity) : M_scope.
Notation "' p <- m ;; k" := (bind m (fun x => let p := x in k))
  (at level 61, p pattern, m at next level, right associativity) : M_scope.
Notation "x <~ o ;; k" := (bind (lift o) (fun x => k))
  (at level 61, o at next level, right associativity) : M_scope.
Notation "' p <~ o ;; k" := (bind (lift o) (fun x => let p := x in k))
  (at level 61, p pattern, o at next level, right associativity) : M_scope.
Open Scope M_scope.

(** A child of the tree at hand together with [self.visit] of it, which runs
    only where a method calls it. *)
Definition Child : Type := PyObj * M PyObj.

Definition visit_child (e : Child) : M PyObj := snd e.

Definition is_ParseMsg (o : PyObj) : bool :=
  match o with VParseMsg _ => true | _ => false end.

Definition _filter_msgs {A : Type} (obj : A -> PyObj) (input : list A)
    : list A * list PyObj :=
  let elems := filter (fun x => negb (is_ParseMsg (obj x))) input in
  let msgs := map obj (filter (fun x => is_ParseMsg (obj x)) input) in
  (elems, msgs).

Definition as_str (o : PyObj) : Outcome string :=
  match o with
  | VStr s => Ok s
  | VToken t => Ok (Token.value t)
  | _ => Raise TypeError
  end.

Definition newline : string := String (ascii_of_nat 10) EmptyString.

(** The methods.  A method of the source takes the tree and reads its
    [children]; here it takes the children, as objects where it only reads
    them, with their visits ([Child]) where it calls [self.visit] on some of
    them.  Every statement of a body that can fail is one line, in the order
    in which Python evaluates them. *)

(** [result = "\n".join(elem.content for elem in comments)]. *)
Definition description_header (children : list PyObj) : M PyObj :=
  let '(comments, msgs) := _filter_msgs id children in
  contents <~ mapM (fun elem => (c <- attr_content elem ;; as_str c)%outcome) comments ;;
  let result := String.concat newline contents in
  ret (VTuple [VDescriptionHeader (DescriptionHeader.mk result); VList msgs]).

(** [name, name_msgs = self.visit(elems[0])], then
    [((n_rows, n_columns), dimensions_msgs) = self.visit(elems[1])], then the
    two [msgs.extend]. *)
Definition metadata (children : list Child) : M PyObj :=
  let '(elems, msgs) := _filter_msgs fst children in
  e0 <~ getitem elems 0 ;;
  r0 <- visit_child e0 ;;
  '(name, name_msgs) <~ unpack2 r0 ;;
  e1 <~ getitem elems 1 ;;
  r1 <- visit_child e1 ;;
  '(dims, dimensions_msgs) <~ unpack2 r1 ;;
  '(n_rows, n_columns) <~ unpack2 dims ;;
  msgs <~ list_extend msgs name_msgs ;;
  msgs <~ list_extend msgs dimensions_msgs ;;
  m <~ new_Metadata name n_rows n_columns ;;
  ret (VTuple [m; VList msgs]).

(** [return elems[0].data, msgs]. *)
Definition name_line (children : list PyObj) : M PyObj :=
  let '(elems, msgs) := _filter_msgs id children in
  e0 <~ getitem elems 0 ;;
  data <~ attr_data e0 ;;
  ret (VTuple [data; VList msgs]).

(** [(result, msgs) = self.visit(tree.children[-1])], and with more than one
    child [msgs.append(_message_from_tokens((tree.children[0].token,), ...))]. *)
Definition dimensions_line (children : list Child) : M PyObj :=
  last <~ getitem children (-1) ;;
  r <- visit_child last ;;
  '(result, msgs) <~ unpack2 r ;;
  msgs <- (if (1 <? Z.of_nat (length children)) then
             (* Given the grammar, if more than 1 element exist, it is due
                to the first element being whitespace. *)
             append <~ attr_append msgs ;;
             first <~ getitem children 0 ;;
             token <~ attr_token (fst first) ;;
             msg <~ _message_from_tokens [token] WARNING
                      "Whitespace at the beginning of the dimensions is ignored." ;;
             ret (append msg)
           else ret msgs) ;;
  ret (VTuple [result; msgs]).

(** [o < n] for an int [n]: ints compare, a float is compared by value (not
    embedded), any other object raises. *)
Definition lt_int (o : PyObj) (n : Z) : Outcome bool :=
  match o with
  | VInt a => Ok (a <? n)
  | VFloat _ => Unmodelled
  | _ => Raise TypeError
  end.

(** [n_rows = tree.children[0].data], [n_columns = tree.children[1].data],
    and an ERROR on the second token when [n_columns < self._min_n_columns]. *)
Definition dimensions_valid (children : list PyObj) : M PyObj :=
  let msgs : list PyObj := [] in
  c0 <~ getitem children 0 ;;
  n_rows <~ attr_data c0 ;;
  c1 <~ getitem children 1 ;;
  n_columns <~ attr_data c1 ;;
  min_n_columns <- field _min_n_columns ;;
  too_small <~ lt_int n_columns min_n_columns ;;
  msgs <- (if too_small : bool then
             c1' <~ getitem children 1 ;;
             token <~ attr_token c1' ;;
             msg <~ _message_from_tokens [token] ERROR
                      "The number of specified columns is smaller than the minimum expected number." ;;
             ret (msgs ++ [msg])
           else ret msgs) ;;
  ret (VTuple [VTuple [n_rows; n_columns]; VList msgs]).

(** [(result, msgs) = self.visit(tree.children[0])], then one
    [msgs.append(_message_from_tokens((tree.children[1].token,), ...))]. *)
Definition dimensions_exceeding_columns (children : list Child) : M PyObj :=
  first <~ getitem children 0 ;;
  r <- visit_child first ;;
  '(result, msgs) <~ unpack2 r ;;
  append <~ attr_append msgs ;;
  c1 <~ getitem children 1 ;;
  token <~ attr_token (fst c1) ;;
  msg <~ _message_from_tokens [token] WARNING
           "Too many columns specified, the excess columns will be ignored." ;;
  ret (VTuple [result; append msg]).

(** The list of one ERROR on [tree.children[0].token], then
    [n_rows = tree.children[0].data] and [return ((n_rows, -1), msgs)]. *)
Definition dimensions_missing_column (children : list PyObj) : M PyObj :=
  c0 <~ getitem children 0 ;;
  token <~ attr_token c0 ;;
  msg <~ _message_from_tokens [token] ERROR
           "Only one dimension is specified, the number of columns will not be validated" ;;
  let msgs := [msg] in
  c0' <~ getitem children 0 ;;
  n_rows <~ attr_data c0' ;;
  ret (VTuple [VTuple [n_rows; VInt (-1)]; VList msgs]).

(** [_message_from_tokens((tree.children[0].token, tree.children[-1].token),
    ParseErrorLevel.ERROR, reason)]: the span of a point's diagnostic runs
    from its first to its last value. *)
Definition point_msg (children : list PyObj) (reason : string) : Outcome PyObj :=
  (c0 <- getitem children 0 ;;
   t0 <- attr_token c0 ;;
   cl <- getitem children (-1) ;;
   tl <- attr_token cl ;;
   _message_from_tokens [t0; tl] ERROR reason)%outcome.

(** [values = list(v.data for v in tree.children)], the [if]/[elif] on
    [n_values] against [self._expected_n_columns], [z_value], [data] and the
    [Point]. *)
Definition point (children : list PyObj) : M PyObj :=
  let msgs : list PyObj := [] in
  values <~ mapM attr_data children ;;
  let n_values := Z.of_nat (length values) in
  expected <- field _expected_n_columns ;;
  msgs <- (if n_values <? expected then
             msg <~ point_msg children
                      "Not as many columns provided as specified, the created point will be missing data." ;;
             ret (msgs ++ [msg])
           else if expected <? n_values then
             msg <~ point_msg children
                      "Too many columns provided as specified, the created point will contain too much data." ;;
             ret (msgs ++ [msg])
           else ret msgs) ;;
  has_z_value <- field _has_z_value ;;
  z_value <~ (if has_z_value && (3 <=? n_values) then getitem values 2 else Ok VNone) ;;
  min_n_columns <- field _min_n_columns ;;
  let data := slice_from values min_n_columns in
  x <~ getitem values 0 ;;
  y <~ getitem values 1 ;;
  p <~ new_Point x y z_value data ;;
  ret (VTuple [p; VList msgs]).

(** [return (None, [_message_from_tokens((tree.children[0].token,), ...)])]. *)
Definition point_invalid (children : list PyObj) : M PyObj :=
  c0 <~ getitem children 0 ;;
  token <~ attr_token c0 ;;
  msg <~ _message_from_tokens [token] ERROR
           "No point can be constructed from only a single value, row will be skipped" ;;
  ret (VTuple [VNone; VList [msg]]).

(** The loop of [points] over the remaining elements: [self.visit(e)],
    [if point: points.append(point)], [if point_msgs: msgs.extend(point_msgs)]. *)
Fixpoint points_loop (elems : list Child) (points msgs : list PyObj)
    : M (list PyObj * list PyObj) :=
  match elems with
  | [] => ret (points, msgs)
  | e :: rest =>
      r <- visit_child e ;;
      '(point, point_msgs) <~ unpack2 r ;;
      let points := if truth point then points ++ [point] else points in
      msgs <~ (if truth point_msgs then list_extend msgs point_msgs else Ok msgs) ;;
      points_loop rest points msgs
  end.

Definition points (children : list Child) : M PyObj :=
  let '(elems, msgs) := _filter_msgs fst children in
  '(points, msgs) <- points_loop elems [] msgs ;;
  ret (VTuple [VList points; VList msgs]).

(** [tuple(self.visit(e) for e in elems)]. *)
Fixpoint visit_all (elems : list Child) : M (list PyObj) :=
  match elems with
  | [] => ret []
  | e :: rest =>
      r <- visit_child e ;;
      rs <- visit_all rest ;;
      ret (r :: rs)
  end.

(** The two assignments of [poly_block] that unpack the components: three
    pairs when there are three components, two pairs otherwise, the
    description then being [None] and its diagnostics the empty list. *)
Definition unpack_components (components : list PyObj)
    : Outcome (PyObj * PyObj * PyObj * PyObj * PyObj * PyObj) :=
  (if Nat.eqb (length components) 3 then
     ' (c0, c1, c2) <- unpack3 (VTuple components) ;;
     ' (description, description_msgs) <- unpack2 c0 ;;
     ' (metadata, metadata_msgs) <- unpack2 c1 ;;
     ' (points, point_msgs) <- unpack2 c2 ;;
     Ok (description, description_msgs, metadata, metadata_msgs, points, point_msgs)
   else
     ' (c0, c1) <- unpack2 (VTuple components) ;;
     ' (metadata, metadata_msgs) <- unpack2 c0 ;;
     ' (points, point_msgs) <- unpack2 c1 ;;
     Ok (VNone, VList [], metadata, metadata_msgs, points, point_msgs))%outcome.

Definition poly_block (children : list Child) : M PyObj :=
  let '(elems, msgs) := _filter_msgs fst children in
  components <- visit_all elems ;;
  '(description, description_msgs, metadata, metadata_msgs, points, point_msgs) <~
     unpack_components components ;;
  msgs <~ list_extend msgs description_msgs ;;
  msgs <~ list_extend msgs metadata_msgs ;;
  msgs <~ list_extend msgs point_msgs ;;
  o <~ new_PolyObject description metadata points ;;
  ret (VTuple [o; VList msgs]).

(** [return _message_from_tokens(tree.children, ParseErrorLevel.ERROR, ...)]:
    the diagnostic itself. *)
Definition invalid_block (children : list PyObj) : M PyObj :=
  lift (_message_from_tokens children ERROR "Invalid block of data will be ignored.").

(** The body of [poly_file] is [pass]. *)
Definition poly_file (children : list PyObj) : M PyObj :=
  ret VNone.

(** [self.visit(tree)] looks up the method named [tree.data] and calls it.
    An object without [data] raises there; a [Point] or a [TokenData] has a
    [data] that is no method name, unless it is a string: then the lookup
    depends on the attributes of the instance, and is left out. *)
Fixpoint visit (tree : PyObj) : M PyObj :=
  match tree with
  | VTree data children =>
      let visited : list Child := map (fun c => (c, visit c)) children in
      match data with
      | Rule.description_header => description_header children
      | Rule.name_line => name_line children
      | Rule.dimensions_valid => dimensions_valid children
      | Rule.dimensions_missing_column => dimensions_missing_column children
      | Rule.dimensions_exceeding_columns => dimensions_exceeding_columns visited
      | Rule.dimensions_line => dimensions_line visited
      | Rule.metadata => metadata visited
      | Rule.point => point children
      | Rule.point_invalid => point_invalid children
      | Rule.points => points visited
      | Rule.poly_block => poly_block visited
      | Rule.invalid_block => invalid_block children
      | Rule.poly_file => poly_file children
      end
  | VTokenData _ (VStr _) | VTokenData _ (VToken _) => lift Unmodelled
  | VTokenData _ _ | VPoint _ => lift (Raise TypeError)
  | _ => lift (Raise AttributeError)
  end.

End PolyFileInterpreter.

(** * Inputs and predicates of the statements *)

Import PolyFileInterpreter.

(** ** The two passes together *)

(** Transform, then visit with an instance [self]. *)
Definition interpret (self : t) (tree : PyObj) : Outcome PyObj * t :=
  match PolyFileLiteralTransformer.transform tree with
  | Ok tree' => visit tree' self
  | Raise e => (Raise e, self)
  | Unmodelled => (Unmodelled, self)
  end.

(** Transform, set [_expected_n_columns] as a caller may, then visit. *)
Definition interpret_expecting (n : Z) (self : t) (tree : PyObj) : Outcome PyObj * t :=
  match PolyFileLiteralTransformer.transform tree with
  | Ok tree' => (_ <- set_expected_n_columns n ;; visit tree') self
  | Raise e => (Raise e, self)
  | Unmodelled => (Unmodelled, self)
  end.

(** A parse tree after the literal transformer, and its children. *)
Definition transformed (tree : PyObj) : PyObj :=
  match PolyFileLiteralTransformer.transform tree with
  | Ok tree' => tree'
  | _ => VNone
  end.

Definition transformed_children (tree : PyObj) : list PyObj :=
  match transformed tree with
  | VTree _ children => children
  | _ => []
  end.

(** The children of a tree, each with its visit, as [visit] hands them to
    the methods. *)
Definition visited (children : list PyObj) : list Child :=
  map (fun c => (c, visit c)) children.

(** The two lists of [_filter_msgs]: the diagnostics among the children of a
    node, and the other children. *)
Definition own_msgs (children : list PyObj) : list PyObj :=
  filter is_ParseMsg children.

Definition elems (children : list PyObj) : list PyObj :=
  filter (fun x => negb (is_ParseMsg x)) children.

(** ** Diagnostics *)

Definition reason_empty_lines : string := "Unexpected empty lines will be ignored.".

Definition reason_whitespace : string := "Unexpected empty whitespace will be ignored.".

Definition reason_too_few_columns : string :=
  "The number of specified columns is smaller than the minimum expected number.".

Definition reason_missing_column : string :=
  "Only one dimension is specified, the number of columns will not be validated".

Definition reason_excess_columns : string :=
  "Too many columns specified, the excess columns will be ignored.".

Definition reason_point_missing : string :=
  "Not as many columns provided as specified, the created point will be missing data.".

Definition reason_point_excess : string :=
  "Too many columns provided as specified, the created point will contain too much data.".

Definition reason_point_invalid : string :=
  "No point can be constructed from only a single value, row will be skipped".

Definition reason_invalid_block : string := "Invalid block of data will be ignored.".

(** The diagnostic that [_message_from_tokens] builds for the tokens from
    [first] to [last]. *)
Definition msg_at (level : ParseErrorLevel) (first last : Token.t)
    (reason : string) : PyObj :=
  VParseMsg (ParseMsg.mk level
               (Token.line first, Token.end_line last)
               (Token.column first, Token.end_column last) reason).

(** The number of diagnostics of a level in a list of objects. *)
Definition has_level (level : ParseErrorLevel) (o : PyObj) : bool :=
  match o with
  | VParseMsg m =>
      ParseErrorLevel_value (ParseMsg.level m) =? ParseErrorLevel_value level
  | _ => false
  end.

Definition count_level (level : ParseErrorLevel) (msgs : list PyObj) : nat :=
  length (filter (has_level level) msgs).

(** A diagnostic that is there or not, as a list. *)
Definition opt (m : option ParseMsg.t) : list PyObj :=
  match m with
  | Some m => [VParseMsg m]
  | None => []
  end.

(** Where a diagnostic starts: line, then column. *)
Definition msg_start (o : PyObj) : Z * Z :=
  match o with
  | VParseMsg m => (fst (ParseMsg.line m), fst (ParseMsg.column m))
  | _ => (0, 0)
  end.

Definition position_leb (p q : Z * Z) : bool :=
  (fst p <? fst q) || ((fst p =? fst q) && (snd p <=? snd q)).

(** Document order: every diagnostic starts at or after the one before it. *)
Fixpoint in_document_order (msgs : list PyObj) : bool :=
  match msgs with
  | a :: (b :: _) as rest =>
      position_leb (msg_start a) (msg_start b) && in_document_order rest
  | _ => true
  end.

(** ** What the rules of a line compute *)

(** The diagnostics of [dimensions_valid] for a declared column count [C]. *)
Definition dimensions_valid_msgs (self : t) (tC : Token.t) (C : Z) : list PyObj :=
  if C <? _min_n_columns self then [msg_at ERROR tC tC reason_too_few_columns] else [].

(** A float literal as the transformer leaves it. *)
Definition float_data (r : Token.t * float) : PyObj :=
  VTokenData (fst r) (VFloat (snd r)).

(** The point that [point] builds from the values of a row. *)
Definition point_of (self : t) (values : list float) (x y : float) : Point.t :=
  {| Point.x := x;
     Point.y := y;
     Point.z := if _has_z_value self && (3 <=? Z.of_nat (length values))
                then nth_error values 2 else None;
     Point.data := slice_from values (_min_n_columns self) |}.

(** The diagnostics of [point] for a row of [n] values. *)
Definition point_msgs (self : t) (first last : Token.t) (n : Z) : list PyObj :=
  if n <? _expected_n_columns self then [msg_at ERROR first last reason_point_missing]
  else if _expected_n_columns self <? n then [msg_at ERROR first last reason_point_excess]
  else [].

(** ** Parse trees used as inputs

    The parser is Lark's: the trees below are written by hand after the
    grammar, with the line and column of every token.  [token_at ty text l c]
    is the token of type [ty] and text [text] that starts at line [l], column
    [c] and stays on that line. *)
Definition token_at (ty : TokenType.t) (text : string) (l c : Z) : Token.t :=
  Token.mk ty text l c l (c + Z.of_nat (String.length text)).

Definition tok (ty : TokenType.t) (text : string) (l c : Z) : PyObj :=
  VToken (token_at ty text l c).

(** The parse tree of the block
<<
* desc
myName
3 3
1.0 2.0 3.0
4.0 5.0 6.0
7.0 8.0 9.0
>>
    under the rule [poly_block]. *)
Definition round_trip_tree : PyObj :=
  VTree Rule.poly_block
    [ VTree Rule.description_header [tok TokenType.COMMENT "* desc" 1 1];
      VTree Rule.metadata
        [ VTree Rule.name_line [tok TokenType.NAME "myName" 2 1];
          VTree Rule.dimensions_line
            [ VTree Rule.dimensions_valid
                [tok TokenType.INT "3" 3 1; tok TokenType.INT "3" 3 3] ] ];
      VTree Rule.points
        [ VTree Rule.point
            [tok TokenType.FLOAT "1.0" 4 1; tok TokenType.FLOAT "2.0" 4 5;
             tok TokenType.FLOAT "3.0" 4 9];
          VTree Rule.point
            [tok TokenType.FLOAT "4.0" 5 1; tok TokenType.FLOAT "5.0" 5 5;
             tok TokenType.FLOAT "6.0" 5 9];
          VTree Rule.point
            [tok TokenType.FLOAT "7.0" 6 1; tok TokenType.FLOAT "8.0" 6 5;
             tok TokenType.FLOAT "9.0" 6 9] ] ].

Definition point_1_2_3 (z : bool) : Point.t :=
  if z then Point.mk 1.0 2.0 (Some 3.0%float) [] else Point.mk 1.0 2.0 None [3.0%float].

Definition point_4_5_6 (z : bool) : Point.t :=
  if z then Point.mk 4.0 5.0 (Some 6.0%float) [] else Point.mk 4.0 5.0 None [6.0%float].

Definition point_7_8_9 (z : bool) : Point.t :=
  if z then Point.mk 7.0 8.0 (Some 9.0%float) [] else Point.mk 7.0 8.0 None [9.0%float].

(** The object of the round-trip block, with or without z-values. *)
Definition round_trip_object (z : bool) : PyObj :=
  VPolyObject
    {| PolyObject.description := Some (DescriptionHeader.mk " desc");
       PolyObject.metadata := Metadata.mk "myName" 3 3;
       PolyObject.points := [point_1_2_3 z; point_4_5_6 z; point_7_8_9 z] |}.

(** The ERROR of a row of three values on line [l] where two are expected. *)
Definition excess_error (l : Z) : PyObj :=
  VParseMsg (ParseMsg.mk ERROR (l, l) (1, 12) reason_point_excess).

(** The parse tree of
<<
1.0 2.0

3.0 4.0
>>
    under the rule [points]: two rows and the blank line between them. *)
Definition points_with_blank_line : PyObj :=
  VTree Rule.points
    [ VTree Rule.point [tok TokenType.FLOAT "1.0" 1 1; tok TokenType.FLOAT "2.0" 1 5];
      VToken (Token.mk TokenType.EMPTY_LINES newline 2 1 3 1);
      VTree Rule.point [tok TokenType.FLOAT "3.0" 3 1; tok TokenType.FLOAT "4.0" 3 5] ].

(** The parse tree of
<<
  myName

3 3
>>
    under the rule [metadata]: whitespace before the name and a blank line
    after the name line. *)
Definition metadata_with_blank_line : PyObj :=
  VTree Rule.metadata
    [ VTree Rule.name_line [tok TokenType.WS "  " 1 1; tok TokenType.NAME "myName" 1 3];
      VToken (Token.mk TokenType.EMPTY_LINES newline 2 1 3 1);
      VTree Rule.dimensions_line
        [ VTree Rule.dimensions_valid
            [tok TokenType.INT "3" 3 1; tok TokenType.INT "3" 3 3] ] ].

(** The parse tree of the dimension line [5 12 18 19] under the rule
    [dimensions_line]: two integers in excess. *)
Definition two_excess_integers : PyObj :=
  VTree Rule.dimensions_line
    [ VTree Rule.dimensions_exceeding_columns
        [ VTree Rule.dimensions_valid
            [tok TokenType.INT "5" 1 1; tok TokenType.INT "12" 1 3];
          tok TokenType.INT "18" 1 6;
          tok TokenType.INT "19" 1 9 ] ].

(** The parse tree of the dimension line of the tokenizer's test, six blanks
    and then [5    23], under the rule [dimensions_line]. *)
Definition indented_dimensions_line : PyObj :=
  VTree Rule.dimensions_line
    [ tok TokenType.WS "      " 1 1;
      VTree Rule.dimensions_valid
        [tok TokenType.INT "5" 1 7; tok TokenType.INT "23" 1 12] ].

(** The row of the test of [point_line], five values, after the transformer. *)
Definition five_values_row : PyObj :=
  VTree Rule.point
    [ VTokenData (token_at TokenType.FLOAT "1.0" 1 4) (VFloat 1.0);
      VTokenData (token_at TokenType.FLOAT "2.0" 1 9) (VFloat 2.0);
      VTokenData (token_at TokenType.FLOAT "3.0" 1 14) (VFloat 3.0);
      VTokenData (token_at TokenType.FLOAT "4.0" 1 19) (VFloat 4.0);
      VTokenData (token_at TokenType.FLOAT "5.0" 1 24) (VFloat 5.0) ].

(** The parse tree of the text [???] and its line end under the rule
    [invalid_block], at line 5 of a file. *)
Definition invalid_block_tree : PyObj :=
  VTree Rule.invalid_block
    [VToken (Token.mk TokenType.INVALID_BLOCK ("???" ++ newline) 5 1 6 1)].

(** The parse tree of the file
<<
myName
2 2
1.0 2.0
3.0 4.0
???
>>
    under the rule [poly_file]: a well-formed block, then a block that
    matches nothing but [INVALID_BLOCK]. *)
Definition well_formed_block : PyObj :=
  VTree Rule.poly_block
    [ VTree Rule.metadata
        [ VTree Rule.name_line [tok TokenType.NAME "myName" 1 1];
          VTree Rule.dimensions_line
            [ VTree Rule.dimensions_valid
                [tok TokenType.INT "2" 2 1; tok TokenType.INT "2" 2 3] ] ];
      VTree Rule.points
        [ VTree Rule.point [tok TokenType.FLOAT "1.0" 3 1; tok TokenType.FLOAT "2.0" 3 5];
          VTree Rule.point [tok TokenType.FLOAT "3.0" 4 1; tok TokenType.FLOAT "4.0" 4 5] ] ].

Definition file_tree : PyObj :=
  VTree Rule.poly_file [well_formed_block; invalid_block_tree].

(** ** The parse trees of the repository's tests

    The inputs of the tests of [tests/io/test_polyfile.py] that run the
    interpreter, as the tests of the tokenizer describe their trees. *)

Definition blank (text : string) (l end_l : Z) : PyObj :=
  VToken (Token.mk TokenType.EMPTY_LINES text l 1 end_l 1).

(** [test_comment_is_parsed_correctly]. *)
Definition test_description_header : PyObj :=
  VTree Rule.description_header
    [ tok TokenType.COMMENT "* some value           " 1 1;
      tok TokenType.COMMENT "* another value      " 2 1;
      blank ("    " ++ newline ++ "        " ++ newline) 3 5;
      tok TokenType.COMMENT "* last value" 5 1 ].

(** [test_metadata_is_parsed_correctly]. *)
Definition test_metadata : PyObj :=
  VTree Rule.metadata
    [ VTree Rule.name_line [tok TokenType.NAME "this is a name" 1 1];
      VTree Rule.dimensions_line
        [ VTree Rule.dimensions_valid
            [tok TokenType.INT "5" 2 1; tok TokenType.INT "23" 2 6] ] ].

(** [test_point_line_is_parsed_correctly]. *)
Definition test_point_line : PyObj :=
  VTree Rule.point
    [ tok TokenType.FLOAT "1.0" 1 4; tok TokenType.FLOAT "2.0" 1 9;
      tok TokenType.FLOAT "3.0" 1 14; tok TokenType.FLOAT "4.0" 1 19;
      tok TokenType.FLOAT "5.0" 1 24 ].

(** [test_invalid_point_line_is_parsed_correctly]. *)
Definition test_invalid_point_line : PyObj :=
  VTree Rule.point_invalid [tok TokenType.FLOAT "1.0" 1 4].

(** The three rows of [test_points_is_parsed_correctly] and of
    [test_polyblock_is_parsed_correctly], from line [l] on: two rows, two
    blank lines, one row. *)
Definition test_rows (l : Z) : PyObj :=
  VTree Rule.points
    [ VTree Rule.point
        [ tok TokenType.FLOAT "1.0" l 5; tok TokenType.FLOAT "2.0" l 10;
          tok TokenType.FLOAT "3.0" l 15 ];
      VTree Rule.point
        [ tok TokenType.FLOAT "4.0" (l + 1) 5; tok TokenType.FLOAT "5.0" (l + 1) 10;
          tok TokenType.FLOAT "6.0" (l + 1) 15 ];
      blank (newline ++ newline) (l + 2) (l + 4);
      VTree Rule.point
        [ tok TokenType.FLOAT "7.0" (l + 4) 5; tok TokenType.FLOAT "8.0" (l + 4) 10;
          tok TokenType.FLOAT "9.0" (l + 4) 15 ] ].

(** [test_polyblock_is_parsed_correctly]. *)
Definition test_polyblock : PyObj :=
  VTree Rule.poly_block
    [ VTree Rule.description_header
        [tok TokenType.COMMENT "* Some description header" 1 1];
      VTree Rule.metadata
        [ VTree Rule.name_line [tok TokenType.NAME "this is a name" 2 1];
          VTree Rule.dimensions_line
            [ VTree Rule.dimensions_valid
                [tok TokenType.INT "3" 3 1; tok TokenType.INT "3" 3 6] ] ];
      test_rows 4 ].

(** ** The trees of the grammar

    The shape that [polyfile_grammar] gives to the children of each rule,
    after the literal transformer: comments are [CommentLine]s, blank lines
    and kept whitespace are diagnostics, names, integers and floats are
    [TokenData].  The shapes are those of the grammar, but that a diagnostic
    may stand anywhere among the children of [metadata], [points],
    [poly_block] and [poly_file]. *)

Definition is_CommentLine (o : PyObj) : bool :=
  match o with VCommentLine _ => true | _ => false end.

Definition is_name_data (o : PyObj) : bool :=
  match o with VTokenData _ (VStr _) => true | _ => false end.

Definition is_int_data (o : PyObj) : bool :=
  match o with VTokenData _ (VInt _) => true | _ => false end.

Definition is_float_data (o : PyObj) : bool :=
  match o with VTokenData _ (VFloat _) => true | _ => false end.

Definition is_token (o : PyObj) : bool :=
  match o with VToken _ => true | _ => false end.

Definition is_dimensions_valid (o : PyObj) : bool :=
  match o with VTree Rule.dimensions_valid _ => true | _ => false end.

Definition is_dimensions (o : PyObj) : bool :=
  match o with
  | VTree Rule.dimensions_valid _
  | VTree Rule.dimensions_missing_column _
  | VTree Rule.dimensions_exceeding_columns _ => true
  | _ => false
  end.

Definition is_name_line (o : PyObj) : bool :=
  match o with VTree Rule.name_line _ => true | _ => false end.

Definition is_dimensions_line (o : PyObj) : bool :=
  match o with VTree Rule.dimensions_line _ => true | _ => false end.

Definition is_description_header (o : PyObj) : bool :=
  match o with VTree Rule.description_header _ => true | _ => false end.

Definition is_metadata (o : PyObj) : bool :=
  match o with VTree Rule.metadata _ => true | _ => false end.

Definition is_points (o : PyObj) : bool :=
  match o with VTree Rule.points _ => true | _ => false end.

Definition is_point_line (o : PyObj) : bool :=
  match o with
  | VTree Rule.point _ | VTree Rule.point_invalid _ => true
  | _ => false
  end.

Definition is_block (o : PyObj) : bool :=
  match o with
  | VTree Rule.poly_block _ | VTree Rule.invalid_block _ => true
  | _ => false
  end.

Definition shape (data : Rule.t) (children : list PyObj) : bool :=
  match data with
  | Rule.description_header =>
      forallb (fun c => is_CommentLine c || is_ParseMsg c) children
  | Rule.name_line =>
      match children with
      | [n] => is_name_data n
      | [ws; n] => is_ParseMsg ws && is_name_data n
      | _ => false
      end
  | Rule.dimensions_valid =>
      match children with
      | [r; c] => is_int_data r && is_int_data c
      | _ => false
      end
  | Rule.dimensions_missing_column =>
      match children with
      | [r] => is_int_data r
      | _ => false
      end
  | Rule.dimensions_exceeding_columns =>
      match children with
      | valid :: x :: rest =>
          is_dimensions_valid valid && is_int_data x && forallb is_int_data rest
      | _ => false
      end
  | Rule.dimensions_line =>
      match children with
      | [d] => is_dimensions d
      | [ws; d] => is_ParseMsg ws && is_dimensions d
      | _ => false
      end
  | Rule.metadata =>
      match elems children with
      | [n; d] => is_name_line n && is_dimensions_line d
      | _ => false
      end
  | Rule.point =>
      match children with
      | _ :: _ :: _ => forallb is_float_data children
      | _ => false
      end
  | Rule.point_invalid =>
      match children with
      | [x] => is_float_data x
      | _ => false
      end
  | Rule.points =>
      forallb (fun c => is_ParseMsg c || is_point_line c) children
  | Rule.poly_block =>
      match elems children with
      | [m; p] => is_metadata m && is_points p
      | [d; m; p] => is_description_header d && is_metadata m && is_points p
      | _ => false
      end
  | Rule.invalid_block =>
      match children with
      | [b] => is_token b
      | [n; b] => is_name_line n && is_token b
      | _ => false
      end
  | Rule.poly_file =>
      forallb (fun c => is_ParseMsg c || is_block c) children
  end.

Fixpoint conforms (tree : PyObj) : bool :=
  match tree with
  | VTree data children => shape data children && forallb conforms children
  | _ => true
  end.

(** The type of the value of each rule. *)
Definition typed (data : Rule.t) (v : PyObj) : Prop :=
  match data with
  | Rule.description_header => exists h l, v = VTuple [VDescriptionHeader h; VList l]
  | Rule.name_line => exists s l, v = VTuple [VStr s; VList l]
  | Rule.dimensions_valid
  | Rule.dimensions_missing_column
  | Rule.dimensions_exceeding_columns
  | Rule.dimensions_line => exists r c l, v = VTuple [VTuple [VInt r; VInt c]; VList l]
  | Rule.metadata => exists m l, v = VTuple [VMetadata m; VList l]
  | Rule.point => exists p l, v = VTuple [VPoint p; VList l]
  | Rule.point_invalid => exists l, v = VTuple [VNone; VList l]
  | Rule.points => exists ps l, v = VTuple [VList (map VPoint ps); VList l]
  | Rule.poly_block => exists o l, v = VTuple [VPolyObject o; VList l]
  | Rule.invalid_block => exists m, v = VParseMsg m
  | Rule.poly_file => v = VNone
  end.

(** The value of a row: a point or nothing. *)
Definition row_value (v : PyObj) : Prop :=
  exists p l, v = VTuple [p; VList l] /\ (p = VNone \/ exists q, p = VPoint q).

(** [safe m Q]: the method [m] stays inside the embedded part of Python, it
    raises nothing but [AttributeError], and a value that it returns
    satisfies [Q]. *)
Definition safe_outcome {A : Type} (o : Outcome A) (Q : A -> Prop) : Prop :=
  match o with
  | Ok a => Q a
  | Raise e => e = AttributeError
  | Unmodelled => False
  end.

Definition safe {A : Type} (m : M A) (Q : A -> Prop) : Prop :=
  forall self, safe_outcome (fst (m self)) Q.

(** A tree of the grammar is visited safely and its value has the type of
    its rule. *)
Definition safe_tree (o : PyObj) : Prop :=
  forall data children,
    o = VTree data children -> conforms o = true -> safe (visit o) (typed data).

(** ** What every method leaves and returns

    [returns m Q]: the method [m] leaves the instance as it found it, and a
    value that it returns satisfies [Q]. *)
Definition returns {A : Type} (m : M A) (Q : A -> Prop) : Prop :=
  forall self, snd (m self) = self /\ forall a, fst (m self) = Ok a -> Q a.

(** The results of the methods: a pair of a value and a list of diagnostics,
    but for [invalid_block] (one diagnostic) and [poly_file] (nothing). *)
Definition msg_list (l : list PyObj) : Prop := Forall (fun m => is_ParseMsg m = true) l.

Definition msgs_obj (m : PyObj) : Prop := exists l, m = VList l /\ msg_list l.

Definition pair_result (v : PyObj) : Prop :=
  exists a l, v = VTuple [a; VList l] /\ msg_list l.

Definition is_pair (v : PyObj) : bool :=
  match v with
  | VTuple [_; VList _] => true
  | _ => false
  end.

Definition any_result (v : PyObj) : Prop :=
  v = VNone \/ is_ParseMsg v = true \/ pair_result v.

Definition visit_result (tree v : PyObj) : Prop :=
  match tree with
  | VTree Rule.invalid_block _ => is_ParseMsg v = true
  | VTree Rule.poly_file _ => v = VNone
  | _ => pair_result v
  end.

(** The children of a node, each with a visit that leaves the instance and
    returns one of the results above. *)
Definition kids_ok (kids : list Child) : Prop :=
  Forall (fun e => returns (snd e) any_result) kids.

Definition is_tree (o : PyObj) : bool :=
  match o with VTree _ _ => true | _ => false end.

(** ** Further inputs and predicates

    For the properties of the parts of the reader that the statements above
    do not reach. *)

(** A child of a [description_header]: a comment line or a run of blank
    lines, after the transformer. *)
Definition header_child (c : CommentLine.t + ParseMsg.t) : PyObj :=
  match c with
  | inl c => VCommentLine c
  | inr m => VParseMsg m
  end.

Definition header_contents (lines : list (CommentLine.t + ParseMsg.t)) : list string :=
  flat_map (fun c => match c with
                     | inl c => [CommentLine.content c]
                     | inr _ => []
                     end) lines.

Definition header_msgs (lines : list (CommentLine.t + ParseMsg.t)) : list PyObj :=
  flat_map (fun c => match c with
                     | inl _ => []
                     | inr m => [VParseMsg m]
                     end) lines.

Fixpoint all_space (s : string) : bool :=
  match s with
  | EmptyString => true
  | String c r => is_space c && all_space r
  end.

Fixpoint ends_with_space (s : string) : bool :=
  match s with
  | EmptyString => false
  | String c EmptyString => is_space c
  | String _ r => ends_with_space r
  end.

(** The tokens at the leaves of a parse tree, and the diagnostics at the
    leaves of a transformed tree, from left to right. *)
Fixpoint leaf_tokens (tree : PyObj) : list Token.t :=
  match tree with
  | VTree _ children => flat_map leaf_tokens children
  | VToken token => [token]
  | _ => []
  end.

Fixpoint leaf_msgs (tree : PyObj) : list PyObj :=
  match tree with
  | VTree _ children => flat_map leaf_msgs children
  | VParseMsg m => [VParseMsg m]
  | _ => []
  end.

(** A tree as the parser builds it: rules over tokens. *)
Fixpoint is_parse_tree (tree : PyObj) : bool :=
  match tree with
  | VTree _ children => forallb is_parse_tree children
  | VToken _ => true
  | _ => false
  end.

(** The WARNING on a token of white space or of blank lines, none on
    another token. *)
Definition blank_warning (token : Token.t) : list PyObj :=
  match Token.type token with
  | TokenType.EMPTY_LINES => [msg_at WARNING token token reason_empty_lines]
  | TokenType.WS => [msg_at WARNING token token reason_whitespace]
  | _ => []
  end.

(** The values that a point holds, in the order of the columns. *)
Definition point_values (p : Point.t) : list float :=
  Point.x p :: Point.y p
  :: (match Point.z p with Some z => [z] | None => [] end ++ Point.data p).

(** A child of [points] after the transformer: a run of blank lines, a row
    of two or more values, or a row of one value. *)
Inductive PointsChild : Type :=
  | BlankLines (m : ParseMsg.t)
  | PointRow (r0 r1 : Token.t * float) (rest : list (Token.t * float))
  | SingleValue (r : Token.t * float).

Definition points_child (c : PointsChild) : PyObj :=
  match c with
  | BlankLines m => VParseMsg m
  | PointRow r0 r1 rest => VTree Rule.point (map float_data (r0 :: r1 :: rest))
  | SingleValue r => VTree Rule.point_invalid [float_data r]
  end.

(** What a child of [points] adds to the points, to the diagnostics of the
    node itself and to those of its rows. *)
Definition row_points (self : t) (c : PointsChild) : list Point.t :=
  match c with
  | PointRow r0 r1 rest =>
      [point_of self (map snd (r0 :: r1 :: rest)) (snd r0) (snd r1)]
  | _ => []
  end.

Definition row_blanks (c : PointsChild) : list PyObj :=
  match c with
  | BlankLines m => [VParseMsg m]
  | _ => []
  end.

Definition row_msgs (self : t) (c : PointsChild) : list PyObj :=
  match c with
  | BlankLines _ => []
  | PointRow r0 r1 rest =>
      point_msgs self (fst r0) (fst (last (r0 :: r1 :: rest) r0))
        (Z.of_nat (length (r0 :: r1 :: rest)))
  | SingleValue r => [msg_at ERROR (fst r) (fst r) reason_point_invalid]
  end.

Definition is_PointRow (c : PointsChild) : bool :=
  match c with PointRow _ _ _ => true | _ => false end.

(** A tree in which no dimension line starts with white space and no invalid
    block starts with a name line: each of them has one child. *)
Fixpoint clean (tree : PyObj) : bool :=
  match tree with
  | VTree data children =>
      match data with
      | Rule.dimensions_line | Rule.invalid_block =>
          match children with [_] => true | _ => false end
      | _ => true
      end && forallb clean children
  | _ => true
  end.

(** The diagnostics of a result: the list of a pair, or the one diagnostic
    that [invalid_block] returns. *)
Definition result_msgs (v : PyObj) : list PyObj :=
  match v with
  | VTuple [_; VList l] => l
  | VParseMsg _ => [v]
  | _ => []
  end.

(** A diagnostic that stands at a leaf of [tree], or an ERROR or a WARNING. *)
Definition from_leaf_or_reported (tree m : PyObj) : Prop :=
  In m (leaf_msgs tree) \/ has_level ERROR m = true \/ has_level WARNING m = true.

(** The visit of [tree], of rule [data], returns a value of the type of the
    rule, with every diagnostic found at the leaves of the tree, and beside
    them only ERRORs and WARNINGs. *)
Definition visits_well (data : Rule.t) (tree : PyObj) (self : t) : Prop :=
  exists v,
    visit tree self = (Ok v, self)
    /\ typed data v
    /\ (data <> Rule.poly_file -> incl (leaf_msgs tree) (result_msgs v))
    /\ Forall (from_leaf_or_reported tree) (result_msgs v).

Definition well_tree (o : PyObj) : Prop :=
  forall data children,
    o = VTree data children -> conforms o = true -> clean o = true ->
    forall self, visits_well data o self.

(** A text of decimal digits. *)
Fixpoint is_digits (s : string) : bool :=
  match s with
  | EmptyString => true
  | String c r =>
      match digit_value c with Some _ => true | None => false end && is_digits r
  end.

(** ** Further inputs of the statements *)

(** The diagnostics of the round-trip block when [n] columns are expected:
    none for three, otherwise one ERROR for each of its three rows. *)
Definition round_trip_msgs (n : Z) : list PyObj :=
  if n =? 3 then []
  else map (fun l => VParseMsg (ParseMsg.mk ERROR (l, l) (1, 12)
                                  (if 3 <? n then reason_point_missing
                                   else reason_point_excess)))
           [4; 5; 6].

(** The tree of a block of an optional description, a name line, a dimension
    line of two integers and rows, after the transformer. *)
Definition block_tree (header : option (list (CommentLine.t + ParseMsg.t)))
    (tn tR tC : Token.t) (name : string) (R C : Z) (cs : list PointsChild) : PyObj :=
  VTree Rule.poly_block
    (match header with
     | Some lines => [VTree Rule.description_header (map header_child lines)]
     | None => []
     end
     ++ [ VTree Rule.metadata
            [ VTree Rule.name_line [VTokenData tn (VStr name)];
              VTree Rule.dimensions_line
                [VTree Rule.dimensions_valid
                   [VTokenData tR (VInt R); VTokenData tC (VInt C)]] ];
          VTree Rule.points (map points_child cs) ]).

(** The parse tree of
<<
* desc

  myName

3 3
1.0 2.0

3.0 4.0
>>
    under the rule [poly_block]: a blank line in the description, white
    space before the name, a blank line in the metadata and one between the
    two rows, which are short when z-values are configured. *)
Definition block_with_diagnostics : PyObj :=
  VTree Rule.poly_block
    [ VTree Rule.description_header
        [ tok TokenType.COMMENT "* desc" 1 1;
          VToken (Token.mk TokenType.EMPTY_LINES newline 2 1 3 1) ];
      VTree Rule.metadata
        [ VTree Rule.name_line [tok TokenType.WS "  " 3 1; tok TokenType.NAME "myName" 3 3];
          VToken (Token.mk TokenType.EMPTY_LINES newline 4 1 5 1);
          VTree Rule.dimensions_line
            [ VTree Rule.dimensions_valid
                [tok TokenType.INT "3" 5 1; tok TokenType.INT "3" 5 3] ] ];
      VTree Rule.points
        [ VTree Rule.point [tok TokenType.FLOAT "1.0" 6 1; tok TokenType.FLOAT "2.0" 6 5];
          VToken (Token.mk TokenType.EMPTY_LINES newline 7 1 8 1);
          VTree Rule.point [tok TokenType.FLOAT "3.0" 8 1; tok TokenType.FLOAT "4.0" 8 5] ] ].

(** The same block without its description. *)
Definition bare_block_with_diagnostics : PyObj :=
  VTree Rule.poly_block (skipn 1 (match block_with_diagnostics with
                                  | VTree _ children => children
                                  | _ => []
                                  end)).

(** The diagnostics that the visit of a subtree returns. *)
Definition visit_msgs (self : t) (c : PyObj) : list PyObj :=
  match fst (visit c self) with
  | Ok v => result_msgs v
  | _ => []
  end.

(** The rules that aggregate the results of subtrees. *)
Definition aggregates (data : Rule.t) : bool :=
  match data with
  | Rule.points | Rule.metadata | Rule.poly_block => true
  | _ => false
  end.

(** * Properties *)

(** ** Indexing *)

Lemma getitem_0 {A : Type} (a : A) (l : list A) : getitem (a :: l) 0 = Ok a.
Proof.
  unfold getitem. cbn [length]. rewrite Nat2Z.inj_succ.
  replace (0 <? 0) with false by reflexivity. cbn [orb].
  destruct (Z.leb_spec (Z.succ (Z.of_nat (length l))) 0); [lia | reflexivity].
Qed.

Lemma getitem_1 {A : Type} (a b : A) (l : list A) : getitem (a :: b :: l) 1 = Ok b.
Proof.
  unfold getitem. cbn [length]. rewrite !Nat2Z.inj_succ.
  replace (1 <? 0) with false by reflexivity. cbn [orb].
  destruct (Z.leb_spec (Z.succ (Z.succ (Z.of_nat (length l)))) 1); [lia | reflexivity].
Qed.

Lemma getitem_nth {A : Type} (l : list A) (i : nat) (a : A) :
  nth_error l i = Some a -> getitem l (Z.of_nat i) = Ok a.
Proof.
  intros H. unfold getitem.
  assert (Hlt : (i < length l)%nat) by (apply nth_error_Some; congruence).
  assert (E0 : (Z.of_nat i <? 0) = false) by (apply Z.ltb_ge; lia).
  assert (E1 : (Z.of_nat (length l) <=? Z.of_nat i) = false) by (apply Z.leb_gt; lia).
  cbv zeta. rewrite E0, E0, E1. cbn [orb]. rewrite Nat2Z.id, H. reflexivity.
Qed.

Lemma getitem_last {A : Type} (l : list A) (a : A) : getitem (l ++ [a]) (-1) = Ok a.
Proof.
  unfold getitem. rewrite length_app. cbn [length].
  replace (-1 <? 0) with true by reflexivity.
  rewrite Nat2Z.inj_add. cbn [Z.of_nat Pos.of_succ_nat].
  destruct (Z.ltb_spec (-1 + (Z.of_nat (length l) + 1)) 0); [lia |]. cbn [orb].
  destruct (Z.leb_spec (Z.of_nat (length l) + 1) (-1 + (Z.of_nat (length l) + 1))); [lia |].
  replace (-1 + (Z.of_nat (length l) + 1)) with (Z.of_nat (length l)) by lia.
  rewrite Nat2Z.id, nth_error_app2, Nat.sub_diag by lia. reflexivity.
Qed.

Lemma getitem_In {A : Type} (l : list A) (i : Z) (a : A) :
  getitem l i = Ok a -> In a l.
Proof.
  unfold getitem.
  destruct ((_ <? 0) || _); [discriminate |].
  destruct (nth_error l _) eqn:E; [| discriminate].
  intros H. inversion H. subst. eapply nth_error_In. exact E.
Qed.

Lemma getitem_minus_1 {A : Type} (l : list A) (d : A) :
  l <> [] -> getitem l (-1) = Ok (last l d).
Proof.
  intros H. destruct (exists_last H) as [l' [a E]]. subst l.
  rewrite last_last. apply getitem_last.
Qed.

Lemma last_map {A B : Type} (f : A -> B) (l : list A) (d : A) :
  last (map f l) (f d) = f (last l d).
Proof.
  induction l as [| a l IH]; [reflexivity |].
  destruct l as [| b l]; [reflexivity |]. exact IH.
Qed.

(** ** Running the code of a method *)

Lemma bind_lift_Ok {A B : Type} (o : Outcome A) (a : A) (k : A -> M B) (self : t) :
  o = Ok a -> bind (lift o) k self = k a self.
Proof. intros ->. reflexivity. Qed.

Lemma bind_Ok {A B : Type} (m : M A) (a : A) (k : A -> M B) (self self' : t) :
  m self = (Ok a, self') -> bind m k self = k a self'.
Proof. unfold bind. intros ->. reflexivity. Qed.

Lemma bind_ret {A B : Type} (a : A) (k : A -> M B) (self : t) :
  bind (ret a) k self = k a self.
Proof. reflexivity. Qed.

Lemma bind_field {A B : Type} (f : t -> A) (k : A -> M B) (self : t) :
  bind (field f) k self = k (f self) self.
Proof. reflexivity. Qed.

Lemma bind_assoc {A B C : Type} (m : M A) (f : A -> M B) (k : B -> M C) (self : t) :
  bind (bind m f) k self = bind m (fun x => bind (f x) k) self.
Proof. unfold bind. destruct (m self) as [[a | e |] self']; reflexivity. Qed.

Ltac solve_ok :=
  first [ apply getitem_0 | apply getitem_1 | apply getitem_last | reflexivity ].

(** One step of a method body whose outcome is known. *)
Ltac run_step :=
  first [ rewrite bind_assoc
        | rewrite bind_ret
        | rewrite bind_field
        | erewrite bind_lift_Ok by solve_ok ];
  cbv beta iota.

Ltac run := repeat run_step.

(** A call of [self.visit] on a child whose outcome [H] is known. *)
Ltac run_visit H := erewrite bind_Ok by (exact H); cbv beta iota.

(** ** The children of a tree and their visits *)

Lemma visit_tree (data : Rule.t) (children : list PyObj) :
  visit (VTree data children)
  = match data with
    | Rule.description_header => description_header children
    | Rule.name_line => name_line children
    | Rule.dimensions_valid => dimensions_valid children
    | Rule.dimensions_missing_column => dimensions_missing_column children
    | Rule.dimensions_exceeding_columns => dimensions_exceeding_columns (visited children)
    | Rule.dimensions_line => dimensions_line (visited children)
    | Rule.metadata => metadata (visited children)
    | Rule.point => point children
    | Rule.point_invalid => point_invalid children
    | Rule.points => points (visited children)
    | Rule.poly_block => poly_block (visited children)
    | Rule.invalid_block => invalid_block children
    | Rule.poly_file => poly_file children
    end.
Proof. reflexivity. Qed.

Lemma filter_msgs_visited (children : list PyObj) :
  _filter_msgs fst (visited children) = (visited (elems children), own_msgs children).
Proof.
  unfold _filter_msgs, visited, elems, own_msgs. f_equal.
  - induction children as [| c cs IH]; [reflexivity |].
    cbn [map filter fst]. destruct (negb (is_ParseMsg c)); cbn [map]; congruence.
  - induction children as [| c cs IH]; [reflexivity |].
    cbn [map filter fst]. destruct (is_ParseMsg c); cbn [map fst]; congruence.
Qed.

Lemma filter_msgs_id (children : list PyObj) :
  _filter_msgs id children = (elems children, own_msgs children).
Proof.
  unfold _filter_msgs, elems, own_msgs, id. f_equal. apply map_id.
Qed.

(** ** Literals *)

(** The sign of a float literal is kept, with or without a fraction or an
    exponent; the digits limit of [int] is at 4300. *)
Example float_of_str_signs :
  float_of_str "-5." = Some (-5)%float
  /\ float_of_str "-1e3" = Some (-1000)%float
  /\ float_of_str "-0.5" = Some (-0.5)%float
  /\ float_of_str "+2.5e+3" = Some 2500%float
  /\ float_of_str "1e400" = Some infinity
  /\ float_of_str "-1e400" = Some neg_infinity.
Proof. repeat split. Qed.

(** NEXT LINE and NO-BREAK SPACE are white space for [rstrip]. *)
Example rstrip_latin1 :
  rstrip (" note" ++ String (ascii_of_nat 160) (String (ascii_of_nat 133) " "))
  = " note".
Proof. reflexivity. Qed.

(** ** The tests of the repository

    What the tests of the interpreter assert, and the whole result where a
    test asserts a part of it. *)

Example test_comment_is_parsed_correctly :
  interpret (__init__ false) test_description_header
  = (Ok (VTuple
           [ VDescriptionHeader
               (DescriptionHeader.mk
                  (" some value" ++ newline ++ " another value" ++ newline ++ " last value"));
             VList [VParseMsg (ParseMsg.mk WARNING (3, 5) (1, 1) reason_empty_lines)] ]),
     __init__ false).
Proof. reflexivity. Qed.

Example test_metadata_is_parsed_correctly :
  interpret (__init__ false) test_metadata
  = (Ok (VTuple [VMetadata (Metadata.mk "this is a name" 5 23); VList []]), __init__ false).
Proof. reflexivity. Qed.

Example test_point_line_is_parsed_correctly :
  fst (interpret_expecting 5 (__init__ true) test_point_line)
  = Ok (VTuple [VPoint (Point.mk 1.0 2.0 (Some 3.0%float) [4.0%float; 5.0%float]); VList []]).
Proof. reflexivity. Qed.

Example test_invalid_point_line_is_parsed_correctly :
  interpret (__init__ false) test_invalid_point_line
  = (Ok (VTuple [VNone;
                 VList [VParseMsg (ParseMsg.mk ERROR (1, 1) (4, 7) reason_point_invalid)]]),
     __init__ false).
Proof. reflexivity. Qed.

Example test_points_is_parsed_correctly :
  interpret (__init__ true) (test_rows 1)
  = (Ok (VTuple
           [ VList [ VPoint (point_1_2_3 true); VPoint (point_4_5_6 true);
                     VPoint (point_7_8_9 true) ];
             VList [VParseMsg (ParseMsg.mk WARNING (3, 5) (1, 1) reason_empty_lines)] ]),
     __init__ true).
Proof. reflexivity. Qed.

Example test_polyblock_is_parsed_correctly :
  interpret (__init__ true) test_polyblock
  = (Ok (VTuple
           [ VPolyObject
               {| PolyObject.description :=
                    Some (DescriptionHeader.mk " Some description header");
                  PolyObject.metadata := Metadata.mk "this is a name" 3 3;
                  PolyObject.points :=
                    [point_1_2_3 true; point_4_5_6 true; point_7_8_9 true] |};
             VList [VParseMsg (ParseMsg.mk WARNING (6, 8) (1, 1) reason_empty_lines)] ]),
     __init__ true).
Proof. reflexivity. Qed.

(** ** Dimension lines *)

Lemma visit_dimensions_valid (self : t) (tR tC : Token.t) (R C : Z) (rest : list PyObj) :
  visit (VTree Rule.dimensions_valid
           (VTokenData tR (VInt R) :: VTokenData tC (VInt C) :: rest)) self
  = (Ok (VTuple [VTuple [VInt R; VInt C]; VList (dimensions_valid_msgs self tC C)]), self).
Proof.
  rewrite visit_tree. unfold dimensions_valid, dimensions_valid_msgs. run.
  cbn [Z.ltb]. destruct (C <? _min_n_columns self); run; reflexivity.
Qed.

Lemma visit_dimensions_line_single (self self' : t) (child result msgs : PyObj) :
  visit child self = (Ok (VTuple [result; msgs]), self') ->
  visit (VTree Rule.dimensions_line [child]) self = (Ok (VTuple [result; msgs]), self').
Proof.
  intros H. rewrite visit_tree. unfold dimensions_line, visited. cbn [map].
  run. run_visit H. run. reflexivity.
Qed.

Lemma visit_dimensions_exceeding_columns (self self' : t) (valid result x1 : PyObj)
    (l rest : list PyObj) (t1 : Token.t) :
  visit valid self = (Ok (VTuple [result; VList l]), self') ->
  visit (VTree Rule.dimensions_exceeding_columns (valid :: VTokenData t1 x1 :: rest)) self
  = (Ok (VTuple [result; VList (l ++ [msg_at WARNING t1 t1 reason_excess_columns])]), self').
Proof.
  intros H. rewrite visit_tree. unfold dimensions_exceeding_columns, visited. cbn [map].
  run. run_visit H. run. reflexivity.
Qed.

Lemma visit_name_line (self : t) (tn : Token.t) (data : PyObj) (ws : option ParseMsg.t) :
  visit (VTree Rule.name_line (opt ws ++ [VTokenData tn data])) self
  = (Ok (VTuple [data; VList (opt ws)]), self).
Proof. destruct ws; reflexivity. Qed.

(** [metadata]: the diagnostics of the node itself come first, then those of
    the name line, then those of the dimension line. *)
Lemma visit_metadata (self self1 self2 : t) (children rest : list PyObj)
    (e0 e1 name n_rows n_columns name_msgs dimensions_msgs : PyObj) (nm dm : list PyObj) :
  elems children = e0 :: e1 :: rest ->
  visit e0 self = (Ok (VTuple [name; name_msgs]), self1) ->
  visit e1 self1 = (Ok (VTuple [VTuple [n_rows; n_columns]; dimensions_msgs]), self2) ->
  py_iter name_msgs = Ok nm ->
  py_iter dimensions_msgs = Ok dm ->
  visit (VTree Rule.metadata children) self
  = (m <~ new_Metadata name n_rows n_columns ;;
     ret (VTuple [m; VList ((own_msgs children ++ nm) ++ dm)])) self2.
Proof.
  intros He H0 H1 Hn Hd. rewrite visit_tree. unfold metadata.
  rewrite filter_msgs_visited, He. unfold visited. cbn [map]. cbv beta iota.
  run. run_visit H0. run. run_visit H1. run.
  unfold list_extend. rewrite Hn. cbn [obind]. run. rewrite Hd. cbn [obind]. run.
  reflexivity.
Qed.

(** C8: a dimension line with one integer [R] only yields [(R, -1)] and
    exactly one ERROR, on the rule [dimensions_missing_column] and on the
    [dimensions_line] that holds it. *)
Theorem dimensions_missing_column_sentinel (self : t) (token : Token.t) (R : Z) :
  let missing := VTree Rule.dimensions_missing_column [VTokenData token (VInt R)] in
  let msgs := [msg_at ERROR token token reason_missing_column] in
  visit missing self = (Ok (VTuple [VTuple [VInt R; VInt (-1)]; VList msgs]), self)
  /\ visit (VTree Rule.dimensions_line [missing]) self
     = (Ok (VTuple [VTuple [VInt R; VInt (-1)]; VList msgs]), self)
  /\ length msgs = 1%nat
  /\ count_level ERROR msgs = 1%nat.
Proof. repeat split. Qed.

(** C7: a dimension line of exactly two integers [R] and [C], without
    leading whitespace, inside a metadata node.  The dimension line adds no
    diagnostic when [C] is at least the minimum, and exactly one ERROR
    (on the token of [C]) when it is smaller; the metadata reports [R] and
    [C] as declared in both cases.  The other diagnostics of the node are
    those of its blank lines ([blank1], [blank2]) and of the whitespace
    before the name ([ws]); without them the list is the dimension line's. *)
Theorem dimensions_valid_metadata (self : t) (tn tR tC : Token.t)
    (name : string) (R C : Z) (ws blank1 blank2 : option ParseMsg.t) :
  let line :=
    VTree Rule.dimensions_line
      [VTree Rule.dimensions_valid [VTokenData tR (VInt R); VTokenData tC (VInt C)]] in
  let name_line := fun ws => VTree Rule.name_line (opt ws ++ [VTokenData tn (VStr name)]) in
  let metadata := fun ws blank1 blank2 =>
    VTree Rule.metadata ([name_line ws] ++ opt blank1 ++ [line] ++ opt blank2) in
  let error := msg_at ERROR tC tC reason_too_few_columns in
  let msgs := if C <? _min_n_columns self then [error] else [] in
  visit line self = (Ok (VTuple [VTuple [VInt R; VInt C]; VList msgs]), self)
  /\ visit (metadata None None None) self
     = (Ok (VTuple [VMetadata (Metadata.mk name R C); VList msgs]), self)
  /\ visit (metadata ws blank1 blank2) self
     = (Ok (VTuple [VMetadata (Metadata.mk name R C);
                    VList (opt blank1 ++ opt blank2 ++ opt ws ++ msgs)]), self)
  /\ length msgs = (if C <? _min_n_columns self then 1%nat else 0%nat)
  /\ count_level ERROR msgs = (if C <? _min_n_columns self then 1%nat else 0%nat).
Proof.
  cbv zeta.
  pose proof (visit_dimensions_line_single _ _ _ _ _
                (visit_dimensions_valid self tR tC R C [])) as Hline.
  unfold dimensions_valid_msgs in Hline.
  assert (Hmeta : forall ws blank1 blank2,
    visit (VTree Rule.metadata
             ([VTree Rule.name_line (opt ws ++ [VTokenData tn (VStr name)])]
              ++ opt blank1
              ++ [VTree Rule.dimensions_line
                    [VTree Rule.dimensions_valid
                       [VTokenData tR (VInt R); VTokenData tC (VInt C)]]]
              ++ opt blank2)) self
    = (Ok (VTuple [VMetadata (Metadata.mk name R C);
                   VList (opt blank1 ++ opt blank2 ++ opt ws
                          ++ (if C <? _min_n_columns self
                              then [msg_at ERROR tC tC reason_too_few_columns]
                              else []))]), self)).
  { intros w b1 b2.
    destruct b1, b2;
      erewrite visit_metadata
        by first [ exact Hline | apply visit_name_line | reflexivity ];
      cbn [opt app own_msgs filter is_ParseMsg];
      rewrite <- ?app_assoc; reflexivity. }
  repeat split.
  - exact Hline.
  - exact (Hmeta None None None).
  - apply Hmeta.
  - destruct (C <? _min_n_columns self); reflexivity.
  - destruct (C <? _min_n_columns self); reflexivity.
Qed.

(** C3, against the claim: two integers in excess yield one WARNING, on the
    first of them, not two. *)
Lemma two_excess_integers_one_warning :
  exists msgs,
    interpret (__init__ false) two_excess_integers
    = (Ok (VTuple [VTuple [VInt 5; VInt 12]; VList msgs]), __init__ false)
    /\ msgs = [VParseMsg (ParseMsg.mk WARNING (1, 1) (6, 8) reason_excess_columns)]
    /\ count_level WARNING msgs = 1%nat
    /\ count_level WARNING msgs <> 2%nat.
Proof. eexists. repeat split. discriminate. Qed.

(** C3, as the code has it: a dimension line with more than two integers
    yields the first two as [(n_rows, n_columns)] and exactly one WARNING,
    on the first excess integer, however many excess integers follow
    ([rest]); the check of [n_columns] against the minimum still applies. *)
Theorem dimensions_exceeding_columns_one_warning (self : t) (tR tC t1 : Token.t)
    (R C : Z) (x1 : PyObj) (rest : list PyObj) :
  let valid :=
    VTree Rule.dimensions_valid [VTokenData tR (VInt R); VTokenData tC (VInt C)] in
  let exceeding :=
    VTree Rule.dimensions_exceeding_columns (valid :: VTokenData t1 x1 :: rest) in
  let msgs :=
    dimensions_valid_msgs self tC C ++ [msg_at WARNING t1 t1 reason_excess_columns] in
  visit exceeding self = (Ok (VTuple [VTuple [VInt R; VInt C]; VList msgs]), self)
  /\ visit (VTree Rule.dimensions_line [exceeding]) self
     = (Ok (VTuple [VTuple [VInt R; VInt C]; VList msgs]), self)
  /\ count_level WARNING msgs = 1%nat.
Proof.
  cbv zeta.
  pose proof (visit_dimensions_exceeding_columns _ _ _ _ x1 _ rest t1
                (visit_dimensions_valid self tR tC R C [])) as H.
  repeat split.
  - exact H.
  - apply visit_dimensions_line_single. exact H.
  - unfold dimensions_valid_msgs. destruct (C <? _min_n_columns self); reflexivity.
Qed.

(** ** Point rows *)

Lemma mapM_attr_data_row (row : list (Token.t * float)) :
  mapM attr_data (map float_data row) = Ok (map (fun r => VFloat (snd r)) row).
Proof.
  unfold mapM. induction row as [| r row IH]; [reflexivity |].
  cbn [map sequence float_data attr_data obind]. rewrite IH. reflexivity.
Qed.

Lemma mapM_as_float (l : list float) : mapM as_float (map VFloat l) = Ok l.
Proof.
  unfold mapM. induction l as [| f l IH]; [reflexivity |].
  cbn [map sequence as_float obind]. rewrite IH. reflexivity.
Qed.

Lemma slice_from_map {A B : Type} (f : A -> B) (l : list A) (k : Z) :
  slice_from (map f l) k = map f (slice_from l k).
Proof. unfold slice_from. rewrite length_map. apply skipn_map. Qed.

Lemma visit_point (self : t) (r0 r1 : Token.t * float) (rest : list (Token.t * float)) :
  let row := r0 :: r1 :: rest in
  visit (VTree Rule.point (map float_data row)) self
  = (Ok (VTuple [VPoint (point_of self (map snd row) (snd r0) (snd r1));
                 VList (point_msgs self (fst r0) (fst (last row r0))
                          (Z.of_nat (length row)))]), self).
Proof.
  cbv zeta. rewrite visit_tree. unfold point.
  rewrite mapM_attr_data_row. run. rewrite !length_map.
  assert (Hmsg : forall reason,
    point_msg (map float_data (r0 :: r1 :: rest)) reason
    = Ok (msg_at ERROR (fst r0) (fst (last (r0 :: r1 :: rest) r0)) reason)).
  { intros reason. unfold point_msg.
    rewrite (getitem_minus_1 _ (float_data r0)) by discriminate.
    rewrite last_map. cbn [map]. rewrite getitem_0. reflexivity. }
  assert (Hpoint : forall msgs,
    (z_value <~ (if _has_z_value self && (3 <=? Z.of_nat (length (r0 :: r1 :: rest)))
                 then getitem (map (fun r => VFloat (snd r)) (r0 :: r1 :: rest)) 2
                 else Ok VNone) ;;
     min_n_columns <- field _min_n_columns ;;
     x <~ getitem (map (fun r => VFloat (snd r)) (r0 :: r1 :: rest)) 0 ;;
     y <~ getitem (map (fun r => VFloat (snd r)) (r0 :: r1 :: rest)) 1 ;;
     p <~ new_Point x y z_value
            (slice_from (map (fun r => VFloat (snd r)) (r0 :: r1 :: rest)) min_n_columns) ;;
     ret (VTuple [p; VList msgs])) self
    = (Ok (VTuple [VPoint (point_of self (map snd (r0 :: r1 :: rest)) (snd r0) (snd r1));
                   VList msgs]), self)).
  { intros msgs. unfold point_of. rewrite length_map.
    assert (Hz : (if _has_z_value self && (3 <=? Z.of_nat (length (r0 :: r1 :: rest)))
                  then getitem (map (fun r => VFloat (snd r)) (r0 :: r1 :: rest)) 2
                  else Ok VNone)
                 = Ok (match (if _has_z_value self && (3 <=? Z.of_nat (length (r0 :: r1 :: rest)))
                              then nth_error (map snd (r0 :: r1 :: rest)) 2 else None) with
                       | Some f => VFloat f
                       | None => VNone
                       end)).
    { destruct (_has_z_value self); cbn [andb]; [| reflexivity].
      destruct rest as [| r2 rest']; [reflexivity |].
      replace (3 <=? Z.of_nat (length (r0 :: r1 :: r2 :: rest'))) with true
        by (symmetry; apply Z.leb_le; cbn [length]; lia).
      apply (getitem_nth _ 2). reflexivity. }
    rewrite Hz. clear Hz. run. cbn [map]. run.
    unfold new_Point. cbn [as_float obind fst snd].
    replace (VFloat (snd r0) :: VFloat (snd r1) :: map (fun r => VFloat (snd r)) rest)
      with (map VFloat (snd r0 :: snd r1 :: map snd rest))
      by (cbn [map]; rewrite map_map; reflexivity).
    rewrite slice_from_map, mapM_as_float.
    destruct (if _has_z_value self && _ then nth_error _ 2 else None); reflexivity. }
  unfold point_msgs.
  destruct (Z.of_nat (length (r0 :: r1 :: rest)) <? _expected_n_columns self).
  - run. rewrite Hmsg. run. cbn [app]. apply Hpoint.
  - destruct (_expected_n_columns self <? Z.of_nat (length (r0 :: r1 :: rest))).
    + run. rewrite Hmsg. run. cbn [app]. apply Hpoint.
    + run. apply Hpoint.
Qed.

Lemma visit_point_invalid (self : t) (token : Token.t) (data : PyObj) :
  visit (VTree Rule.point_invalid [VTokenData token data]) self
  = (Ok (VTuple [VNone; VList [msg_at ERROR token token reason_point_invalid]]), self).
Proof. reflexivity. Qed.

(** C6: a row of at least two values, fewer than the expected number of
    columns, still yields a [Point] built from its values ([x], [y], [z] when
    z-values are configured and three values exist, the values beyond the
    minimum as [data]) and exactly one ERROR, spanning the row.  A row of one
    value yields no point and exactly one ERROR, on that value, whatever
    number of columns is expected and whatever the instance. *)
Theorem point_row_short_or_single (self : t) (r0 r1 : Token.t * float)
    (rest : list (Token.t * float)) (token : Token.t) (f : float) :
  let row := r0 :: r1 :: rest in
  (Z.of_nat (length row) < _expected_n_columns self ->
   visit (VTree Rule.point (map float_data row)) self
   = (Ok (VTuple [VPoint (point_of self (map snd row) (snd r0) (snd r1));
                  VList [msg_at ERROR (fst r0) (fst (last row r0)) reason_point_missing]]),
      self))
  /\ visit (VTree Rule.point_invalid [float_data (token, f)]) self
     = (Ok (VTuple [VNone; VList [msg_at ERROR token token reason_point_invalid]]), self)
  /\ count_level ERROR [msg_at ERROR token token reason_point_invalid] = 1%nat
  /\ length [msg_at ERROR token token reason_point_invalid] = 1%nat.
Proof.
  cbv zeta. split; [| repeat split].
  intros H. rewrite (visit_point self r0 r1 rest). unfold point_msgs.
  replace (Z.of_nat (length (r0 :: r1 :: rest)) <? _expected_n_columns self) with true
    by (symmetry; apply Z.ltb_lt; exact H).
  reflexivity.
Qed.

Lemma point_row_short_or_single_witness :
  let t1 := token_at TokenType.FLOAT "1.0" 1 1 in
  let t2 := token_at TokenType.FLOAT "2.0" 1 5 in
  visit (VTree Rule.point [VTokenData t1 (VFloat 1.0); VTokenData t2 (VFloat 2.0)])
    (__init__ true)
  = (Ok (VTuple [VPoint (Point.mk 1.0 2.0 None []);
                 VList [msg_at ERROR t1 t2 reason_point_missing]]), __init__ true)
  /\ visit (VTree Rule.point_invalid [VTokenData t1 (VFloat 1.0)]) (__init__ false)
     = (Ok (VTuple [VNone; VList [msg_at ERROR t1 t1 reason_point_invalid]]),
        __init__ false).
Proof.
  cbv zeta. split.
  - apply (proj1 (point_row_short_or_single (__init__ true)
                    (token_at TokenType.FLOAT "1.0" 1 1, 1.0%float)
                    (token_at TokenType.FLOAT "2.0" 1 5, 2.0%float) []
                    (token_at TokenType.FLOAT "1.0" 1 1) 1.0%float)).
    cbn. lia.
  - apply (proj1 (proj2 (point_row_short_or_single (__init__ false)
                           (token_at TokenType.FLOAT "1.0" 1 1, 1.0%float)
                           (token_at TokenType.FLOAT "2.0" 1 5, 2.0%float) []
                           (token_at TokenType.FLOAT "1.0" 1 1) 1.0%float))).
Defined.

(** ** Blocks *)

Lemma points_loop_spec (self : t) (els : list PyObj) (results : list (PyObj * list PyObj)) :
  Forall2 (fun e r => visit e self = (Ok (VTuple [fst r; VList (snd r)]), self))
          els results ->
  forall points msgs,
    points_loop (visited els) points msgs self
    = (Ok (points ++ filter truth (map fst results),
           msgs ++ concat (map snd results)), self).
Proof.
  induction 1 as [| e r els results He _ IH]; intros points msgs.
  - cbn. rewrite !app_nil_r. reflexivity.
  - cbn [visited map points_loop]. run_visit He. run.
    assert (Hext : (if truth (VList (snd r)) then list_extend msgs (VList (snd r)) else Ok msgs)
                   = Ok (msgs ++ snd r)).
    { destruct (snd r); [cbn; rewrite app_nil_r |]; reflexivity. }
    rewrite Hext. run. fold (visited els). rewrite IH.
    cbn [map filter concat]. rewrite <- !app_assoc.
    destruct (truth (fst r)); rewrite <- ?app_assoc; reflexivity.
Qed.

(** [points]: the diagnostics of the node itself (its blank lines) come
    first, then those of its rows from left to right. *)
Lemma visit_points (self : t) (children : list PyObj)
    (results : list (PyObj * list PyObj)) :
  Forall2 (fun e r => visit e self = (Ok (VTuple [fst r; VList (snd r)]), self))
          (elems children) results ->
  visit (VTree Rule.points children) self
  = (Ok (VTuple [VList (filter truth (map fst results));
                 VList (own_msgs children ++ concat (map snd results))]), self).
Proof.
  intros H. rewrite visit_tree. unfold points.
  rewrite filter_msgs_visited. cbv beta iota.
  erewrite bind_Ok by (apply points_loop_spec; exact H).
  reflexivity.
Qed.

Lemma mapM_as_Point (pts : list Point.t) : mapM as_Point (map VPoint pts) = Ok pts.
Proof.
  unfold mapM. induction pts as [| q pts IH]; [reflexivity |].
  cbn [map sequence as_Point obind]. rewrite IH. reflexivity.
Qed.

(** [poly_block] with a description: the diagnostics of the node itself come
    first, then those of the header, the metadata and the points. *)
Lemma visit_poly_block (self : t) (children : list PyObj) (d m p : PyObj)
    (h : DescriptionHeader.t) (md : Metadata.t) (pts : list Point.t)
    (dmsgs mmsgs pmsgs : list PyObj) :
  elems children = [d; m; p] ->
  visit d self = (Ok (VTuple [VDescriptionHeader h; VList dmsgs]), self) ->
  visit m self = (Ok (VTuple [VMetadata md; VList mmsgs]), self) ->
  visit p self = (Ok (VTuple [VList (map VPoint pts); VList pmsgs]), self) ->
  visit (VTree Rule.poly_block children) self
  = (Ok (VTuple [VPolyObject (PolyObject.mk (Some h) md pts);
                 VList (own_msgs children ++ dmsgs ++ mmsgs ++ pmsgs)]), self).
Proof.
  intros He Hd Hm Hp. rewrite visit_tree. unfold poly_block.
  rewrite filter_msgs_visited, He. unfold visited. cbn [map visit_all]. cbv beta iota.
  run. run_visit Hd. run. run_visit Hm. run. run_visit Hp. run.
  unfold new_PolyObject.
  cbn [obind]. rewrite mapM_as_Point. run. rewrite <- !app_assoc. reflexivity.
Qed.

(** ** What every method leaves and returns *)

Lemma returns_ret {A : Type} (a : A) (Q : A -> Prop) : Q a -> returns (ret a) Q.
Proof. intros H self. split; [reflexivity |]. cbn. intros b E. inversion E. subst. exact H. Qed.

Lemma returns_lift {A : Type} (o : Outcome A) (Q : A -> Prop) :
  (forall a, o = Ok a -> Q a) -> returns (lift o) Q.
Proof. intros H self. split; [reflexivity |]. cbn. exact H. Qed.

Lemma returns_bind {A B : Type} (m : M A) (k : A -> M B) (R : A -> Prop) (Q : B -> Prop) :
  returns m R -> (forall a, R a -> returns (k a) Q) -> returns (bind m k) Q.
Proof.
  intros Hm Hk self. unfold bind. specialize (Hm self).
  destruct (m self) as [[a | e |] self1]; cbn [fst snd] in Hm; destruct Hm as [-> HR].
  - apply Hk, HR. reflexivity.
  - split; [reflexivity | discriminate].
  - split; [reflexivity | discriminate].
Qed.

Lemma returns_bind_lift {A B : Type} (o : Outcome A) (k : A -> M B) (Q : B -> Prop) :
  (forall a, o = Ok a -> returns (k a) Q) -> returns (bind (lift o) k) Q.
Proof.
  intros H. apply (returns_bind _ _ (fun a => o = Ok a)); [| exact H].
  apply returns_lift. auto.
Qed.

Lemma returns_bind_field {A B : Type} (f : t -> A) (k : A -> M B) (Q : B -> Prop) :
  (forall a, returns (k a) Q) -> returns (bind (field f) k) Q.
Proof.
  intros H. apply (returns_bind _ _ (fun _ => True)); [| auto].
  intros self. split; [reflexivity | auto].
Qed.

Lemma returns_weaken {A : Type} (m : M A) (Q R : A -> Prop) :
  returns m Q -> (forall a, Q a -> R a) -> returns m R.
Proof. intros H HQR self. destruct (H self) as [Hs Ha]. split; auto. Qed.

Lemma visit_result_any (tree v : PyObj) : visit_result tree v -> any_result v.
Proof.
  unfold visit_result, any_result.
  destruct tree as [ | | | | | | | | | | | | | | [] ? ]; auto.
Qed.

Lemma pair_result_intro (a : PyObj) (l : list PyObj) :
  msg_list l -> pair_result (VTuple [a; VList l]).
Proof. intros H. exists a, l. auto. Qed.

Lemma unpack2_any (r a b : PyObj) :
  any_result r -> unpack2 r = Ok (a, b) -> exists l, b = VList l /\ msg_list l.
Proof.
  intros [-> | [H | (a' & l & -> & Hl)]] E.
  - discriminate.
  - destruct r; try discriminate.
  - cbn in E. inversion E. subst. eauto.
Qed.

Lemma msg_list_own (children : list PyObj) : msg_list (own_msgs children).
Proof.
  unfold msg_list, own_msgs. apply Forall_forall. intros x Hx.
  apply filter_In in Hx. tauto.
Qed.

Lemma msg_list_extend (msgs l r : list PyObj) :
  msg_list msgs -> msg_list l -> list_extend msgs (VList l) = Ok r -> msg_list r.
Proof.
  intros Hm Hl E. cbn in E. inversion E. subst. apply Forall_app. auto.
Qed.

Lemma message_from_tokens_msg (tokens : list PyObj) (level : ParseErrorLevel)
    (reason : string) (m : PyObj) :
  _message_from_tokens tokens level reason = Ok m -> is_ParseMsg m = true.
Proof.
  unfold _message_from_tokens.
  repeat match goal with
         | |- obind ?o _ = _ -> _ => destruct o; cbn [obind]; try discriminate
         end.
  unfold new_ParseMsg.
  repeat match goal with
         | |- match ?x with _ => _ end = _ -> _ => destruct x; try discriminate
         end.
  intros E. inversion E. reflexivity.
Qed.

Lemma msg_list_snoc (l : list PyObj) (m : PyObj) :
  msg_list l -> is_ParseMsg m = true -> msg_list (l ++ [m]).
Proof. intros Hl Hm. apply Forall_app. split; [exact Hl | repeat constructor; exact Hm]. Qed.

Ltac rstep :=
  lazymatch goal with
  | |- returns (ret _) _ => apply returns_ret
  | |- returns (bind (lift _) _) _ => apply returns_bind_lift; intros ? ?
  | |- returns (bind (field _) _) _ => apply returns_bind_field; intros ?
  | |- returns (let '(_, _) := ?x in _) _ => destruct x
  | |- returns (lift _) _ => apply returns_lift; intros ? ?
  end.

Ltac msgs_facts :=
  repeat match goal with
         | H : _message_from_tokens _ _ _ = Ok _ |- _ =>
             apply message_from_tokens_msg in H
         | H : point_msg _ _ = Ok _ |- _ =>
             unfold point_msg in H;
             repeat match type of H with
                    | obind ?o _ = _ => destruct o; cbn [obind] in H; try discriminate
                    end
         end.

Ltac pair_ok :=
  apply pair_result_intro;
  msgs_facts;
  first [ apply msg_list_own
        | assumption
        | apply msg_list_snoc; [first [assumption | constructor] | assumption]
        | repeat constructor; assumption ].

Lemma returns_description_header (children : list PyObj) :
  returns (description_header children) pair_result.
Proof.
  unfold description_header. rewrite filter_msgs_id. cbv beta iota.
  repeat rstep. pair_ok.
Qed.

Lemma returns_name_line (children : list PyObj) :
  returns (name_line children) pair_result.
Proof.
  unfold name_line. rewrite filter_msgs_id. cbv beta iota.
  repeat rstep. pair_ok.
Qed.

Lemma returns_dimensions_valid (children : list PyObj) :
  returns (dimensions_valid children) pair_result.
Proof.
  unfold dimensions_valid. cbv zeta. repeat rstep.
  apply (returns_bind _ _ msg_list).
  - destruct a4; repeat rstep; cbn [app]; msgs_facts; repeat constructor; assumption.
  - intros msgs Hmsgs. rstep. pair_ok.
Qed.

Lemma returns_dimensions_missing_column (children : list PyObj) :
  returns (dimensions_missing_column children) pair_result.
Proof.
  unfold dimensions_missing_column. repeat rstep. cbv zeta. repeat rstep. pair_ok.
Qed.

Lemma returns_point (children : list PyObj) :
  returns (point children) pair_result.
Proof.
  unfold point. cbv zeta. repeat rstep.
  apply (returns_bind _ _ msg_list).
  - destruct (_ <? _); [| destruct (_ <? _)]; repeat rstep; cbn [app];
      msgs_facts; repeat constructor; assumption.
  - intros msgs Hmsgs. repeat rstep. pair_ok.
Qed.

Lemma returns_point_invalid (children : list PyObj) :
  returns (point_invalid children) pair_result.
Proof. unfold point_invalid. repeat rstep. pair_ok. Qed.

Lemma returns_invalid_block (children : list PyObj) :
  returns (invalid_block children) (fun v => is_ParseMsg v = true).
Proof.
  unfold invalid_block. rstep. eapply message_from_tokens_msg. eassumption.
Qed.

Lemma returns_poly_file (children : list PyObj) :
  returns (poly_file children) (fun v => v = VNone).
Proof. unfold poly_file. rstep. reflexivity. Qed.

Lemma kids_ok_getitem (kids : list Child) (i : Z) (e : Child) :
  kids_ok kids -> getitem kids i = Ok e -> returns (visit_child e) any_result.
Proof.
  intros Hk He. apply getitem_In in He.
  unfold kids_ok in Hk. rewrite Forall_forall in Hk. apply Hk. exact He.
Qed.

Lemma kids_ok_filter (p : Child -> bool) (kids : list Child) :
  kids_ok kids -> kids_ok (filter p kids).
Proof.
  unfold kids_ok. rewrite !Forall_forall. intros H e He.
  apply filter_In in He. apply H. tauto.
Qed.

Lemma msg_list_filter_msgs (kids : list Child) :
  msg_list (snd (_filter_msgs fst kids)).
Proof.
  unfold _filter_msgs, msg_list. cbn [snd]. apply Forall_forall. intros x Hx.
  apply in_map_iff in Hx. destruct Hx as (e & <- & He).
  apply filter_In in He. tauto.
Qed.

(** A call [self.visit(e)] followed by the unpacking of its result into a
    value and a list of diagnostics. *)
Lemma returns_visit_unpack {B : Type} (e : Child) (k : PyObj * PyObj -> M B)
    (Q : B -> Prop) :
  returns (visit_child e) any_result ->
  (forall a l, msg_list l -> returns (k (a, VList l)) Q) ->
  returns (r <- visit_child e ;; x <~ unpack2 r ;; k x) Q.
Proof.
  intros He Hk. apply (returns_bind _ _ any_result); [exact He |].
  intros r Hr. apply returns_bind_lift. intros [a b] Hu.
  destruct (unpack2_any _ _ _ Hr Hu) as (l & -> & Hl). apply Hk. exact Hl.
Qed.

Lemma returns_dimensions_line (kids : list Child) :
  kids_ok kids -> returns (dimensions_line kids) pair_result.
Proof.
  intros Hk. unfold dimensions_line. rstep.
  apply returns_visit_unpack; [eapply kids_ok_getitem; eassumption |].
  intros result l Hl. cbv beta iota.
  apply (returns_bind _ _ msgs_obj).
  - destruct (1 <? _).
    + rstep. cbn in H0. inversion H0. subst. repeat rstep.
      eexists. split; [reflexivity |].
      msgs_facts. apply msg_list_snoc; assumption.
    + rstep. exists l. auto.
  - intros msgs (l' & -> & Hl'). rstep. pair_ok.
Qed.

Lemma returns_dimensions_exceeding_columns (kids : list Child) :
  kids_ok kids -> returns (dimensions_exceeding_columns kids) pair_result.
Proof.
  intros Hk. unfold dimensions_exceeding_columns. rstep.
  apply returns_visit_unpack; [eapply kids_ok_getitem; eassumption |].
  intros result l Hl. cbv beta iota.
  rstep. cbn in H0. inversion H0. subst. repeat rstep.
  apply pair_result_intro. msgs_facts. apply msg_list_snoc; assumption.
Qed.

Lemma returns_metadata (kids : list Child) :
  kids_ok kids -> returns (metadata kids) pair_result.
Proof.
  intros Hk. unfold metadata.
  pose proof (msg_list_filter_msgs kids) as Hm.
  assert (He : kids_ok (fst (_filter_msgs fst kids)))
    by (apply kids_ok_filter; exact Hk).
  destruct (_filter_msgs fst kids) as [els msgs]. cbn [fst snd] in *.
  rstep. apply returns_visit_unpack; [eapply kids_ok_getitem; eassumption |].
  intros name nm Hnm. cbv beta iota.
  rstep. apply returns_visit_unpack; [eapply kids_ok_getitem; eassumption |].
  intros dims dm Hdm. cbv beta iota.
  rstep. destruct a1 as [n_rows n_columns].
  rstep. rstep. rstep. rstep.
  apply pair_result_intro.
  eapply msg_list_extend; [| | eassumption]; [| assumption].
  eapply msg_list_extend; [| | eassumption]; assumption.
Qed.

Lemma returns_points_loop (els : list Child) :
  kids_ok els ->
  forall points msgs, msg_list msgs ->
    returns (points_loop els points msgs) (fun r => msg_list (snd r)).
Proof.
  induction 1 as [| e els He _ IH]; intros points msgs Hm; cbn [points_loop].
  - rstep. exact Hm.
  - apply returns_visit_unpack; [exact He |].
    intros point l Hl. cbv beta iota zeta.
    rstep. apply IH.
    destruct (truth (VList l)).
    + eapply msg_list_extend; [| | eassumption]; assumption.
    + inversion H. subst. exact Hm.
Qed.

Lemma returns_points (kids : list Child) :
  kids_ok kids -> returns (points kids) pair_result.
Proof.
  intros Hk. unfold points.
  pose proof (msg_list_filter_msgs kids) as Hm.
  assert (He : kids_ok (fst (_filter_msgs fst kids)))
    by (apply kids_ok_filter; exact Hk).
  destruct (_filter_msgs fst kids) as [els msgs]. cbn [fst snd] in *.
  apply (returns_bind _ _ (fun r => msg_list (snd r))).
  - apply returns_points_loop; assumption.
  - intros [pts msgs'] Hr. cbn [snd] in Hr. rstep. pair_ok.
Qed.

Lemma returns_visit_all (els : list Child) :
  kids_ok els -> returns (visit_all els) (Forall any_result).
Proof.
  induction 1 as [| e els He _ IH]; cbn [visit_all].
  - rstep. constructor.
  - apply (returns_bind _ _ any_result); [exact He |]. intros r Hr.
    apply (returns_bind _ _ (Forall any_result)); [exact IH |]. intros rs Hrs.
    rstep. constructor; assumption.
Qed.

Lemma unpack_components_msgs (components : list PyObj)
    (d dm m mm p pm : PyObj) :
  Forall any_result components ->
  unpack_components components = Ok (d, dm, m, mm, p, pm) ->
  msgs_obj dm /\ msgs_obj mm /\ msgs_obj pm.
Proof.
  intros H E. unfold unpack_components in E.
  destruct components as [| c0 [| c1 [| c2 [| c3 rest]]]];
    cbn [length Nat.eqb] in E; try discriminate.
  - apply Forall_cons_iff in H. destruct H as [Hc0 H].
    apply Forall_cons_iff in H. destruct H as [Hc1 _].
    change (unpack2 (VTuple [c0; c1])) with (Ok (c0, c1)) in E. cbn [obind] in E.
    destruct (unpack2 c0) as [[a0 b0] | |] eqn:E0; cbn [obind] in E; try discriminate.
    destruct (unpack2 c1) as [[a1 b1] | |] eqn:E1; cbn [obind] in E; try discriminate.
    inversion E. subst.
    repeat split.
    + exists []. split; [reflexivity | constructor].
    + exact (unpack2_any c0 m mm Hc0 E0).
    + exact (unpack2_any c1 p pm Hc1 E1).
  - apply Forall_cons_iff in H. destruct H as [Hc0 H].
    apply Forall_cons_iff in H. destruct H as [Hc1 H].
    apply Forall_cons_iff in H. destruct H as [Hc2 _].
    change (unpack3 (VTuple [c0; c1; c2])) with (Ok (c0, c1, c2)) in E. cbn [obind] in E.
    destruct (unpack2 c0) as [[a0 b0] | |] eqn:E0; cbn [obind] in E; try discriminate.
    destruct (unpack2 c1) as [[a1 b1] | |] eqn:E1; cbn [obind] in E; try discriminate.
    destruct (unpack2 c2) as [[a2 b2] | |] eqn:E2; cbn [obind] in E; try discriminate.
    inversion E. subst.
    repeat split.
    + exact (unpack2_any c0 d dm Hc0 E0).
    + exact (unpack2_any c1 m mm Hc1 E1).
    + exact (unpack2_any c2 p pm Hc2 E2).
Qed.

Lemma returns_poly_block (kids : list Child) :
  kids_ok kids -> returns (poly_block kids) pair_result.
Proof.
  intros Hk. unfold poly_block.
  pose proof (msg_list_filter_msgs kids) as Hm.
  assert (He : kids_ok (fst (_filter_msgs fst kids)))
    by (apply kids_ok_filter; exact Hk).
  destruct (_filter_msgs fst kids) as [els msgs]. cbn [fst snd] in *.
  apply (returns_bind _ _ (Forall any_result)); [apply returns_visit_all; exact He |].
  intros components Hc. rstep.
  destruct a as [[[[[d dm] m] mm] p] pm].
  destruct (unpack_components_msgs _ _ _ _ _ _ _ Hc H)
    as ((ld & -> & Hld) & (lm & -> & Hlm) & (lp & -> & Hlp)).
  repeat rstep. apply pair_result_intro.
  eapply msg_list_extend; [| | eassumption]; [| assumption].
  eapply msg_list_extend; [| | eassumption]; [| assumption].
  eapply msg_list_extend; [| | eassumption]; assumption.
Qed.

Lemma PyObj_tree_ind (P : PyObj -> Prop) :
  (forall data children, Forall P children -> P (VTree data children)) ->
  (forall o, is_tree o = false -> P o) ->
  forall o, P o.
Proof.
  intros Htree Hleaf.
  fix IH 1. intros o.
  destruct o as [ | | | | | | | | | | | | | | data children ];
    try (apply Hleaf; reflexivity).
  apply Htree. induction children as [| c cs IHcs]; constructor.
  - apply IH.
  - exact IHcs.
Qed.

Lemma kids_ok_visited (children : list PyObj) :
  Forall (fun c => returns (visit c) (visit_result c)) children ->
  kids_ok (visited children).
Proof.
  unfold kids_ok, visited. intros H. apply Forall_map.
  eapply Forall_impl; [| exact H]. cbn [snd]. intros c Hc.
  eapply returns_weaken; [exact Hc |]. apply visit_result_any.
Qed.

(** Every visit leaves the instance as it was, and what it returns has the
    shape that its rule gives it. *)
Lemma visit_returns (tree : PyObj) : returns (visit tree) (visit_result tree).
Proof.
  induction tree as [data children IH | o Ho] using PyObj_tree_ind.
  - apply kids_ok_visited in IH. rewrite visit_tree.
    destruct data; cbn [visit_result].
    + apply returns_description_header.
    + apply returns_name_line.
    + apply returns_dimensions_valid.
    + apply returns_dimensions_missing_column.
    + apply returns_dimensions_exceeding_columns, IH.
    + apply returns_dimensions_line, IH.
    + apply returns_metadata, IH.
    + apply returns_point.
    + apply returns_point_invalid.
    + apply returns_points, IH.
    + apply returns_poly_block, IH.
    + apply returns_invalid_block.
    + apply returns_poly_file.
  - destruct o as [ | | | | | | | | | | tk [ | | | | | | | | | | | | | | ] | | | | ];
      try discriminate Ho; cbn [visit];
      apply returns_lift; discriminate.
Qed.

Lemma visit_frame (tree : PyObj) (self : t) : snd (visit tree self) = self.
Proof. apply visit_returns. Qed.

(** ** The trees of the grammar are inside the embedding *)

Lemma safe_ret {A : Type} (a : A) (Q : A -> Prop) : Q a -> safe (ret a) Q.
Proof. intros H self. exact H. Qed.

Lemma safe_bind {A B : Type} (m : M A) (k : A -> M B) (R : A -> Prop) (Q : B -> Prop) :
  safe m R -> (forall a, R a -> safe (k a) Q) -> safe (bind m k) Q.
Proof.
  intros Hm Hk self. unfold bind. specialize (Hm self).
  destruct (m self) as [[a | e |] self1]; cbn [fst safe_outcome] in *.
  - apply Hk, Hm.
  - exact Hm.
  - exact Hm.
Qed.

Lemma safe_bind_Ok {A B : Type} (o : Outcome A) (a : A) (k : A -> M B) (Q : B -> Prop) :
  o = Ok a -> safe (k a) Q -> safe (bind (lift o) k) Q.
Proof. intros -> H self. apply H. Qed.

Lemma safe_bind_Raise {A B : Type} (o : Outcome A) (k : A -> M B) (Q : B -> Prop) :
  o = Raise AttributeError -> safe (bind (lift o) k) Q.
Proof. intros -> self. reflexivity. Qed.

Lemma safe_bind_field {A B : Type} (f : t -> A) (k : A -> M B) (Q : B -> Prop) :
  (forall a, safe (k a) Q) -> safe (bind (field f) k) Q.
Proof. intros H self. apply H. Qed.

Lemma safe_bind_ret {A B : Type} (a : A) (k : A -> M B) (Q : B -> Prop) :
  safe (k a) Q -> safe (bind (ret a) k) Q.
Proof. intros H self. apply H. Qed.

Lemma safe_assoc {A B C : Type} (m : M A) (f : A -> M B) (k : B -> M C) (Q : C -> Prop) :
  safe (bind m (fun x => bind (f x) k)) Q -> safe (bind (bind m f) k) Q.
Proof. intros H self. rewrite bind_assoc. apply H. Qed.

(** One step of a method body on children of a known shape. *)
Ltac sstep :=
  lazymatch goal with
  | |- safe (ret _) _ => apply safe_ret
  | |- safe (bind (bind _ _) _) _ => apply safe_assoc
  | |- safe (bind (ret _) _) _ => apply safe_bind_ret
  | |- safe (bind (field _) _) _ => apply safe_bind_field; intros ?
  | |- safe (bind (lift _) _) _ =>
      first [ eapply safe_bind_Ok; [solve_ok |]
            | apply safe_bind_Raise; reflexivity ]
  end;
  cbv beta iota.

Ltac split_bool :=
  repeat match goal with
         | H : _ && _ = true |- _ => apply andb_prop in H; destruct H
         end.

(** What kind of object [o] is, from a test [H] that it passes. *)
Ltac kind o H :=
  destruct o as [ | | | | | | | | | | ? [ | | | | | | | | | | | | | | ] | | | | [] ? ];
  try discriminate H.

Lemma mapM_contents (children : list PyObj) :
  forallb (fun c => is_CommentLine c || is_ParseMsg c) children = true ->
  exists contents,
    mapM (fun elem => (c <- attr_content elem ;; as_str c)%outcome) (elems children)
    = Ok contents.
Proof.
  unfold mapM. induction children as [| c cs IH]; cbn [forallb]; intros H.
  - exists []. reflexivity.
  - split_bool. destruct (IH H0) as [contents E].
    kind c H; cbn [elems filter is_ParseMsg negb map sequence]; fold (elems cs).
    + eauto.
    + cbn [attr_content as_str obind]. rewrite E. cbn [obind]. eauto.
Qed.

Lemma safe_description_header (children : list PyObj) :
  shape Rule.description_header children = true ->
  safe (description_header children) (typed Rule.description_header).
Proof.
  cbn [shape]. intros H. unfold description_header.
  rewrite filter_msgs_id. cbv beta iota.
  destruct (mapM_contents children H) as [contents E].
  eapply safe_bind_Ok; [exact E |]. sstep. cbn. eauto.
Qed.

Lemma safe_name_line (children : list PyObj) :
  shape Rule.name_line children = true ->
  safe (name_line children) (typed Rule.name_line).
Proof.
  cbn [shape]. intros H.
  destruct children as [| n [| n' [| ? ?]]]; try discriminate H.
  - kind n H. intros self. cbn. eauto.
  - split_bool. kind n H. kind n' H0. intros self. cbn. eauto.
Qed.

Lemma safe_dimensions_valid (children : list PyObj) :
  shape Rule.dimensions_valid children = true ->
  safe (visit (VTree Rule.dimensions_valid children)) (typed Rule.dimensions_valid).
Proof.
  cbn [shape]. intros H.
  destruct children as [| r [| c [| ? ?]]]; try discriminate H.
  split_bool. kind r H. kind c H0.
  intros self. rewrite visit_dimensions_valid. cbn. eauto.
Qed.

Lemma safe_dimensions_missing_column (children : list PyObj) :
  shape Rule.dimensions_missing_column children = true ->
  safe (dimensions_missing_column children) (typed Rule.dimensions_missing_column).
Proof.
  cbn [shape]. intros H.
  destruct children as [| r [| ? ?]]; try discriminate H.
  kind r H. intros self. cbn. eauto.
Qed.

Lemma safe_point_invalid (children : list PyObj) :
  shape Rule.point_invalid children = true ->
  safe (point_invalid children) (typed Rule.point_invalid).
Proof.
  cbn [shape]. intros H.
  destruct children as [| r [| ? ?]]; try discriminate H.
  kind r H. intros self. cbn. eauto.
Qed.

Lemma float_data_row (children : list PyObj) :
  forallb is_float_data children = true ->
  exists row, children = map float_data row.
Proof.
  induction children as [| c cs IH]; cbn [forallb]; intros H.
  - exists []. reflexivity.
  - split_bool. destruct (IH H0) as [row ->]. kind c H.
    exists ((token, f) :: row). reflexivity.
Qed.

Lemma safe_point (children : list PyObj) :
  shape Rule.point children = true ->
  safe (visit (VTree Rule.point children)) (typed Rule.point).
Proof.
  cbn [shape]. intros H.
  destruct children as [| a [| b rest]]; try discriminate H.
  destruct (float_data_row _ H) as [row E].
  destruct row as [| r0 [| r1 row]]; try discriminate E.
  rewrite E. intros self. rewrite (visit_point self r0 r1 row). cbn. eauto.
Qed.

Lemma safe_invalid_block (children : list PyObj) :
  shape Rule.invalid_block children = true ->
  safe (invalid_block children) (typed Rule.invalid_block).
Proof.
  cbn [shape]. intros H.
  destruct children as [| n [| b [| ? ?]]]; try discriminate H.
  - kind n H. intros self. cbn. eauto.
  - split_bool. kind n H. intros self. reflexivity.
Qed.

Lemma safe_dimensions_exceeding_columns (children : list PyObj) :
  shape Rule.dimensions_exceeding_columns children = true ->
  forallb conforms children = true ->
  safe (visit (VTree Rule.dimensions_exceeding_columns children))
       (typed Rule.dimensions_exceeding_columns).
Proof.
  cbn [shape]. intros H Hc.
  destruct children as [| valid [| x rest]]; try discriminate H.
  apply andb_prop in H as [H Hrest]. apply andb_prop in H as [Hvalid Hx].
  kind valid Hvalid. kind x Hx.
  cbn [forallb conforms] in Hc. apply andb_prop in Hc as [Hc _].
  apply andb_prop in Hc as [Hshape _]. cbn [shape] in Hshape.
  destruct children as [| r [| c [| ? ?]]]; try discriminate Hshape.
  apply andb_prop in Hshape as [Hr Hcol]. kind r Hr. kind c Hcol.
  intros self.
  rewrite (visit_dimensions_exceeding_columns _ _ _ _ _ _ _ _
             (visit_dimensions_valid self _ _ _ _ [])).
  cbn. eauto.
Qed.

Lemma is_dimensions_typed (d : PyObj) :
  is_dimensions d = true ->
  exists data children,
    d = VTree data children
    /\ forall v, typed data v -> typed Rule.dimensions_line v.
Proof. intros H. kind d H; eexists; eexists; split; eauto. Qed.

Lemma safe_dimensions_line (children : list PyObj) :
  shape Rule.dimensions_line children = true ->
  forallb conforms children = true ->
  Forall safe_tree children ->
  safe (dimensions_line (visited children)) (typed Rule.dimensions_line).
Proof.
  cbn [shape]. intros H Hc IH.
  destruct children as [| a [| b [| ? ?]]]; try discriminate H.
  - destruct (is_dimensions_typed a H) as (data & cs & -> & Ht).
    apply Forall_inv in IH. cbn [forallb] in Hc. apply andb_prop in Hc as [Hc _].
    unfold dimensions_line, visited. cbn [map]. sstep.
    apply (safe_bind _ _ (typed data)); [exact (IH data cs eq_refl Hc) |].
    intros v Hv. apply Ht in Hv. destruct Hv as (r & c & l & ->).
    sstep.
    change (1 <? Z.of_nat (length [(VTree data cs, visit (VTree data cs))])) with false.
    cbv iota. sstep. sstep. cbn. eauto.
  - apply andb_prop in H as [Hws H].
    destruct (is_dimensions_typed b H) as (data & cs & -> & Ht).
    apply Forall_inv_tail, Forall_inv in IH.
    cbn [forallb] in Hc. apply andb_prop in Hc as [_ Hc]. apply andb_prop in Hc as [Hc _].
    kind a Hws.
    unfold dimensions_line, visited. cbn [map]. sstep.
    apply (safe_bind _ _ (typed data)); [exact (IH data cs eq_refl Hc) |].
    intros v Hv. apply Ht in Hv. destruct Hv as (r & c & l & ->).
    sstep.
    change (1 <? Z.of_nat (length [(VParseMsg m, visit (VParseMsg m));
                                   (VTree data cs, visit (VTree data cs))])) with true.
    cbv iota. repeat sstep.
Qed.

Lemma elems_In (children : list PyObj) (c : PyObj) :
  In c (elems children) -> In c children /\ is_ParseMsg c = false.
Proof.
  unfold elems. intros H. apply filter_In in H. destruct H as [H E].
  split; [exact H |]. destruct (is_ParseMsg c); [discriminate | reflexivity].
Qed.

(** The visit of a child that is a tree of the grammar. *)
Lemma safe_child (children : list PyObj) (data : Rule.t) (cs : list PyObj) :
  forallb conforms children = true ->
  Forall safe_tree children ->
  In (VTree data cs) children ->
  safe (visit (VTree data cs)) (typed data).
Proof.
  intros Hc IH Hin. rewrite Forall_forall in IH. rewrite forallb_forall in Hc.
  exact (IH _ Hin data cs eq_refl (Hc _ Hin)).
Qed.

Lemma safe_metadata (children : list PyObj) :
  shape Rule.metadata children = true ->
  forallb conforms children = true ->
  Forall safe_tree children ->
  safe (metadata (visited children)) (typed Rule.metadata).
Proof.
  cbn [shape]. intros H Hc IH.
  destruct (elems children) as [| n [| d [| ? ?]]] eqn:E; try discriminate H.
  apply andb_prop in H as [Hn Hd]. kind n Hn. rename children0 into csn.
  kind d Hd. rename children0 into csd.
  assert (Hin : In (VTree Rule.name_line csn) children)
    by (apply elems_In; rewrite E; cbn; auto).
  assert (Hid : In (VTree Rule.dimensions_line csd) children)
    by (apply elems_In; rewrite E; cbn; auto).
  unfold metadata. rewrite filter_msgs_visited, E. unfold visited at 1. cbn [map].
  cbv beta iota. sstep.
  apply (safe_bind _ _ (typed Rule.name_line)); [exact (safe_child _ _ _ Hc IH Hin) |].
  intros v (s & l & ->). sstep. sstep.
  apply (safe_bind _ _ (typed Rule.dimensions_line)); [exact (safe_child _ _ _ Hc IH Hid) |].
  intros v (r & c & l' & ->). repeat sstep. cbn. eauto.
Qed.

Lemma safe_points_loop (els : list PyObj) :
  Forall (fun e => safe (visit e) row_value) els ->
  forall pts msgs,
    safe (points_loop (visited els) (map VPoint pts) msgs)
         (fun r => exists ps l, r = (map VPoint ps, l)).
Proof.
  induction 1 as [| e els He _ IH]; intros pts msgs; cbn [visited map points_loop].
  - sstep. eauto.
  - apply (safe_bind _ _ row_value); [exact He |].
    intros v (p & l & -> & Hp). sstep.
    assert (Hext : (if truth (VList l) then list_extend msgs (VList l) else Ok msgs)
                   = Ok (msgs ++ l)).
    { destruct l; [cbn; rewrite app_nil_r |]; reflexivity. }
    rewrite Hext. sstep. fold (visited els).
    destruct Hp as [-> | (q & ->)]; cbn [truth].
    + apply IH.
    + replace (map VPoint pts ++ [VPoint q]) with (map VPoint (pts ++ [q]))
        by (rewrite map_app; reflexivity).
      apply IH.
Qed.

Lemma safe_points (children : list PyObj) :
  shape Rule.points children = true ->
  forallb conforms children = true ->
  Forall safe_tree children ->
  safe (points (visited children)) (typed Rule.points).
Proof.
  cbn [shape]. intros H Hc IH.
  unfold points. rewrite filter_msgs_visited. cbv beta iota.
  apply (safe_bind _ _ (fun r => exists ps l, r = (map VPoint ps, l))).
  - apply (safe_points_loop (elems children)) with (pts := []).
    apply Forall_forall. intros e He.
    destruct (elems_In _ _ He) as [Hin Hmsg].
    rewrite forallb_forall in H. specialize (H e Hin). rewrite Hmsg in H.
    cbn [orb] in H. kind e H.
    + intros self. generalize (safe_child _ _ _ Hc IH Hin self).
      destruct (fst _) as [v | ? |]; cbn; auto.
      intros (p & l & ->). exists (VPoint p), l. eauto.
    + intros self. generalize (safe_child _ _ _ Hc IH Hin self).
      destruct (fst _) as [v | ? |]; cbn; auto.
      intros (l & ->). exists VNone, l. eauto.
  - intros r (ps & l & ->). sstep. cbn. eauto.
Qed.

Lemma new_PolyObject_typed (description : option DescriptionHeader.t)
    (m : Metadata.t) (ps : list Point.t) :
  new_PolyObject (match description with
                  | Some h => VDescriptionHeader h
                  | None => VNone
                  end) (VMetadata m) (VList (map VPoint ps))
  = Ok (VPolyObject (PolyObject.mk description m ps)).
Proof.
  unfold new_PolyObject. destruct description; cbn [obind];
    rewrite mapM_as_Point; reflexivity.
Qed.

Lemma safe_poly_block (children : list PyObj) :
  shape Rule.poly_block children = true ->
  forallb conforms children = true ->
  Forall safe_tree children ->
  safe (poly_block (visited children)) (typed Rule.poly_block).
Proof.
  cbn [shape]. intros H Hc IH.
  destruct (elems children) as [| a [| b [| c [| ? ?]]]] eqn:E; try discriminate H.
  - apply andb_prop in H as [Hm Hp]. kind a Hm. rename children0 into csm.
    kind b Hp. rename children0 into csp.
    assert (Him : In (VTree Rule.metadata csm) children)
      by (apply elems_In; rewrite E; cbn; auto).
    assert (Hip : In (VTree Rule.points csp) children)
      by (apply elems_In; rewrite E; cbn; auto).
    unfold poly_block. rewrite filter_msgs_visited, E. unfold visited at 1.
    cbn [map visit_all]. cbv beta iota. repeat sstep.
    apply (safe_bind _ _ (typed Rule.metadata)); [exact (safe_child _ _ _ Hc IH Him) |].
    intros v (m & l & ->). repeat sstep.
    apply (safe_bind _ _ (typed Rule.points)); [exact (safe_child _ _ _ Hc IH Hip) |].
    intros v (ps & l' & ->). repeat sstep.
    eapply safe_bind_Ok; [exact (new_PolyObject_typed None m ps) |].
    sstep. cbn. eauto.
  - apply andb_prop in H as [H Hp]. apply andb_prop in H as [Hd Hm].
    kind a Hd. rename children0 into csd.
    kind b Hm. rename children0 into csm.
    kind c Hp. rename children0 into csp.
    assert (Hid : In (VTree Rule.description_header csd) children)
      by (apply elems_In; rewrite E; cbn; auto).
    assert (Him : In (VTree Rule.metadata csm) children)
      by (apply elems_In; rewrite E; cbn; auto).
    assert (Hip : In (VTree Rule.points csp) children)
      by (apply elems_In; rewrite E; cbn; auto).
    unfold poly_block. rewrite filter_msgs_visited, E. unfold visited at 1.
    cbn [map visit_all]. cbv beta iota. repeat sstep.
    apply (safe_bind _ _ (typed Rule.description_header));
      [exact (safe_child _ _ _ Hc IH Hid) |].
    intros v (h & ld & ->). repeat sstep.
    apply (safe_bind _ _ (typed Rule.metadata)); [exact (safe_child _ _ _ Hc IH Him) |].
    intros v (m & l & ->). repeat sstep.
    apply (safe_bind _ _ (typed Rule.points)); [exact (safe_child _ _ _ Hc IH Hip) |].
    intros v (ps & l' & ->). repeat sstep.
    eapply safe_bind_Ok; [exact (new_PolyObject_typed (Some h) m ps) |].
    sstep. cbn. eauto.
Qed.

(** Every tree of the grammar is visited inside the embedding: the visit
    returns a value of the type of its rule, or raises [AttributeError]. *)
Lemma conforms_safe (tree : PyObj) : safe_tree tree.
Proof.
  induction tree as [data children IH | o Ho] using PyObj_tree_ind.
  - intros data' children' E Hc. inversion E. subst data' children'. clear E.
    cbn [conforms] in Hc. apply andb_prop in Hc as [Hs Hc].
    destruct data.
    + rewrite visit_tree. apply safe_description_header, Hs.
    + rewrite visit_tree. apply safe_name_line, Hs.
    + apply safe_dimensions_valid, Hs.
    + rewrite visit_tree. apply safe_dimensions_missing_column, Hs.
    + apply safe_dimensions_exceeding_columns; assumption.
    + rewrite visit_tree. apply safe_dimensions_line; assumption.
    + rewrite visit_tree. apply safe_metadata; assumption.
    + apply safe_point, Hs.
    + rewrite visit_tree. apply safe_point_invalid, Hs.
    + rewrite visit_tree. apply safe_points; assumption.
    + rewrite visit_tree. apply safe_poly_block; assumption.
    + rewrite visit_tree. apply safe_invalid_block, Hs.
    + rewrite visit_tree. unfold poly_file. apply safe_ret. reflexivity.
  - intros data children E. subst o. discriminate Ho.
Qed.

Lemma conforms_modelled (data : Rule.t) (children : list PyObj) (self : t) :
  conforms (VTree data children) = true ->
  fst (visit (VTree data children) self) <> Unmodelled.
Proof.
  intros Hc E.
  pose proof (conforms_safe _ data children eq_refl Hc self) as H.
  rewrite E in H. exact H.
Qed.

(** The trees used as inputs are trees of the grammar. *)
Example inputs_conform :
  forallb (fun tree => conforms (transformed tree))
    [ round_trip_tree; points_with_blank_line; metadata_with_blank_line;
      two_excess_integers; indented_dimensions_line; invalid_block_tree;
      well_formed_block; file_tree; test_description_header; test_metadata;
      test_point_line; test_invalid_point_line; test_rows 1; test_polyblock ]
  = true.
Proof. reflexivity. Qed.

(** ** Invalid blocks *)

Lemma visit_invalid_block_tokens (self : t) (first : Token.t) (rest : list Token.t) :
  visit (VTree Rule.invalid_block (map VToken (first :: rest))) self
  = (Ok (msg_at ERROR first (last (first :: rest) first) reason_invalid_block), self).
Proof.
  rewrite visit_tree. unfold invalid_block, lift, _message_from_tokens.
  rewrite (getitem_minus_1 _ (VToken first)) by discriminate.
  rewrite last_map. cbn [map]. rewrite getitem_0. reflexivity.
Qed.

(** ** The fields of the instance *)

(** C10: no method assigns a field, so a visit leaves the instance as it
    found it (as [__init__] or the caller set it), and a second visit of the
    same tree with the same instance returns what the first one returned.
    Stated for the visits that stay inside the embedded part of Python, which
    those of the trees of the grammar do ([conforms_modelled]).  A caller
    that sets [_expected_n_columns] between two visits changes the outcome:
    the row of five values gets an ERROR with three columns expected, and
    none once five are. *)
Theorem visit_leaves_instance_unchanged (self : t) (tree : PyObj) :
  fst (visit tree self) <> Unmodelled ->
  snd (visit tree self) = self
  /\ visit tree (snd (visit tree self)) = visit tree self
  /\ (forall has_z_value,
        __init__ has_z_value
        = {| _has_z_value := has_z_value;
             _min_n_columns := if has_z_value then 3 else 2;
             _expected_n_columns := if has_z_value then 3 else 2 |})
  /\ fst (visit five_values_row (__init__ true))
     <> fst ((_ <- set_expected_n_columns 5 ;; visit five_values_row) (__init__ true)).
Proof.
  intros _. repeat split.
  - apply visit_frame.
  - rewrite visit_frame. reflexivity.
  - intros []; reflexivity.
  - cbv. discriminate.
Qed.

Lemma visit_leaves_instance_unchanged_witness :
  snd (visit five_values_row (__init__ true)) = __init__ true
  /\ visit five_values_row (snd (visit five_values_row (__init__ true)))
     = visit five_values_row (__init__ true).
Proof.
  assert (H : fst (visit five_values_row (__init__ true)) <> Unmodelled)
    by (cbv; discriminate).
  destruct (visit_leaves_instance_unchanged (__init__ true) five_values_row H)
    as (H1 & H2 & _).
  split; [exact H1 | exact H2].
Defined.

(** ** Whole files *)

(** C1, the code at the failing input: [poly_file] returns [None] for every
    tree, so also for the file of one well-formed block and one invalid
    block, whose two blocks, visited one by one, do give the object of the
    first with no diagnostic and the ERROR on the trailing text (lines 5 to
    6, the end of the file). *)
Theorem poly_file_returns_nothing :
  (forall self children, visit (VTree Rule.poly_file children) self = (Ok VNone, self))
  /\ interpret (__init__ false) file_tree = (Ok VNone, __init__ false)
  /\ interpret (__init__ false) well_formed_block
     = (Ok (VTuple [VPolyObject
                      {| PolyObject.description := None;
                         PolyObject.metadata := Metadata.mk "myName" 2 2;
                         PolyObject.points :=
                           [Point.mk 1.0 2.0 None []; Point.mk 3.0 4.0 None []] |};
                    VList []]), __init__ false)
  /\ interpret (__init__ false) invalid_block_tree
     = (Ok (VParseMsg (ParseMsg.mk ERROR (5, 6) (1, 1) reason_invalid_block)),
        __init__ false).
Proof. repeat split. Qed.

(** ** Leading whitespace in a dimension line *)

(** C9, the code at the failing input: the transformer turns the leading
    whitespace into a WARNING, a [ParseMsg], and [dimensions_line] then reads
    the [token] of that first child, which a [ParseMsg] has not: the visit
    raises [AttributeError], whatever the instance and whatever the
    dimensions that follow (two integers, one, or more than two). *)
Theorem dimensions_line_leading_whitespace_raises :
  PolyFileLiteralTransformer.transform indented_dimensions_line
  = Ok (VTree Rule.dimensions_line
          [ VParseMsg (ParseMsg.mk WARNING (1, 1) (1, 7) reason_whitespace);
            VTree Rule.dimensions_valid
              [ VTokenData (token_at TokenType.INT "5" 1 7) (VInt 5);
                VTokenData (token_at TokenType.INT "23" 1 12) (VInt 23) ] ])
  /\ (forall self, interpret self indented_dimensions_line = (Raise AttributeError, self))
  /\ (forall self m tR tC R C,
        visit (VTree Rule.dimensions_line
                 [ VParseMsg m;
                   VTree Rule.dimensions_valid
                     [VTokenData tR (VInt R); VTokenData tC (VInt C)] ]) self
        = (Raise AttributeError, self))
  /\ (forall self m tR R,
        visit (VTree Rule.dimensions_line
                 [ VParseMsg m;
                   VTree Rule.dimensions_missing_column [VTokenData tR (VInt R)] ]) self
        = (Raise AttributeError, self))
  /\ (forall self m tR tC t1 R C x1 rest,
        visit (VTree Rule.dimensions_line
                 [ VParseMsg m;
                   VTree Rule.dimensions_exceeding_columns
                     (VTree Rule.dimensions_valid
                        [VTokenData tR (VInt R); VTokenData tC (VInt C)]
                      :: VTokenData t1 x1 :: rest) ]) self
        = (Raise AttributeError, self)).
Proof.
  assert (H : forall self m child result l,
        visit child self = (Ok (VTuple [result; VList l]), self) ->
        visit (VTree Rule.dimensions_line [VParseMsg m; child]) self
        = (Raise AttributeError, self)).
  { intros self m child result l Hchild. rewrite visit_tree.
    unfold dimensions_line, visited. cbn [map]. run.
    run_visit Hchild. run.
    change (1 <? Z.of_nat (length [(VParseMsg m, visit (VParseMsg m));
                                   (child, visit child)])) with true.
    cbv iota. run. reflexivity. }
  split; [reflexivity |]. split; [| split; [| split]].
  - intros self. unfold interpret.
    change (PolyFileLiteralTransformer.transform indented_dimensions_line)
      with (Ok (VTree Rule.dimensions_line
          [ VParseMsg (ParseMsg.mk WARNING (1, 1) (1, 7) reason_whitespace);
            VTree Rule.dimensions_valid
              [ VTokenData (token_at TokenType.INT "5" 1 7) (VInt 5);
                VTokenData (token_at TokenType.INT "23" 1 12) (VInt 23) ] ])).
    eapply H. apply visit_dimensions_valid.
  - intros self m tR tC R C. eapply H. apply visit_dimensions_valid.
  - intros self m tR R. eapply H. reflexivity.
  - intros self m tR tC t1 R C x1 rest. eapply H.
    apply visit_dimensions_exceeding_columns. apply visit_dimensions_valid.
Qed.

(** * Further properties *)

(** ** [_filter_msgs] *)

(** X1: [_filter_msgs] splits its input in two without losing or adding
    anything: the diagnostics and the other elements.  It keeps the order of
    the input in both lists: the split of a concatenation is the
    concatenation of the splits, and one element goes to the one list or to
    the other. *)
Theorem filter_msgs_partition {A : Type} (obj : A -> PyObj) (input more : list A) (x : A) :
  Permutation (map obj input)
              (map obj (fst (_filter_msgs obj input)) ++ snd (_filter_msgs obj input))
  /\ Forall (fun x => is_ParseMsg (obj x) = false) (fst (_filter_msgs obj input))
  /\ Forall (fun m => is_ParseMsg m = true) (snd (_filter_msgs obj input))
  /\ (length (fst (_filter_msgs obj input)) + length (snd (_filter_msgs obj input))
      = length input)%nat
  /\ _filter_msgs obj (input ++ more)
     = (fst (_filter_msgs obj input) ++ fst (_filter_msgs obj more),
        snd (_filter_msgs obj input) ++ snd (_filter_msgs obj more))
  /\ _filter_msgs obj [x] = (if is_ParseMsg (obj x) then ([], [obj x]) else ([x], [])).
Proof.
  unfold _filter_msgs. cbn [fst snd].
  split; [| split; [| split; [| split; [| split]]]].
  - induction input as [| y ys IH]; [constructor |].
    cbn [map filter]. destruct (is_ParseMsg (obj y)); cbn [negb map app].
    + apply Permutation_cons_app. exact IH.
    + constructor. exact IH.
  - apply Forall_forall. intros y Hy. apply filter_In in Hy.
    destruct Hy as [_ Hy]. destruct (is_ParseMsg (obj y)); [discriminate | reflexivity].
  - apply Forall_forall. intros m Hm. apply in_map_iff in Hm.
    destruct Hm as (y & <- & Hy). apply filter_In in Hy. tauto.
  - rewrite length_map. induction input as [| y ys IH]; [reflexivity |].
    cbn [filter length]. destruct (is_ParseMsg (obj y)); cbn [negb length]; lia.
  - rewrite !filter_app, map_app. reflexivity.
  - cbn [filter map]. destruct (is_ParseMsg (obj x)); reflexivity.
Qed.

(** ** [_message_from_tokens] *)

(** X2: [_message_from_tokens] raises [IndexError] on an empty sequence and
    [AttributeError] when the first element is a [TokenData] and not its
    token; on one or more tokens it returns the diagnostic of the given level
    and reason whose span runs from the start of the first token to the end
    of the last, which for one token is the span of that token. *)
Theorem message_from_tokens_span (level : ParseErrorLevel) (reason : string)
    (first : Token.t) (rest : list Token.t) (data : PyObj) (others : list PyObj) :
  _message_from_tokens [] level reason = Raise IndexError
  /\ _message_from_tokens (VTokenData first data :: others) level reason
     = Raise AttributeError
  /\ _message_from_tokens (map VToken (first :: rest)) level reason
     = Ok (msg_at level first (last (first :: rest) first) reason)
  /\ _message_from_tokens [VToken first] level reason
     = Ok (VParseMsg (ParseMsg.mk level
                        (Token.line first, Token.end_line first)
                        (Token.column first, Token.end_column first) reason)).
Proof.
  split; [reflexivity |].
  split; [unfold _message_from_tokens; rewrite getitem_0; reflexivity |].
  split; [| reflexivity].
  unfold _message_from_tokens.
  rewrite (getitem_minus_1 _ (VToken first)) by discriminate.
  rewrite last_map. cbn [map]. rewrite getitem_0. reflexivity.
Qed.

(** ** [description_header] *)

Lemma header_elems (lines : list (CommentLine.t + ParseMsg.t)) :
  elems (map header_child lines)
  = map VCommentLine (flat_map (fun c => match c with
                                         | inl c => [c]
                                         | inr _ => []
                                         end) lines)
  /\ own_msgs (map header_child lines) = header_msgs lines.
Proof.
  unfold elems, own_msgs, header_msgs.
  induction lines as [| [c | m] lines [IH1 IH2]]; [split; reflexivity | |];
    cbn [map filter header_child is_ParseMsg negb flat_map app];
    rewrite IH1, IH2; split; reflexivity.
Qed.

Lemma visit_description_header_lines (self : t)
    (lines : list (CommentLine.t + ParseMsg.t)) :
  visit (VTree Rule.description_header (map header_child lines)) self
  = (Ok (VTuple [ VDescriptionHeader
                    (DescriptionHeader.mk (String.concat newline (header_contents lines)));
                  VList (header_msgs lines) ]), self).
Proof.
  rewrite visit_tree. unfold description_header.
  rewrite filter_msgs_id. destruct (header_elems lines) as [-> ->]. cbv beta iota.
  assert (E : mapM (fun elem => (c <- attr_content elem ;; as_str c)%outcome)
                (map VCommentLine
                   (flat_map (fun c => match c with inl c => [c] | inr _ => [] end) lines))
              = Ok (header_contents lines)).
  { unfold mapM, header_contents.
    induction lines as [| [c | m] lines IH]; [reflexivity | |];
      cbn [flat_map app map sequence].
    - cbn [attr_content as_str obind]. rewrite IH. reflexivity.
    - exact IH. }
  rewrite (bind_lift_Ok _ _ _ _ E). reflexivity.
Qed.

(** X3: the description is the contents of the comment lines, in their
    order, joined by line feeds, and the diagnostics are those of the runs of
    blank lines, in their order; a header of blank lines only has the empty
    description, and the method never fails on comment lines and blank
    lines. *)
Theorem description_header_joins (self : t) (lines : list (CommentLine.t + ParseMsg.t))
    (blanks : list ParseMsg.t) :
  visit (VTree Rule.description_header (map header_child lines)) self
  = (Ok (VTuple [ VDescriptionHeader
                    (DescriptionHeader.mk (String.concat newline (header_contents lines)));
                  VList (header_msgs lines) ]), self)
  /\ visit (VTree Rule.description_header (map VParseMsg blanks)) self
     = (Ok (VTuple [ VDescriptionHeader (DescriptionHeader.mk EmptyString);
                     VList (map VParseMsg blanks) ]), self).
Proof.
  split; [apply visit_description_header_lines |].
  pose proof (visit_description_header_lines self (map inr blanks)) as H.
  rewrite map_map in H. cbn [header_child] in H.
  etransitivity; [exact H |]. clear H. repeat f_equal.
  - induction blanks as [| b bs IH]; [reflexivity | exact IH].
  - unfold header_msgs. induction blanks as [| b bs IH]; [reflexivity |].
    cbn [map flat_map app]. f_equal. exact IH.
Qed.

(** ** The transformer *)

Lemma rstrip_spec (s : string) :
  exists ws, s = (rstrip s ++ ws)%string /\ all_space ws = true
             /\ ends_with_space (rstrip s) = false.
Proof.
  induction s as [| c r (ws & E & Hws & Hend)].
  - exists EmptyString. repeat split.
  - cbn [rstrip]. destruct (rstrip r) as [| c' r'] eqn:Er.
    + destruct (is_space c) eqn:Ec.
      * exists (String c ws). cbn [append all_space]. rewrite Ec, Hws.
        cbn [append] in E. rewrite <- E. repeat split.
      * exists ws. cbn [append ends_with_space]. rewrite Ec.
        cbn [append] in E. subst ws. repeat split. exact Hws.
    + exists ws. split; [| split; [exact Hws | exact Hend]].
      cbn [append] in *. rewrite <- E. reflexivity.
Qed.

(** X4: the content of a comment line is the text of the token without its
    first character and without the white space at its end, as [str.isspace]
    has it on the code points below 256: the two differ by white space only,
    and the content does not end in white space. *)
Theorem COMMENT_strips (token : Token.t) :
  exists content ws,
    PolyFileLiteralTransformer.COMMENT token = Ok (VCommentLine (CommentLine.mk content))
    /\ drop_first (Token.value token) = (content ++ ws)%string
    /\ all_space ws = true
    /\ ends_with_space content = false.
Proof.
  destruct (rstrip_spec (drop_first (Token.value token))) as (ws & E & Hws & Hend).
  exists (rstrip (drop_first (Token.value token))), ws.
  split; [reflexivity |]. split; [exact E |]. split; assumption.
Qed.

Lemma sequence_Ok {A B : Type} (f : A -> Outcome B) (l : list A) (l' : list B) :
  sequence (map f l) = Ok l' -> Forall2 (fun a b => f a = Ok b) l l'.
Proof.
  revert l'. induction l as [| a l IH]; cbn [map sequence]; intros l' H.
  - inversion H. constructor.
  - destruct (f a) as [b | |] eqn:Ea; try discriminate H. cbn [obind] in H.
    destruct (sequence (map f l)) as [bs | |] eqn:Es; try discriminate H.
    cbn [obind] in H. inversion H. constructor; [exact Ea | apply IH; reflexivity].
Qed.

Lemma sequence_Forall2 {A B : Type} (f : A -> Outcome B) (l : list A) (l' : list B) :
  Forall2 (fun a b => f a = Ok b) l l' -> sequence (map f l) = Ok l'.
Proof.
  induction 1 as [| a b l l' Ha _ IH]; [reflexivity |].
  cbn [map sequence]. rewrite Ha, IH. reflexivity.
Qed.

Lemma transform_tree (data : Rule.t) (children : list PyObj) (tree' : PyObj) :
  PolyFileLiteralTransformer.transform (VTree data children) = Ok tree' ->
  exists children',
    tree' = VTree data children'
    /\ Forall2 (fun c c' => PolyFileLiteralTransformer.transform c = Ok c')
               children children'.
Proof.
  cbn [PolyFileLiteralTransformer.transform]. intros H.
  destruct (sequence (map PolyFileLiteralTransformer.transform children))
    as [children' | |] eqn:E; try discriminate H.
  cbn [obind] in H. inversion H. exists children'. split; [reflexivity |].
  apply sequence_Ok. exact E.
Qed.

Lemma transform_token_msgs (token : Token.t) (o : PyObj) :
  PolyFileLiteralTransformer.call_userfunc_token token = Ok o ->
  leaf_msgs o = blank_warning token.
Proof.
  unfold PolyFileLiteralTransformer.call_userfunc_token, blank_warning.
  destruct (Token.type token); intros H.
  - inversion H. reflexivity.
  - inversion H. reflexivity.
  - inversion H. reflexivity.
  - inversion H. reflexivity.
  - unfold PolyFileLiteralTransformer.INT in H.
    destruct (int_of_str (Token.value token)); inversion H. reflexivity.
  - unfold PolyFileLiteralTransformer.FLOAT in H.
    destruct (float_of_str (Token.value token)); inversion H. reflexivity.
  - inversion H. reflexivity.
Qed.

Lemma transform_leaf_msgs (tree tree' : PyObj) :
  is_parse_tree tree = true ->
  PolyFileLiteralTransformer.transform tree = Ok tree' ->
  leaf_msgs tree' = flat_map blank_warning (leaf_tokens tree).
Proof.
  revert tree'.
  induction tree as [data children IH | o Ho] using PyObj_tree_ind; intros tree' Hp Ht.
  - apply transform_tree in Ht. destruct Ht as (children' & -> & Hc).
    cbn [is_parse_tree] in Hp. cbn [leaf_msgs leaf_tokens].
    induction Hc as [| c c' cs cs' Hc _ IHc]; [reflexivity |].
    cbn [forallb] in Hp. apply andb_prop in Hp as [Hp1 Hp2].
    apply Forall_cons_iff in IH. destruct IH as [IH1 IH2].
    cbn [flat_map]. rewrite flat_map_app. f_equal.
    + apply IH1; assumption.
    + apply IHc; assumption.
  - destruct o; try discriminate Hp; try discriminate Ho.
    cbn [PolyFileLiteralTransformer.transform] in Ht.
    cbn [leaf_tokens flat_map]. rewrite app_nil_r.
    apply transform_token_msgs. exact Ht.
Qed.

(** X5: on a parse tree the transformer leaves exactly one diagnostic for
    every token of white space or of blank lines, a WARNING on the span of
    that token, in the order of the tokens, and no other diagnostic. *)
Theorem transform_warns_once_per_blank (data : Rule.t) (children : list PyObj)
    (tree' : PyObj) :
  is_parse_tree (VTree data children) = true ->
  PolyFileLiteralTransformer.transform (VTree data children) = Ok tree' ->
  leaf_msgs tree' = flat_map blank_warning (leaf_tokens (VTree data children))
  /\ Forall (fun m => has_level WARNING m = true) (leaf_msgs tree').
Proof.
  intros Hp Ht. pose proof (transform_leaf_msgs _ _ Hp Ht) as E.
  split; [exact E |]. rewrite E. apply Forall_forall. intros m Hm.
  apply in_flat_map in Hm. destruct Hm as (token & _ & Hm).
  unfold blank_warning in Hm.
  destruct (Token.type token); cbn [In] in Hm; try contradiction;
    destruct Hm as [<- | []]; reflexivity.
Qed.

Lemma transform_warns_once_per_blank_witness :
  leaf_msgs (transformed metadata_with_blank_line)
  = flat_map blank_warning (leaf_tokens metadata_with_blank_line)
  /\ Forall (fun m => has_level WARNING m = true)
            (leaf_msgs (transformed metadata_with_blank_line)).
Proof.
  unfold metadata_with_blank_line.
  apply transform_warns_once_per_blank; reflexivity.
Defined.

Lemma transform_again (tree tree' : PyObj) :
  PolyFileLiteralTransformer.transform tree = Ok tree' ->
  PolyFileLiteralTransformer.transform tree' = Ok tree'.
Proof.
  revert tree'.
  induction tree as [data children IH | o Ho] using PyObj_tree_ind; intros tree' Ht.
  - apply transform_tree in Ht. destruct Ht as (children' & -> & Hc).
    cbn [PolyFileLiteralTransformer.transform].
    rewrite (sequence_Forall2 PolyFileLiteralTransformer.transform children' children');
      [reflexivity |].
    induction Hc as [| c c' cs cs' Hc _ IHc]; constructor.
    + apply Forall_cons_iff in IH. destruct IH as [IH1 _]. apply IH1. exact Hc.
    + apply Forall_cons_iff in IH. destruct IH as [_ IH2]. apply IHc. exact IH2.
  - destruct o; try discriminate Ho;
      try (cbn [PolyFileLiteralTransformer.transform] in Ht; inversion Ht; reflexivity).
    cbn [PolyFileLiteralTransformer.transform] in Ht.
    unfold PolyFileLiteralTransformer.call_userfunc_token in Ht.
    destruct (Token.type t0) eqn:Ety.
    + inversion Ht. reflexivity.
    + inversion Ht. reflexivity.
    + inversion Ht. reflexivity.
    + inversion Ht. reflexivity.
    + unfold PolyFileLiteralTransformer.INT in Ht.
      destruct (int_of_str (Token.value t0)); inversion Ht. reflexivity.
    + unfold PolyFileLiteralTransformer.FLOAT in Ht.
      destruct (float_of_str (Token.value t0)); inversion Ht. reflexivity.
    + inversion Ht. cbn [PolyFileLiteralTransformer.transform].
      unfold PolyFileLiteralTransformer.call_userfunc_token. rewrite Ety. reflexivity.
Qed.

(** X6: the transformer changes nothing in a tree that it has transformed:
    the objects that it put for the tokens are kept, and so is the token of
    an invalid block, for which it has no method. *)
Theorem transform_idempotent (data : Rule.t) (children : list PyObj) (tree' : PyObj) :
  PolyFileLiteralTransformer.transform (VTree data children) = Ok tree' ->
  PolyFileLiteralTransformer.transform tree' = Ok tree'.
Proof. apply transform_again. Qed.

Lemma transform_idempotent_witness :
  PolyFileLiteralTransformer.transform (transformed file_tree) = Ok (transformed file_tree).
Proof.
  apply (transform_idempotent Rule.poly_file [well_formed_block; invalid_block_tree]).
  reflexivity.
Defined.


Lemma digits_value_nonnegative (s : string) (acc : Z) :
  is_digits s = true -> 0 <= acc -> exists n, digits_value acc s = Some n /\ 0 <= n.
Proof.
  revert acc. induction s as [| c r IH]; cbn [is_digits digits_value]; intros acc H Hacc.
  - exists acc. split; [reflexivity | exact Hacc].
  - apply andb_prop in H as [Hc Hr].
    destruct (digit_value c) as [d |] eqn:Ed; [| discriminate Hc].
    apply IH; [exact Hr |].
    unfold digit_value in Ed. cbv zeta in Ed.
    destruct ((48 <=? Z.of_nat (nat_of_ascii c)) && (Z.of_nat (nat_of_ascii c) <=? 57)) eqn:E;
      [| discriminate Ed].
    apply andb_prop in E as [E1 _]. apply Z.leb_le in E1. inversion Ed. lia.
Qed.

(** X19: on a token of one or more decimal digits, as the terminal [INT]
    matches them, [INT] returns the [TokenData] of that token with an integer
    that is not negative when the text has at most 4300 digits, and raises
    [ValueError] when it has more, which the transformer turns into
    [VisitError].  The [-1] that [dimensions_missing_column] puts for a
    missing number of columns is no number read from a file. *)
Theorem INT_is_not_negative (token : Token.t) :
  is_digits (Token.value token) = true ->
  Token.value token <> EmptyString ->
  (Z.of_nat (String.length (Token.value token)) <= int_max_str_digits ->
   exists n,
     PolyFileLiteralTransformer.INT token = Ok (VTokenData token (VInt n))
     /\ 0 <= n /\ n <> -1)
  /\ (int_max_str_digits < Z.of_nat (String.length (Token.value token)) ->
      PolyFileLiteralTransformer.INT token = Raise ValueError
      /\ (Token.type token = TokenType.INT ->
          PolyFileLiteralTransformer.call_userfunc_token token = Raise VisitError)).
Proof.
  intros Hd Hne. unfold PolyFileLiteralTransformer.call_userfunc_token.
  unfold PolyFileLiteralTransformer.INT, int_of_str.
  destruct (digits_value_nonnegative _ 0 Hd (Z.le_refl 0)) as (n & E & Hn).
  destruct (Token.value token) as [| c r]; [contradiction Hne; reflexivity |].
  rewrite E. split; intros Hlen.
  - destruct (Z.ltb_spec int_max_str_digits (Z.of_nat (String.length (String c r))))
      as [Hlt | _]; [lia |].
    exists n. split; [reflexivity |]. split; lia.
  - destruct (Z.ltb_spec int_max_str_digits (Z.of_nat (String.length (String c r))))
      as [_ | Hge]; [| lia].
    split; [reflexivity |]. intros ->. reflexivity.
Qed.

Lemma INT_is_not_negative_witness :
  exists n,
    PolyFileLiteralTransformer.INT (token_at TokenType.INT "23" 1 12)
    = Ok (VTokenData (token_at TokenType.INT "23" 1 12) (VInt n))
    /\ 0 <= n /\ n <> -1.
Proof.
  refine (proj1 (INT_is_not_negative (token_at TokenType.INT "23" 1 12) eq_refl _) _).
  - discriminate.
  - cbn. unfold int_max_str_digits. lia.
Defined.

(** X20: the name of a name line is the text of its [NAME] token as it
    stands, inner blanks included; white space before the name gives one
    WARNING on that white space and does not change the name. *)
Theorem name_line_keeps_text (self : t) (tw tn : Token.t) :
  Token.type tn = TokenType.NAME ->
  Token.type tw = TokenType.WS ->
  interpret self (VTree Rule.name_line [VToken tn])
  = (Ok (VTuple [VStr (Token.value tn); VList []]), self)
  /\ interpret self (VTree Rule.name_line [VToken tw; VToken tn])
     = (Ok (VTuple [VStr (Token.value tn);
                    VList [msg_at WARNING tw tw reason_whitespace]]), self).
Proof.
  intros Hn Hw. unfold interpret.
  cbn [PolyFileLiteralTransformer.transform map sequence].
  unfold PolyFileLiteralTransformer.call_userfunc_token. rewrite Hn, Hw.
  split; reflexivity.
Qed.

Lemma name_line_keeps_text_witness :
  interpret (__init__ false) (VTree Rule.name_line [tok TokenType.NAME "this is a name" 1 3])
  = (Ok (VTuple [VStr "this is a name"; VList []]), __init__ false)
  /\ interpret (__init__ false)
       (VTree Rule.name_line
          [tok TokenType.WS "  " 1 1; tok TokenType.NAME "this is a name" 1 3])
     = (Ok (VTuple [VStr "this is a name";
                    VList [msg_at WARNING (token_at TokenType.WS "  " 1 1)
                             (token_at TokenType.WS "  " 1 1) reason_whitespace]]),
        __init__ false).
Proof.
  apply (name_line_keeps_text (__init__ false)
           (token_at TokenType.WS "  " 1 1)
           (token_at TokenType.NAME "this is a name" 1 3)); reflexivity.
Defined.

(** ** Rows *)

Lemma point_values_of (self : t) (x y : float) (rest : list float) :
  _min_n_columns self = _min_n_columns (__init__ (_has_z_value self)) ->
  point_values (point_of self (x :: y :: rest) x y) = x :: y :: rest.
Proof.
  unfold point_values, point_of, __init__. cbn [_min_n_columns Point.x Point.y Point.z Point.data].
  intros ->. destruct (_has_z_value self); cbn [negb andb].
  - destruct rest as [| z rest]; [reflexivity |].
    replace (3 <=? Z.of_nat (length (x :: y :: z :: rest))) with true
      by (symmetry; apply Z.leb_le; cbn [length]; lia).
    reflexivity.
  - reflexivity.
Qed.

(** X7: with the minimum number of columns that [__init__] derives from
    [has_z_value], the point of a row of two or more values holds every value
    of the row once and in order: [x], [y], then [z] when z-values are
    configured and the row has a third value, then [data]; whatever number of
    columns is expected. *)
Theorem point_keeps_every_value (self : t) (r0 r1 : Token.t * float)
    (rest : list (Token.t * float)) :
  let row := r0 :: r1 :: rest in
  _min_n_columns self = _min_n_columns (__init__ (_has_z_value self)) ->
  exists p msgs,
    visit (VTree Rule.point (map float_data row)) self
    = (Ok (VTuple [VPoint p; VList msgs]), self)
    /\ point_values p = map snd row
    /\ (Point.z p = None <-> _has_z_value self = false \/ rest = []).
Proof.
  cbv zeta. intros Hmin. eexists. eexists. split; [apply visit_point |].
  cbn [map]. split; [apply point_values_of; exact Hmin |].
  unfold point_of. cbn [Point.z].
  destruct (_has_z_value self); cbn [andb].
  - destruct rest as [| r2 rest].
    + split; intros _; [right |]; reflexivity.
    + cbn [map length nth_error].
      match goal with
      | |- context [3 <=? ?n] => destruct (Z.leb_spec 3 n) as [_ | Hlt]; [| lia]
      end.
      split; intros H; [discriminate H |].
      destruct H as [H | H]; discriminate H.
  - split; intros _; [left |]; reflexivity.
Qed.

Lemma point_keeps_every_value_witness :
  exists p msgs,
    visit five_values_row (__init__ true)
    = (Ok (VTuple [VPoint p; VList msgs]), __init__ true)
    /\ point_values p = [1.0; 2.0; 3.0; 4.0; 5.0]%float
    /\ (Point.z p = None <->
        true = false
        \/ [ (token_at TokenType.FLOAT "3.0" 1 14, 3.0%float);
             (token_at TokenType.FLOAT "4.0" 1 19, 4.0%float);
             (token_at TokenType.FLOAT "5.0" 1 24, 5.0%float) ] = []).
Proof.
  apply (point_keeps_every_value (__init__ true)
           (token_at TokenType.FLOAT "1.0" 1 4, 1.0%float)
           (token_at TokenType.FLOAT "2.0" 1 9, 2.0%float)
           [ (token_at TokenType.FLOAT "3.0" 1 14, 3.0%float);
             (token_at TokenType.FLOAT "4.0" 1 19, 4.0%float);
             (token_at TokenType.FLOAT "5.0" 1 24, 5.0%float) ]).
  reflexivity.
Defined.

(** X8: a row of two or more values has no diagnostic exactly when it has
    the expected number of values; otherwise it has exactly one, an ERROR
    from the start of its first value to the end of its last, which for a row
    with more values than expected says so.  The point of the row does not
    depend on the number expected. *)
Theorem point_diagnostic_iff_unexpected_length (self : t) (r0 r1 : Token.t * float)
    (rest : list (Token.t * float)) (n : Z) :
  let row := r0 :: r1 :: rest in
  let tree := VTree Rule.point (map float_data row) in
  exists p msgs msgs',
    visit tree self = (Ok (VTuple [VPoint p; VList msgs]), self)
    /\ (msgs = [] <-> Z.of_nat (length row) = _expected_n_columns self)
    /\ (msgs <> [] ->
        exists reason, msgs = [msg_at ERROR (fst r0) (fst (last row r0)) reason])
    /\ (_expected_n_columns self < Z.of_nat (length row) ->
        msgs = [msg_at ERROR (fst r0) (fst (last row r0)) reason_point_excess])
    /\ fst ((_ <- set_expected_n_columns n ;; visit tree) self)
       = Ok (VTuple [VPoint p; VList msgs']).
Proof.
  cbv zeta. eexists. eexists. eexists.
  split; [apply visit_point |].
  unfold point_msgs.
  destruct (Z.ltb_spec (Z.of_nat (length (r0 :: r1 :: rest))) (_expected_n_columns self))
    as [Hlt | Hge];
    [| destruct (Z.ltb_spec (_expected_n_columns self) (Z.of_nat (length (r0 :: r1 :: rest))))
         as [Hgt | Hle]].
  - split; [split; [discriminate | lia] |]. split; [eauto |]. split; [lia |].
    unfold bind, set_expected_n_columns. rewrite visit_point. reflexivity.
  - split; [split; [discriminate | lia] |]. split; [eauto |]. split; [reflexivity |].
    unfold bind, set_expected_n_columns. rewrite visit_point. reflexivity.
  - split; [split; [lia | reflexivity] |]. split; [congruence |]. split; [lia |].
    unfold bind, set_expected_n_columns. rewrite visit_point. reflexivity.
Qed.

Lemma visit_points_children (self : t) (cs : list PointsChild) :
  visit (VTree Rule.points (map points_child cs)) self
  = (Ok (VTuple [VList (map VPoint (flat_map (row_points self) cs));
                 VList (flat_map row_blanks cs ++ flat_map (row_msgs self) cs)]), self).
Proof.
  pose (res := fun c : PointsChild =>
                 match c with
                 | BlankLines _ => []
                 | _ => [(match row_points self c with p :: _ => VPoint p | [] => VNone end,
                          row_msgs self c)]
                 end).
  rewrite (visit_points self _ (flat_map res cs)).
  - repeat f_equal.
    + induction cs as [| [m | r0 r1 rest | r] cs IH]; [reflexivity | | |];
        cbn [flat_map res row_points app map filter fst truth]; rewrite ?IH; reflexivity.
    + unfold own_msgs.
      induction cs as [| [m | r0 r1 rest | r] cs IH]; [reflexivity | | |];
        cbn [flat_map row_blanks app map filter points_child is_ParseMsg];
        rewrite ?IH; reflexivity.
    + induction cs as [| [m | r0 r1 rest | r] cs IH]; [reflexivity | | |];
        cbn [flat_map res app map concat snd]; rewrite ?IH; reflexivity.
  - unfold elems.
    induction cs as [| [m | r0 r1 rest | r] cs IH];
      cbn [flat_map res app map filter points_child is_ParseMsg negb].
    + constructor.
    + exact IH.
    + constructor; [| exact IH]. cbn [fst snd row_points row_msgs].
      apply visit_point.
    + constructor; [| exact IH]. destruct r as [token f]. reflexivity.
Qed.

(** X9: [points] returns one point for every row of two or more values, in
    the order of the rows, and none for a row of one value or for blank
    lines; its diagnostics are those of the blank lines, in their order, and
    then those of the rows, a row of one value giving one ERROR. *)
Theorem points_one_point_per_valid_row (self : t) (cs : list PointsChild) :
  exists pts msgs,
    visit (VTree Rule.points (map points_child cs)) self
    = (Ok (VTuple [VList (map VPoint pts); VList msgs]), self)
    /\ pts = flat_map (row_points self) cs
    /\ msgs = flat_map row_blanks cs ++ flat_map (row_msgs self) cs
    /\ length pts = length (filter is_PointRow cs).
Proof.
  eexists. eexists. split; [apply visit_points_children |].
  split; [reflexivity |]. split; [reflexivity |].
  induction cs as [| [m | r0 r1 rest | r] cs IH]; [reflexivity | | |];
    cbn [flat_map row_points app filter is_PointRow length]; rewrite ?IH; reflexivity.
Qed.

(** ** Blocks without a header, and failures inside a block *)

Lemma bind_Raise {A B : Type} (m : M A) (e : Exception) (k : A -> M B) (self self' : t) :
  m self = (Raise e, self') -> bind m k self = (Raise e, self').
Proof. unfold bind. intros ->. reflexivity. Qed.

Lemma bind_lift_Raise {A B : Type} (o : Outcome A) (e : Exception) (k : A -> M B) (self : t) :
  o = Raise e -> bind (lift o) k self = (Raise e, self).
Proof. intros ->. reflexivity. Qed.

Lemma visit_all_spec (self : t) (els results : list PyObj) :
  Forall2 (fun e r => visit e self = (Ok r, self)) els results ->
  visit_all (visited els) self = (Ok results, self).
Proof.
  induction 1 as [| e r els results He _ IH]; [reflexivity |].
  cbn [visited map visit_all]. run_visit He. fold (visited els).
  erewrite bind_Ok by exact IH. reflexivity.
Qed.

Lemma visit_all_raise (self : t) (pre post : list PyObj) (c : PyObj) (e : Exception) :
  Forall (fun x => exists a l, visit x self = (Ok (VTuple [a; VList l]), self)) pre ->
  visit c self = (Raise e, self) ->
  visit_all (visited (pre ++ c :: post)) self = (Raise e, self).
Proof.
  intros Hpre Hc. induction Hpre as [| x pre (a & l & Hx) _ IH].
  - cbn [app visited map visit_all]. apply bind_Raise. exact Hc.
  - cbn [app visited map visit_all]. run_visit Hx.
    fold (visited (pre ++ c :: post)). apply bind_Raise. exact IH.
Qed.

Lemma points_loop_raise (self : t) (pre post : list PyObj) (c : PyObj) (e : Exception) :
  Forall (fun x => exists a l, visit x self = (Ok (VTuple [a; VList l]), self)) pre ->
  visit c self = (Raise e, self) ->
  forall points msgs,
    points_loop (visited (pre ++ c :: post)) points msgs self = (Raise e, self).
Proof.
  intros Hpre Hc. induction Hpre as [| x pre (a & l & Hx) _ IH]; intros points msgs.
  - cbn [app visited map points_loop]. apply bind_Raise. exact Hc.
  - cbn [app visited map points_loop]. run_visit Hx. run.
    assert (Hext : (if truth (VList l) then list_extend msgs (VList l) else Ok msgs)
                   = Ok (msgs ++ l)).
    { destruct l; [cbn; rewrite app_nil_r |]; reflexivity. }
    rewrite Hext. run. fold (visited (pre ++ c :: post)). apply IH.
Qed.

Lemma visit_poly_block_no_header (self : t) (children : list PyObj) (m p : PyObj)
    (md : Metadata.t) (pts : list Point.t) (mmsgs pmsgs : list PyObj) :
  elems children = [m; p] ->
  visit m self = (Ok (VTuple [VMetadata md; VList mmsgs]), self) ->
  visit p self = (Ok (VTuple [VList (map VPoint pts); VList pmsgs]), self) ->
  visit (VTree Rule.poly_block children) self
  = (Ok (VTuple [VPolyObject (PolyObject.mk None md pts);
                 VList (own_msgs children ++ mmsgs ++ pmsgs)]), self).
Proof.
  intros He Hm Hp. rewrite visit_tree. unfold poly_block.
  rewrite filter_msgs_visited, He. unfold visited. cbn [map visit_all]. cbv beta iota.
  run. run_visit Hm. run. run_visit Hp. run.
  unfold new_PolyObject.
  cbn [obind]. rewrite mapM_as_Point. run. rewrite app_nil_r, <- !app_assoc. reflexivity.
Qed.

(** X10: a block without a description header, of a metadata and a points
    subtree, yields the object with no description; its diagnostics are
    those of the block itself, then those of the metadata, then those of the
    points. *)
Theorem poly_block_without_header (self : t) (children : list PyObj) (m p : PyObj)
    (md : Metadata.t) (pts : list Point.t) (mmsgs pmsgs : list PyObj) :
  elems children = [m; p] ->
  visit m self = (Ok (VTuple [VMetadata md; VList mmsgs]), self) ->
  visit p self = (Ok (VTuple [VList (map VPoint pts); VList pmsgs]), self) ->
  visit (VTree Rule.poly_block children) self
  = (Ok (VTuple [VPolyObject (PolyObject.mk None md pts);
                 VList (own_msgs children ++ mmsgs ++ pmsgs)]), self).
Proof.
  intros He Hm Hp. eapply visit_poly_block_no_header; eassumption.
Qed.

Lemma poly_block_without_header_witness :
  visit (transformed well_formed_block) (__init__ false)
  = (Ok (VTuple [VPolyObject
                   (PolyObject.mk None (Metadata.mk "myName" 2 2)
                      [Point.mk 1.0 2.0 None []; Point.mk 3.0 4.0 None []]);
                 VList (own_msgs (transformed_children well_formed_block) ++ [] ++ [])]),
     __init__ false).
Proof.
  apply (poly_block_without_header (__init__ false)
           (transformed_children well_formed_block)
           (nth 0 (transformed_children well_formed_block) VNone)
           (nth 1 (transformed_children well_formed_block) VNone)
           (Metadata.mk "myName" 2 2)
           [Point.mk 1.0 2.0 None []; Point.mk 3.0 4.0 None []] [] []);
    reflexivity.
Defined.

(** X11: [poly_block] needs two or three subtrees: with any other number of
    children that are no diagnostics, all visited without failure, it raises
    [ValueError]; so it does without children. *)
Theorem poly_block_wrong_number_of_components (self : t) (children results : list PyObj) :
  Forall2 (fun e r => visit e self = (Ok r, self)) (elems children) results ->
  length (elems children) <> 2%nat ->
  length (elems children) <> 3%nat ->
  visit (VTree Rule.poly_block children) self = (Raise ValueError, self)
  /\ visit (VTree Rule.poly_block []) self = (Raise ValueError, self).
Proof.
  intros H H2 H3. split; [| reflexivity].
  rewrite visit_tree. unfold poly_block. rewrite filter_msgs_visited. cbv beta iota.
  erewrite bind_Ok by (apply visit_all_spec; exact H).
  apply bind_lift_Raise. unfold unpack_components.
  rewrite (Forall2_length H) in H2, H3.
  destruct results as [| a [| b [| c [| d results]]]]; try reflexivity;
    [contradiction H2 | contradiction H3]; reflexivity.
Qed.

Lemma poly_block_wrong_number_of_components_witness :
  visit (VTree Rule.poly_block [transformed test_description_header]) (__init__ false)
  = (Raise ValueError, __init__ false)
  /\ visit (VTree Rule.poly_block []) (__init__ false) = (Raise ValueError, __init__ false).
Proof.
  apply (poly_block_wrong_number_of_components (__init__ false)
           [transformed test_description_header]
           [VTuple [VDescriptionHeader
                      (DescriptionHeader.mk
                         (" some value" ++ newline ++ " another value" ++ newline
                          ++ " last value"));
                    VList [VParseMsg (ParseMsg.mk WARNING (3, 5) (1, 1)
                                        reason_empty_lines)]]]).
  - repeat constructor.
  - discriminate.
  - discriminate.
Defined.

(** X12: a failure inside a block is not caught: when the visit of a
    subtree raises, after the subtrees before it were visited, [points] and
    [poly_block] raise the same exception, and so does [metadata] for its
    first two subtrees. *)
Theorem first_failure_propagates (self : t) (data : Rule.t)
    (children pre post : list PyObj) (c : PyObj) (e : Exception) :
  data = Rule.points \/ data = Rule.poly_block
  \/ (data = Rule.metadata /\ (length pre <= 1)%nat) ->
  elems children = pre ++ c :: post ->
  Forall (fun x => exists a l, visit x self = (Ok (VTuple [a; VList l]), self)) pre ->
  visit c self = (Raise e, self) ->
  visit (VTree data children) self = (Raise e, self).
Proof.
  intros Hdata He Hpre Hc. rewrite visit_tree.
  destruct Hdata as [-> | [-> | [-> Hlen]]].
  - unfold points. rewrite filter_msgs_visited, He. cbv beta iota.
    apply bind_Raise. apply points_loop_raise; assumption.
  - unfold poly_block. rewrite filter_msgs_visited, He. cbv beta iota.
    apply bind_Raise. apply visit_all_raise; assumption.
  - unfold metadata. rewrite filter_msgs_visited, He. cbv beta iota.
    destruct pre as [| x [| y pre]]; [| | cbn [length] in Hlen; lia].
    + cbn [app visited map]. run. apply bind_Raise. exact Hc.
    + apply Forall_cons_iff in Hpre. destruct Hpre as [(a & l & Hx) _].
      cbn [app visited map]. run. run_visit Hx. run. apply bind_Raise. exact Hc.
Qed.

Lemma first_failure_propagates_witness :
  visit (VTree Rule.metadata
           [ transformed (VTree Rule.name_line [tok TokenType.NAME "myName" 1 1]);
             transformed indented_dimensions_line ]) (__init__ false)
  = (Raise AttributeError, __init__ false).
Proof.
  apply (first_failure_propagates (__init__ false) Rule.metadata _
           [transformed (VTree Rule.name_line [tok TokenType.NAME "myName" 1 1])]
           [] (transformed indented_dimensions_line) AttributeError).
  - right. right. split; [reflexivity | cbn; lia].
  - reflexivity.
  - repeat constructor. eexists. eexists. reflexivity.
  - reflexivity.
Defined.

(** ** Trees of the grammar that are visited without failure *)

Lemma leaf_msgs_floats (children : list PyObj) :
  forallb is_float_data children = true -> flat_map leaf_msgs children = [].
Proof.
  induction children as [| c cs IH]; cbn [forallb]; intros H; [reflexivity |].
  apply andb_prop in H as [Hc Hcs]. kind c Hc. cbn [flat_map leaf_msgs app].
  apply IH. exact Hcs.
Qed.

Lemma leaf_msgs_ints (children : list PyObj) :
  forallb is_int_data children = true -> flat_map leaf_msgs children = [].
Proof.
  induction children as [| c cs IH]; cbn [forallb]; intros H; [reflexivity |].
  apply andb_prop in H as [Hc Hcs]. kind c Hc. cbn [flat_map leaf_msgs app].
  apply IH. exact Hcs.
Qed.

Lemma leaf_msgs_header (children : list PyObj) :
  forallb (fun c => is_CommentLine c || is_ParseMsg c) children = true ->
  flat_map leaf_msgs children = own_msgs children.
Proof.
  unfold own_msgs.
  induction children as [| c cs IH]; cbn [forallb]; intros H; [reflexivity |].
  apply andb_prop in H as [Hc Hcs].
  kind c Hc; cbn [flat_map leaf_msgs app filter is_ParseMsg]; rewrite (IH Hcs);
    reflexivity.
Qed.

Lemma leaf_msgs_incl (children result : list PyObj) :
  incl (own_msgs children) result ->
  Forall (fun c => incl (leaf_msgs c) result) (elems children) ->
  incl (flat_map leaf_msgs children) result.
Proof.
  intros Hown Hel x Hx. apply in_flat_map in Hx. destruct Hx as (c & Hc & Hx).
  destruct (is_ParseMsg c) eqn:E.
  - destruct c; try discriminate E. cbn [leaf_msgs In] in Hx.
    destruct Hx as [<- | []]. apply Hown. unfold own_msgs. apply filter_In.
    split; [exact Hc | reflexivity].
  - rewrite Forall_forall in Hel. apply (Hel c); [| exact Hx].
    unfold elems. apply filter_In. split; [exact Hc |]. rewrite E. reflexivity.
Qed.

Lemma reported_leaves (tree : PyObj) (l : list PyObj) :
  incl l (leaf_msgs tree) -> Forall (from_leaf_or_reported tree) l.
Proof.
  intros H. apply Forall_forall. intros m Hm. left. apply H. exact Hm.
Qed.

Lemma reported_own (data : Rule.t) (children : list PyObj) :
  Forall (from_leaf_or_reported (VTree data children)) (own_msgs children).
Proof.
  apply reported_leaves. intros m Hm. unfold own_msgs in Hm.
  apply filter_In in Hm. destruct Hm as [Hin Hm].
  destruct m; try discriminate Hm. cbn [leaf_msgs].
  apply in_flat_map. eexists. split; [exact Hin |]. left. reflexivity.
Qed.

Lemma reported_child (data : Rule.t) (children : list PyObj) (c : PyObj)
    (l : list PyObj) :
  In c children ->
  Forall (from_leaf_or_reported c) l ->
  Forall (from_leaf_or_reported (VTree data children)) l.
Proof.
  intros Hin H. eapply Forall_impl; [| exact H].
  intros m [Hm | Hm]; [left | right; exact Hm].
  cbn [leaf_msgs]. apply in_flat_map. eauto.
Qed.

Ltac reported :=
  repeat first [ apply Forall_cons | apply Forall_nil ];
  first [ right; left; reflexivity | right; right; reflexivity ].

Lemma reported_point_msgs (tree : PyObj) (self : t) (first last : Token.t) (n : Z) :
  Forall (from_leaf_or_reported tree) (point_msgs self first last n).
Proof.
  unfold point_msgs.
  destruct (n <? _expected_n_columns self);
    [| destruct (_expected_n_columns self <? n)];
    first [ apply Forall_nil | reported ].
Qed.

Lemma well_child (children : list PyObj) (data : Rule.t) (cs : list PyObj) (self : t) :
  forallb conforms children = true ->
  forallb clean children = true ->
  Forall well_tree children ->
  In (VTree data cs) children ->
  visits_well data (VTree data cs) self.
Proof.
  intros Hc Hk IH Hin. rewrite Forall_forall in IH. rewrite forallb_forall in Hc, Hk.
  exact (IH _ Hin data cs eq_refl (Hc _ Hin) (Hk _ Hin) self).
Qed.

Lemma well_description_header (children : list PyObj) (self : t) :
  shape Rule.description_header children = true ->
  visits_well Rule.description_header (VTree Rule.description_header children) self.
Proof.
  cbn [shape]. intros H. unfold visits_well. rewrite visit_tree.
  unfold description_header. rewrite filter_msgs_id. cbv beta iota.
  destruct (mapM_contents children H) as [contents E].
  rewrite (bind_lift_Ok _ _ _ _ E). eexists. split; [reflexivity |].
  split; [cbn; eauto |]. cbn [result_msgs]. split.
  - intros _. cbn [leaf_msgs]. rewrite (leaf_msgs_header _ H). apply incl_refl.
  - apply reported_own.
Qed.

Lemma well_name_line (children : list PyObj) (self : t) :
  shape Rule.name_line children = true ->
  visits_well Rule.name_line (VTree Rule.name_line children) self.
Proof.
  cbn [shape]. intros H.
  destruct children as [| n [| n' [| ? ?]]]; try discriminate H.
  - kind n H. eexists. split; [reflexivity |]. split; [cbn; eauto |].
    split; [intros _; apply incl_refl | constructor].
  - apply andb_prop in H as [Hws Hn]. kind n Hws. kind n' Hn.
    eexists. split; [reflexivity |]. split; [cbn; eauto |].
    split; [intros _; apply incl_refl |].
    apply reported_leaves, incl_refl.
Qed.

Lemma well_dimensions_valid (children : list PyObj) (self : t) :
  shape Rule.dimensions_valid children = true ->
  visits_well Rule.dimensions_valid (VTree Rule.dimensions_valid children) self.
Proof.
  cbn [shape]. intros H.
  destruct children as [| r [| c [| ? ?]]]; try discriminate H.
  apply andb_prop in H as [Hr Hc]. kind r Hr. kind c Hc.
  eexists. split; [apply visit_dimensions_valid |]. split; [cbn; eauto |].
  split; [intros _ x Hx; destruct Hx |].
  cbn [result_msgs]. unfold dimensions_valid_msgs.
  destruct (_ <? _); first [ apply Forall_nil | reported ].
Qed.

Lemma well_dimensions_missing_column (children : list PyObj) (self : t) :
  shape Rule.dimensions_missing_column children = true ->
  visits_well Rule.dimensions_missing_column
    (VTree Rule.dimensions_missing_column children) self.
Proof.
  cbn [shape]. intros H.
  destruct children as [| r [| ? ?]]; try discriminate H.
  kind r H. eexists. split; [reflexivity |]. split; [cbn; eauto |].
  split; [intros _ x Hx; destruct Hx |].
  reported.
Qed.

Lemma well_dimensions_exceeding_columns (children : list PyObj) (self : t) :
  shape Rule.dimensions_exceeding_columns children = true ->
  forallb conforms children = true ->
  visits_well Rule.dimensions_exceeding_columns
    (VTree Rule.dimensions_exceeding_columns children) self.
Proof.
  cbn [shape]. intros H Hc.
  destruct children as [| valid [| x rest]]; try discriminate H.
  apply andb_prop in H as [H Hrest]. apply andb_prop in H as [Hvalid Hx].
  kind valid Hvalid. kind x Hx.
  cbn [forallb conforms] in Hc. apply andb_prop in Hc as [Hc _].
  apply andb_prop in Hc as [Hshape _]. cbn [shape] in Hshape.
  destruct children as [| r [| c [| ? ?]]]; try discriminate Hshape.
  apply andb_prop in Hshape as [Hr Hcol]. kind r Hr. kind c Hcol.
  eexists. split.
  - apply visit_dimensions_exceeding_columns. apply visit_dimensions_valid.
  - split; [cbn; eauto |]. split.
    + intros _. cbn [leaf_msgs flat_map app].
      rewrite (leaf_msgs_ints _ Hrest). intros y Hy. destruct Hy.
    + cbn [result_msgs]. unfold dimensions_valid_msgs.
      destruct (_ <? _); cbn [app]; reported.
Qed.

Lemma well_dimensions_line (children : list PyObj) (self : t) :
  shape Rule.dimensions_line children = true ->
  forallb conforms children = true ->
  clean (VTree Rule.dimensions_line children) = true ->
  Forall well_tree children ->
  visits_well Rule.dimensions_line (VTree Rule.dimensions_line children) self.
Proof.
  cbn [shape clean]. intros H Hc Hk IH.
  destruct children as [| d [| ? ?]]; try discriminate Hk.
  cbn [andb] in Hk.
  assert (Hd : exists data cs,
             d = VTree data cs /\ data <> Rule.poly_file
             /\ forall v, typed data v -> typed Rule.dimensions_line v).
  { kind d H; eexists; eexists; (split; [reflexivity |]); (split; [discriminate |]);
      intros v Hv; exact Hv. }
  destruct Hd as (data & cs & -> & Hdata & Ht).
  destruct (well_child _ data cs self Hc Hk IH (or_introl eq_refl))
    as (v & Hv & Hty & Hincl & Hrep).
  pose proof (Ht v Hty) as (r & c & l & ->).
  eexists. split; [apply visit_dimensions_line_single; exact Hv |].
  split; [cbn; eauto |]. split.
  - intros _. cbn [leaf_msgs flat_map]. rewrite app_nil_r. exact (Hincl Hdata).
  - eapply reported_child; [left; reflexivity | exact Hrep].
Qed.

Lemma well_metadata (children : list PyObj) (self : t) :
  shape Rule.metadata children = true ->
  forallb conforms children = true ->
  forallb clean children = true ->
  Forall well_tree children ->
  visits_well Rule.metadata (VTree Rule.metadata children) self.
Proof.
  cbn [shape]. intros H Hc Hk IH.
  destruct (elems children) as [| n [| d [| ? ?]]] eqn:E; try discriminate H.
  apply andb_prop in H as [Hn Hd]. kind n Hn. rename children0 into csn.
  kind d Hd. rename children0 into csd.
  assert (Hin : In (VTree Rule.name_line csn) children)
    by (apply elems_In; rewrite E; cbn; auto).
  assert (Hid : In (VTree Rule.dimensions_line csd) children)
    by (apply elems_In; rewrite E; cbn; auto).
  destruct (well_child _ _ _ self Hc Hk IH Hin)
    as (vn & Hvn & (s & nm & ->) & Hnm & Hnr).
  destruct (well_child _ _ _ self Hc Hk IH Hid)
    as (vd & Hvd & (r & c & dm & ->) & Hdm & Hdr).
  eexists. split.
  - erewrite visit_metadata by first [ exact E | exact Hvn | exact Hvd | reflexivity ].
    reflexivity.
  - split; [cbn; eauto |]. cbn [result_msgs]. split.
    + intros _. cbn [leaf_msgs]. apply leaf_msgs_incl.
      * apply incl_appl, incl_appl, incl_refl.
      * rewrite E. constructor; [| constructor; [| constructor]].
        -- apply incl_appl, incl_appr. apply Hnm. discriminate.
        -- apply incl_appr. apply Hdm. discriminate.
    + apply Forall_app. split; [apply Forall_app; split |].
      * apply reported_own.
      * eapply reported_child; [exact Hin | exact Hnr].
      * eapply reported_child; [exact Hid | exact Hdr].
Qed.

Lemma well_point (children : list PyObj) (self : t) :
  shape Rule.point children = true ->
  visits_well Rule.point (VTree Rule.point children) self.
Proof.
  cbn [shape]. intros H.
  destruct children as [| a [| b rest]]; try discriminate H.
  pose proof (leaf_msgs_floats _ H) as Hleaf.
  destruct (float_data_row _ H) as [row E].
  destruct row as [| r0 [| r1 row]]; try discriminate E.
  rewrite E in *. eexists. split; [apply (visit_point self r0 r1 row) |].
  split; [cbn; eauto |]. split.
  - intros _. cbn [leaf_msgs]. rewrite Hleaf. intros y Hy. destruct Hy.
  - apply reported_point_msgs.
Qed.

Lemma well_point_invalid (children : list PyObj) (self : t) :
  shape Rule.point_invalid children = true ->
  visits_well Rule.point_invalid (VTree Rule.point_invalid children) self.
Proof.
  cbn [shape]. intros H.
  destruct children as [| r [| ? ?]]; try discriminate H.
  kind r H. eexists. split; [reflexivity |]. split; [cbn; eauto |].
  split; [intros _ x Hx; destruct Hx |].
  reported.
Qed.

Lemma points_children (children : list PyObj) :
  shape Rule.points children = true ->
  forallb conforms children = true ->
  exists cs, children = map points_child cs.
Proof.
  cbn [shape]. induction children as [| c children IH]; cbn [forallb]; intros H Hc.
  - exists []. reflexivity.
  - apply andb_prop in H as [H Hs]. apply andb_prop in Hc as [Hc Hcs].
    destruct (IH Hs Hcs) as [cs ->].
    destruct (is_ParseMsg c) eqn:Em.
    + destruct c; try discriminate Em. exists (BlankLines m :: cs). reflexivity.
    + cbn [orb] in H.
      destruct c as [ | | | | | | | | | | | | | | data row ]; try discriminate H.
      destruct data; try discriminate H;
        cbn [conforms] in Hc; apply andb_prop in Hc as [Hshape _]; cbn [shape] in Hshape.
      * destruct row as [| a [| b rest]]; try discriminate Hshape.
        destruct (float_data_row _ Hshape) as [[| r0 [| r1 row]] E]; try discriminate E.
        rewrite E. exists (PointRow r0 r1 row :: cs). reflexivity.
      * destruct row as [| r [| ? ?]]; try discriminate Hshape. kind r Hshape.
        exists (SingleValue (token, f) :: cs). reflexivity.
Qed.

Lemma leaf_msgs_points_children (cs : list PointsChild) :
  flat_map leaf_msgs (map points_child cs) = flat_map row_blanks cs.
Proof.
  induction cs as [| [m | r0 r1 rest | r] cs IH]; [reflexivity | | |];
    cbn [map flat_map points_child row_blanks leaf_msgs app]; rewrite IH.
  - reflexivity.
  - replace (flat_map leaf_msgs (map float_data rest)) with (@nil PyObj); [reflexivity |].
    symmetry. induction rest as [| x rest IHr]; [reflexivity | exact IHr].
  - reflexivity.
Qed.

Lemma well_points (children : list PyObj) (self : t) :
  shape Rule.points children = true ->
  forallb conforms children = true ->
  visits_well Rule.points (VTree Rule.points children) self.
Proof.
  intros H Hc. destruct (points_children _ H Hc) as [cs ->].
  eexists. split; [apply visit_points_children |].
  split; [cbn; eauto |]. cbn [result_msgs]. split.
  - intros _. cbn [leaf_msgs]. rewrite leaf_msgs_points_children.
    apply incl_appl, incl_refl.
  - apply Forall_app. split.
    + apply reported_leaves. cbn [leaf_msgs]. rewrite leaf_msgs_points_children.
      apply incl_refl.
    + apply Forall_forall. intros m Hm. apply in_flat_map in Hm.
      destruct Hm as ([b | r0 r1 rest | r] & _ & Hm); cbn [row_msgs In] in Hm.
      * contradiction.
      * revert m Hm. apply Forall_forall. apply reported_point_msgs.
      * destruct Hm as [<- | []]. right. left. reflexivity.
Qed.

Lemma well_poly_block (children : list PyObj) (self : t) :
  shape Rule.poly_block children = true ->
  forallb conforms children = true ->
  forallb clean children = true ->
  Forall well_tree children ->
  visits_well Rule.poly_block (VTree Rule.poly_block children) self.
Proof.
  cbn [shape]. intros H Hc Hk IH.
  destruct (elems children) as [| a [| b [| c [| ? ?]]]] eqn:E; try discriminate H.
  - apply andb_prop in H as [Hm Hp].
    kind a Hm. rename children0 into csm. kind b Hp. rename children0 into csp.
    assert (Him : In (VTree Rule.metadata csm) children)
      by (apply elems_In; rewrite E; cbn; auto).
    assert (Hip : In (VTree Rule.points csp) children)
      by (apply elems_In; rewrite E; cbn; auto).
    destruct (well_child _ _ _ self Hc Hk IH Him)
      as (vm & Hvm & (md & mm & ->) & Hmm & Hmr).
    destruct (well_child _ _ _ self Hc Hk IH Hip)
      as (vp & Hvp & (ps & pm & ->) & Hpm & Hpr).
    eexists. split; [eapply visit_poly_block_no_header; eassumption |].
    split; [cbn; eauto |]. cbn [result_msgs]. split.
    + intros _. cbn [leaf_msgs]. apply leaf_msgs_incl.
      * apply incl_appl, incl_refl.
      * rewrite E. constructor; [| constructor; [| constructor]].
        -- apply incl_appr, incl_appl. apply Hmm. discriminate.
        -- apply incl_appr, incl_appr. apply Hpm. discriminate.
    + apply Forall_app. split; [apply reported_own |].
      apply Forall_app. split.
      * eapply reported_child; [exact Him | exact Hmr].
      * eapply reported_child; [exact Hip | exact Hpr].
  - apply andb_prop in H as [H Hp]. apply andb_prop in H as [Hd Hm].
    kind a Hd. rename children0 into csd. kind b Hm. rename children0 into csm.
    kind c Hp. rename children0 into csp.
    assert (Hid : In (VTree Rule.description_header csd) children)
      by (apply elems_In; rewrite E; cbn; auto).
    assert (Him : In (VTree Rule.metadata csm) children)
      by (apply elems_In; rewrite E; cbn; auto).
    assert (Hip : In (VTree Rule.points csp) children)
      by (apply elems_In; rewrite E; cbn; auto).
    destruct (well_child _ _ _ self Hc Hk IH Hid)
      as (vd & Hvd & (h & dm & ->) & Hdm & Hdr).
    destruct (well_child _ _ _ self Hc Hk IH Him)
      as (vm & Hvm & (md & mm & ->) & Hmm & Hmr).
    destruct (well_child _ _ _ self Hc Hk IH Hip)
      as (vp & Hvp & (ps & pm & ->) & Hpm & Hpr).
    eexists. split; [eapply visit_poly_block; eassumption |].
    split; [cbn; eauto |]. cbn [result_msgs]. split.
    + intros _. cbn [leaf_msgs]. apply leaf_msgs_incl.
      * apply incl_appl, incl_refl.
      * rewrite E. constructor; [| constructor; [| constructor; [| constructor]]].
        -- apply incl_appr, incl_appl. apply Hdm. discriminate.
        -- apply incl_appr, incl_appr, incl_appl. apply Hmm. discriminate.
        -- apply incl_appr, incl_appr, incl_appr. apply Hpm. discriminate.
    + apply Forall_app. split; [apply reported_own |].
      apply Forall_app. split; [| apply Forall_app; split].
      * eapply reported_child; [exact Hid | exact Hdr].
      * eapply reported_child; [exact Him | exact Hmr].
      * eapply reported_child; [exact Hip | exact Hpr].
Qed.

Lemma well_invalid_block (children : list PyObj) (self : t) :
  shape Rule.invalid_block children = true ->
  clean (VTree Rule.invalid_block children) = true ->
  visits_well Rule.invalid_block (VTree Rule.invalid_block children) self.
Proof.
  cbn [shape clean]. intros H Hk.
  destruct children as [| b [| ? ?]]; try discriminate Hk.
  kind b H. eexists. split; [reflexivity |]. split; [cbn; eauto |].
  split; [intros _ x Hx; destruct Hx |].
  reported.
Qed.

Lemma well_visit (tree : PyObj) : well_tree tree.
Proof.
  induction tree as [data children IH | o Ho] using PyObj_tree_ind.
  - intros data' children' E Hc Hk self. inversion E. subst data' children'. clear E.
    cbn [conforms] in Hc. apply andb_prop in Hc as [Hs Hc].
    pose proof Hk as Hk'. cbn [clean] in Hk'. apply andb_prop in Hk' as [_ Hks].
    destruct data.
    + apply well_description_header, Hs.
    + apply well_name_line, Hs.
    + apply well_dimensions_valid, Hs.
    + apply well_dimensions_missing_column, Hs.
    + apply well_dimensions_exceeding_columns; assumption.
    + apply well_dimensions_line; assumption.
    + apply well_metadata; assumption.
    + apply well_point, Hs.
    + apply well_point_invalid, Hs.
    + apply well_points; assumption.
    + apply well_poly_block; assumption.
    + apply well_invalid_block; assumption.
    + eexists. split; [reflexivity |]. split; [reflexivity |].
      split; [intros H; contradiction H; reflexivity | constructor].
  - intros data children E. subst o. discriminate Ho.
Qed.

(** X13: a grammar tree whose dimension lines do not start with white space
    and whose invalid blocks have no name line is visited without failure:
    the visit returns a value of the type of its rule and leaves the
    instance as it was. *)
Theorem clean_grammar_tree_returns (self : t) (data : Rule.t) (children : list PyObj) :
  conforms (VTree data children) = true ->
  clean (VTree data children) = true ->
  exists v, visit (VTree data children) self = (Ok v, self) /\ typed data v.
Proof.
  intros Hc Hk.
  destruct (well_visit _ data children eq_refl Hc Hk self) as (v & Hv & Ht & _ & _).
  exists v. split; assumption.
Qed.

Lemma clean_grammar_tree_returns_witness :
  exists v,
    visit (VTree Rule.poly_block (transformed_children round_trip_tree)) (__init__ true)
    = (Ok v, __init__ true)
    /\ typed Rule.poly_block v.
Proof.
  apply (clean_grammar_tree_returns (__init__ true) Rule.poly_block
           (transformed_children round_trip_tree)); reflexivity.
Defined.

(** X14: the two passes together lose no warning: when the transformer
    turns a parse tree, of a rule other than [poly_file], into a grammar tree
    without white space before dimensions and without a name line in an
    invalid block, the interpretation returns, and the WARNING of every token
    of white space or of blank lines of the parse tree is among the
    diagnostics returned. *)
Theorem interpret_keeps_every_warning (self : t) (data : Rule.t)
    (children : list PyObj) (tree' : PyObj) :
  is_parse_tree (VTree data children) = true ->
  data <> Rule.poly_file ->
  PolyFileLiteralTransformer.transform (VTree data children) = Ok tree' ->
  conforms tree' = true ->
  clean tree' = true ->
  exists v,
    interpret self (VTree data children) = (Ok v, self)
    /\ typed data v
    /\ incl (flat_map blank_warning (leaf_tokens (VTree data children))) (result_msgs v).
Proof.
  intros Hp Hdata Ht Hc Hk.
  pose proof (transform_leaf_msgs _ _ Hp Ht) as Hleaf.
  unfold interpret. rewrite Ht.
  destruct (transform_tree _ _ _ Ht) as (children' & -> & _).
  destruct (well_visit _ data children' eq_refl Hc Hk self) as (v & Hv & Hty & Hincl & _).
  exists v. split; [exact Hv |]. split; [exact Hty |].
  rewrite <- Hleaf. apply Hincl. exact Hdata.
Qed.

Lemma interpret_keeps_every_warning_witness :
  exists v,
    interpret (__init__ false) metadata_with_blank_line = (Ok v, __init__ false)
    /\ typed Rule.metadata v
    /\ incl (flat_map blank_warning (leaf_tokens metadata_with_blank_line))
            (result_msgs v).
Proof.
  unfold metadata_with_blank_line.
  eapply interpret_keeps_every_warning;
    first [ reflexivity | discriminate ].
Defined.

(** X15: on a tree of the grammar the interpreter fails in one way only: the
    visit returns a value of the type of the rule, or it raises
    [AttributeError]; in both cases it leaves the instance as it was. *)
Theorem grammar_tree_fails_with_AttributeError_only (self : t) (data : Rule.t)
    (children : list PyObj) :
  conforms (VTree data children) = true ->
  (exists v, visit (VTree data children) self = (Ok v, self) /\ typed data v)
  \/ visit (VTree data children) self = (Raise AttributeError, self).
Proof.
  intros Hc.
  pose proof (conforms_safe _ data children eq_refl Hc self) as Hs.
  pose proof (visit_frame (VTree data children) self) as Hf.
  destruct (visit (VTree data children) self) as [[v | e |] self'];
    cbn [fst snd safe_outcome] in Hs, Hf; subst self'.
  - left. exists v. split; [reflexivity | exact Hs].
  - right. rewrite Hs. reflexivity.
  - contradiction.
Qed.

Lemma grammar_tree_fails_with_AttributeError_only_witness :
  (exists v,
     visit (VTree Rule.dimensions_line (transformed_children indented_dimensions_line))
       (__init__ false) = (Ok v, __init__ false)
     /\ typed Rule.dimensions_line v)
  \/ visit (VTree Rule.dimensions_line (transformed_children indented_dimensions_line))
       (__init__ false) = (Raise AttributeError, __init__ false).
Proof.
  apply (grammar_tree_fails_with_AttributeError_only (__init__ false) Rule.dimensions_line
           (transformed_children indented_dimensions_line)).
  reflexivity.
Defined.

(** ** Nodes without children *)

(** X16: on a node without children, or with diagnostics only where the
    method filters them, the methods that read a child raise [IndexError]:
    [name_line], [metadata] (also with a name line alone, after visiting it),
    the four rules of a dimension line, [point], [point_invalid] and
    [invalid_block]; [points] and [description_header] return empty results
    with the diagnostics. *)
Theorem nodes_without_children (self : t) (msgs : list ParseMsg.t) (tn : Token.t)
    (name : string) :
  visit (VTree Rule.name_line (map VParseMsg msgs)) self = (Raise IndexError, self)
  /\ visit (VTree Rule.metadata (map VParseMsg msgs)) self = (Raise IndexError, self)
  /\ visit (VTree Rule.metadata
              (VTree Rule.name_line [VTokenData tn (VStr name)] :: map VParseMsg msgs)) self
     = (Raise IndexError, self)
  /\ visit (VTree Rule.dimensions_line []) self = (Raise IndexError, self)
  /\ visit (VTree Rule.dimensions_valid []) self = (Raise IndexError, self)
  /\ visit (VTree Rule.dimensions_missing_column []) self = (Raise IndexError, self)
  /\ visit (VTree Rule.dimensions_exceeding_columns []) self = (Raise IndexError, self)
  /\ visit (VTree Rule.point []) self = (Raise IndexError, self)
  /\ visit (VTree Rule.point_invalid []) self = (Raise IndexError, self)
  /\ visit (VTree Rule.invalid_block []) self = (Raise IndexError, self)
  /\ visit (VTree Rule.points (map VParseMsg msgs)) self
     = (Ok (VTuple [VList []; VList (map VParseMsg msgs)]), self).
Proof.
  assert (He : elems (map VParseMsg msgs) = []).
  { unfold elems. induction msgs as [| m msgs IH]; [reflexivity | exact IH]. }
  assert (Ho : own_msgs (map VParseMsg msgs) = map VParseMsg msgs).
  { clear He. unfold own_msgs. induction msgs as [| m msgs IH]; [reflexivity |].
    cbn [map filter is_ParseMsg]. rewrite IH. reflexivity. }
  split; [| split; [| split; [| split; [| split; [| split; [| split;
    [| split; [| split; [| split]]]]]]]]].
  - rewrite visit_tree. unfold name_line. rewrite filter_msgs_id, He. reflexivity.
  - rewrite visit_tree. unfold metadata. rewrite filter_msgs_visited, He. reflexivity.
  - rewrite visit_tree. unfold metadata. rewrite filter_msgs_visited.
    cbn [map elems filter is_ParseMsg negb]. fold (elems (map VParseMsg msgs)).
    rewrite He. reflexivity.
  - reflexivity.
  - reflexivity.
  - reflexivity.
  - reflexivity.
  - rewrite visit_tree. unfold point. cbn [mapM map sequence]. run. cbn [length Z.of_nat].
    destruct (0 <? _expected_n_columns self); [reflexivity |].
    destruct (_expected_n_columns self <? 0); [reflexivity |].
    run. rewrite andb_false_r. run. reflexivity.
  - reflexivity.
  - reflexivity.
  - rewrite visit_tree. unfold points. rewrite filter_msgs_visited, He, Ho. reflexivity.
Qed.


(** X17: what the two passes report is an ERROR or a WARNING, never FATAL or
    INFO: so for every diagnostic returned for a parse tree that the
    transformer turns into a grammar tree without white space before
    dimensions and without a name line in an invalid block. *)
Theorem interpret_reports_errors_and_warnings_only (self : t) (data : Rule.t)
    (children : list PyObj) (tree' : PyObj) :
  is_parse_tree (VTree data children) = true ->
  PolyFileLiteralTransformer.transform (VTree data children) = Ok tree' ->
  conforms tree' = true ->
  clean tree' = true ->
  exists v,
    interpret self (VTree data children) = (Ok v, self)
    /\ Forall (fun m => (has_level ERROR m = true \/ has_level WARNING m = true)
                        /\ has_level FATAL m = false /\ has_level INFO m = false)
              (result_msgs v).
Proof.
  intros Hp Ht Hc Hk.
  pose proof (transform_leaf_msgs _ _ Hp Ht) as Hleaf.
  unfold interpret. rewrite Ht.
  destruct (transform_tree _ _ _ Ht) as (children' & -> & _).
  destruct (well_visit _ data children' eq_refl Hc Hk self) as (v & Hv & _ & _ & Hrep).
  exists v. split; [exact Hv |].
  eapply Forall_impl; [| exact Hrep]. intros m Hm.
  assert (H : has_level ERROR m = true \/ has_level WARNING m = true).
  { destruct Hm as [Hm | Hm]; [| exact Hm]. right.
    rewrite Hleaf in Hm. apply in_flat_map in Hm. destruct Hm as (token & _ & Hm).
    unfold blank_warning in Hm.
    destruct (Token.type token); cbn [In] in Hm; try contradiction;
      destruct Hm as [<- | []]; reflexivity. }
  split; [exact H |].
  destruct m; try (destruct H as [H | H]; discriminate H).
  unfold has_level in *. destruct (ParseMsg.level m); cbn in *;
    destruct H as [H | H]; try discriminate H; split; reflexivity.
Qed.

Lemma interpret_reports_errors_and_warnings_only_witness :
  exists v,
    interpret (__init__ true) points_with_blank_line = (Ok v, __init__ true)
    /\ Forall (fun m => (has_level ERROR m = true \/ has_level WARNING m = true)
                        /\ has_level FATAL m = false /\ has_level INFO m = false)
              (result_msgs v).
Proof.
  unfold points_with_blank_line.
  eapply interpret_reports_errors_and_warnings_only; reflexivity.
Defined.

(** ** A whole block *)

Lemma visit_block_tree (self : t) (header : option (list (CommentLine.t + ParseMsg.t)))
    (tn tR tC : Token.t) (name : string) (R C : Z) (cs : list PointsChild) :
  visit (block_tree header tn tR tC name R C cs) self
  = (Ok (VTuple
           [ VPolyObject
               {| PolyObject.description :=
                    option_map (fun lines =>
                                  DescriptionHeader.mk
                                    (String.concat newline (header_contents lines)))
                               header;
                  PolyObject.metadata := Metadata.mk name R C;
                  PolyObject.points := flat_map (row_points self) cs |};
             VList (match header with Some lines => header_msgs lines | None => [] end
                    ++ dimensions_valid_msgs self tC C
                    ++ flat_map row_blanks cs
                    ++ flat_map (row_msgs self) cs) ]), self).
Proof.
  unfold block_tree.
  assert (Hm : visit (VTree Rule.metadata
                        [ VTree Rule.name_line [VTokenData tn (VStr name)];
                          VTree Rule.dimensions_line
                            [VTree Rule.dimensions_valid
                               [VTokenData tR (VInt R); VTokenData tC (VInt C)]] ]) self
               = (Ok (VTuple [VMetadata (Metadata.mk name R C);
                              VList (dimensions_valid_msgs self tC C)]), self)).
  { erewrite visit_metadata
      by first [ apply visit_dimensions_line_single; apply visit_dimensions_valid
               | apply (visit_name_line self tn (VStr name) None)
               | reflexivity ].
    reflexivity. }
  destruct header as [lines |]; cbn [app option_map].
  - erewrite visit_poly_block
      by first [ reflexivity | apply visit_description_header_lines | exact Hm
               | apply visit_points_children ].
    reflexivity.
  - erewrite visit_poly_block_no_header
      by first [ reflexivity | exact Hm | apply visit_points_children ].
    reflexivity.
Qed.

(** X18: a block of an optional description, a name, a dimension line of two
    integers [R] and [C] and rows is read as written: the description joins
    the comment lines, the metadata holds the name, [R] and [C], and there is
    one point for every row of two or more values, whatever [R] and [C] are:
    the rows are not checked against the declared dimensions.  The
    diagnostics are those of the description, of the dimension line, of the
    blank lines between the rows and of the rows, in this order. *)
Theorem block_of_rows (self : t) (header : option (list (CommentLine.t + ParseMsg.t)))
    (tn tR tC : Token.t) (name : string) (R C : Z) (cs : list PointsChild) :
  let metadata :=
    VTree Rule.metadata
      [ VTree Rule.name_line [VTokenData tn (VStr name)];
        VTree Rule.dimensions_line
          [VTree Rule.dimensions_valid [VTokenData tR (VInt R); VTokenData tC (VInt C)]] ] in
  let points := VTree Rule.points (map points_child cs) in
  let description :=
    match header with
    | Some lines => [VTree Rule.description_header (map header_child lines)]
    | None => []
    end in
  let object :=
    {| PolyObject.description :=
         option_map (fun lines =>
                       DescriptionHeader.mk (String.concat newline (header_contents lines)))
                    header;
       PolyObject.metadata := Metadata.mk name R C;
       PolyObject.points := flat_map (row_points self) cs |} in
  visit (VTree Rule.poly_block (description ++ [metadata; points])) self
  = (Ok (VTuple [ VPolyObject object;
                  VList (match header with Some lines => header_msgs lines | None => [] end
                         ++ dimensions_valid_msgs self tC C
                         ++ flat_map row_blanks cs
                         ++ flat_map (row_msgs self) cs) ]), self)
  /\ length (PolyObject.points object) = length (filter is_PointRow cs).
Proof.
  cbv zeta. split.
  - apply (visit_block_tree self header tn tR tC name R C cs).
  - cbn [PolyObject.points].
    induction cs as [| [m | r0 r1 rest | r] cs IH]; [reflexivity | | |];
      cbn [flat_map row_points app filter is_PointRow length]; rewrite ?IH; reflexivity.
Qed.

(** * The statements on blocks, order and results *)

(** ** The round-trip block *)

(** C2, against the claim: without z-values the round-trip block does not
    interpret to an empty list of diagnostics. *)
Lemma round_trip_without_z_has_diagnostics :
  exists o msgs,
    interpret (__init__ false) round_trip_tree
    = (Ok (VTuple [o; VList msgs]), __init__ false)
    /\ msgs <> []
    /\ length msgs = 3%nat.
Proof. eexists. eexists. repeat split. discriminate. Qed.

(** C2, as the code has it: with z-values the round-trip block interprets to
    one object (description [" desc"], metadata [(myName, 3, 3)], the points
    [(1,2,3)], [(4,5,6)], [(7,8,9)] without extra data) and no diagnostic.
    Without z-values the points have no [z] and the third value as [data],
    and each row gets an ERROR, three values where two are expected: the
    declared number of columns is not what rows are checked against.
    Whatever the z-values and whatever number [n] of columns is expected at
    the visit, the object is the same and the diagnostics are
    [round_trip_msgs n]: none exactly when [n] is three, otherwise three
    ERRORs, one for each row. *)
Theorem round_trip_block :
  interpret (__init__ true) round_trip_tree
  = (Ok (VTuple [round_trip_object true; VList []]), __init__ true)
  /\ interpret (__init__ false) round_trip_tree
     = (Ok (VTuple [round_trip_object false;
                    VList [excess_error 4; excess_error 5; excess_error 6]]),
        __init__ false)
  /\ count_level ERROR [excess_error 4; excess_error 5; excess_error 6] = 3%nat
  /\ fst (interpret_expecting 3 (__init__ false) round_trip_tree)
     = Ok (VTuple [round_trip_object false; VList []])
  /\ (forall z n,
        fst (interpret_expecting n (__init__ z) round_trip_tree)
        = Ok (VTuple [round_trip_object z; VList (round_trip_msgs n)]))
  /\ (forall n, round_trip_msgs n = [] <-> n = 3)
  /\ (forall n, n <> 3 ->
        length (round_trip_msgs n) = 3%nat
        /\ count_level ERROR (round_trip_msgs n) = 3%nat).
Proof.
  split; [reflexivity |]. split; [reflexivity |]. split; [reflexivity |].
  split; [reflexivity |]. split; [| split].
  - intros z n. unfold interpret_expecting.
    change (PolyFileLiteralTransformer.transform round_trip_tree)
      with (Ok (block_tree
                  (Some [inl (CommentLine.mk " desc")])
                  (token_at TokenType.NAME "myName" 2 1)
                  (token_at TokenType.INT "3" 3 1) (token_at TokenType.INT "3" 3 3)
                  "myName" 3 3
                  [ PointRow (token_at TokenType.FLOAT "1.0" 4 1, 1.0%float)
                             (token_at TokenType.FLOAT "2.0" 4 5, 2.0%float)
                             [(token_at TokenType.FLOAT "3.0" 4 9, 3.0%float)];
                    PointRow (token_at TokenType.FLOAT "4.0" 5 1, 4.0%float)
                             (token_at TokenType.FLOAT "5.0" 5 5, 5.0%float)
                             [(token_at TokenType.FLOAT "6.0" 5 9, 6.0%float)];
                    PointRow (token_at TokenType.FLOAT "7.0" 6 1, 7.0%float)
                             (token_at TokenType.FLOAT "8.0" 6 5, 8.0%float)
                             [(token_at TokenType.FLOAT "9.0" 6 9, 9.0%float)] ])).
    unfold bind, set_expected_n_columns. rewrite visit_block_tree. cbn [fst].
    unfold round_trip_msgs, row_msgs, point_msgs, dimensions_valid_msgs.
    cbn [flat_map app length Z.of_nat Pos.of_succ_nat Pos.succ
         _expected_n_columns _min_n_columns __init__ negb].
    destruct z; cbn [negb]; change (3 <? 3) with false; change (3 <? 2) with false;
      destruct (Z.eqb_spec n 3) as [-> | Hn];
      try (destruct (Z.ltb_spec 3 n); [| destruct (Z.ltb_spec n 3); [| lia]]);
      reflexivity.
  - intros n. unfold round_trip_msgs.
    destruct (Z.eqb_spec n 3) as [-> | Hn]; split; intros H;
      first [ reflexivity | discriminate H | contradiction ].
  - intros n Hn. unfold round_trip_msgs.
    destruct (Z.eqb_spec n 3) as [-> | _]; [contradiction Hn; reflexivity |].
    split; reflexivity.
Qed.

(** ** The order of the diagnostics *)

(** C4, against the claim: with z-values configured the two rows of
    [points_with_blank_line] are short and get an ERROR each; the WARNING of
    the blank line between them comes first in the list, not between the two.
    In [metadata_with_blank_line] the WARNING of the blank line after the
    name line comes before the WARNING of the name line.  Neither list is in
    document order. *)
Lemma diagnostics_not_in_document_order :
  (exists points msgs,
     interpret (__init__ true) points_with_blank_line
     = (Ok (VTuple [points; VList msgs]), __init__ true)
     /\ msgs = [ VParseMsg (ParseMsg.mk WARNING (2, 3) (1, 1) reason_empty_lines);
                 VParseMsg (ParseMsg.mk ERROR (1, 1) (1, 8) reason_point_missing);
                 VParseMsg (ParseMsg.mk ERROR (3, 3) (1, 8) reason_point_missing) ]
     /\ in_document_order msgs = false)
  /\ (exists metadata msgs,
        interpret (__init__ true) metadata_with_blank_line
        = (Ok (VTuple [metadata; VList msgs]), __init__ true)
        /\ msgs = [ VParseMsg (ParseMsg.mk WARNING (2, 3) (1, 1) reason_empty_lines);
                    VParseMsg (ParseMsg.mk WARNING (1, 1) (1, 3) reason_whitespace) ]
        /\ in_document_order msgs = false).
Proof.
  split; eexists; eexists; repeat split.
Qed.

Lemma visit_msgs_Ok (self self' : t) (c a : PyObj) (l : list PyObj) :
  visit c self = (Ok (VTuple [a; VList l]), self') -> visit_msgs self c = l.
Proof. unfold visit_msgs. intros ->. reflexivity. Qed.

Lemma own_msgs_points_children (cs : list PointsChild) :
  own_msgs (map points_child cs) = flat_map row_blanks cs.
Proof.
  unfold own_msgs.
  induction cs as [| [m | r0 r1 rest | r] cs IH]; [reflexivity | | |];
    cbn [flat_map row_blanks app map filter points_child is_ParseMsg];
    rewrite ?IH; reflexivity.
Qed.

Lemma visit_msgs_points_children (self : t) (cs : list PointsChild) :
  flat_map (visit_msgs self) (elems (map points_child cs)) = flat_map (row_msgs self) cs.
Proof.
  unfold elems.
  induction cs as [| [m | r0 r1 rest | r] cs IH];
    cbn [flat_map row_msgs app map filter points_child is_ParseMsg negb].
  - reflexivity.
  - exact IH.
  - rewrite IH. f_equal. eapply visit_msgs_Ok. apply visit_point.
  - rewrite IH. destruct r as [token f]. reflexivity.
Qed.

(** On a tree of the grammar that the visit does not fail on, a node that
    aggregates returns its own diagnostics and then those that the visits of
    its subtrees return, from left to right. *)
Lemma aggregated_msgs (self : t) (data : Rule.t) (children : list PyObj) :
  aggregates data = true ->
  conforms (VTree data children) = true ->
  clean (VTree data children) = true ->
  exists a msgs,
    visit (VTree data children) self = (Ok (VTuple [a; VList msgs]), self)
    /\ msgs = own_msgs children ++ flat_map (visit_msgs self) (elems children).
Proof.
  intros Hdata Hc Hk.
  cbn [conforms] in Hc. apply andb_prop in Hc as [Hs Hc].
  cbn [clean] in Hk. apply andb_prop in Hk as [_ Hk].
  assert (IH : Forall well_tree children)
    by (apply Forall_forall; intros c _; apply well_visit).
  destruct data; try discriminate Hdata; cbn [shape] in Hs.
  - destruct (elems children) as [| n [| d [| ? ?]]] eqn:E; try discriminate Hs.
    apply andb_prop in Hs as [Hn Hd]. kind n Hn. rename children0 into csn.
    kind d Hd. rename children0 into csd.
    assert (Hin : In (VTree Rule.name_line csn) children)
      by (apply elems_In; rewrite E; cbn; auto).
    assert (Hid : In (VTree Rule.dimensions_line csd) children)
      by (apply elems_In; rewrite E; cbn; auto).
    destruct (well_child _ _ _ self Hc Hk IH Hin) as (vn & Hvn & (s & nm & ->) & _).
    destruct (well_child _ _ _ self Hc Hk IH Hid) as (vd & Hvd & (r & c & dm & ->) & _).
    eexists. eexists. split.
    + erewrite visit_metadata by first [ exact E | exact Hvn | exact Hvd | reflexivity ].
      reflexivity.
    + cbn [flat_map]. rewrite (visit_msgs_Ok _ _ _ _ _ Hvn), (visit_msgs_Ok _ _ _ _ _ Hvd).
      rewrite app_nil_r, <- app_assoc. reflexivity.
  - assert (Hs' : shape Rule.points children = true) by exact Hs.
    destruct (points_children _ Hs' Hc) as [cs ->].
    eexists. eexists. split; [apply visit_points_children |].
    rewrite own_msgs_points_children, visit_msgs_points_children. reflexivity.
  - destruct (elems children) as [| a [| b [| c [| ? ?]]]] eqn:E; try discriminate Hs.
    + apply andb_prop in Hs as [Hm Hp].
      kind a Hm. rename children0 into csm. kind b Hp. rename children0 into csp.
      assert (Him : In (VTree Rule.metadata csm) children)
        by (apply elems_In; rewrite E; cbn; auto).
      assert (Hip : In (VTree Rule.points csp) children)
        by (apply elems_In; rewrite E; cbn; auto).
      destruct (well_child _ _ _ self Hc Hk IH Him) as (vm & Hvm & (md & mm & ->) & _).
      destruct (well_child _ _ _ self Hc Hk IH Hip) as (vp & Hvp & (ps & pm & ->) & _).
      eexists. eexists. split; [eapply visit_poly_block_no_header; eassumption |].
      cbn [flat_map]. rewrite (visit_msgs_Ok _ _ _ _ _ Hvm), (visit_msgs_Ok _ _ _ _ _ Hvp).
      rewrite app_nil_r. reflexivity.
    + apply andb_prop in Hs as [Hs Hp]. apply andb_prop in Hs as [Hd Hm].
      kind a Hd. rename children0 into csd. kind b Hm. rename children0 into csm.
      kind c Hp. rename children0 into csp.
      assert (Hid : In (VTree Rule.description_header csd) children)
        by (apply elems_In; rewrite E; cbn; auto).
      assert (Him : In (VTree Rule.metadata csm) children)
        by (apply elems_In; rewrite E; cbn; auto).
      assert (Hip : In (VTree Rule.points csp) children)
        by (apply elems_In; rewrite E; cbn; auto).
      destruct (well_child _ _ _ self Hc Hk IH Hid) as (vd & Hvd & (h & dm & ->) & _).
      destruct (well_child _ _ _ self Hc Hk IH Him) as (vm & Hvm & (md & mm & ->) & _).
      destruct (well_child _ _ _ self Hc Hk IH Hip) as (vp & Hvp & (ps & pm & ->) & _).
      eexists. eexists. split; [eapply visit_poly_block; eassumption |].
      cbn [flat_map].
      rewrite (visit_msgs_Ok _ _ _ _ _ Hvd), (visit_msgs_Ok _ _ _ _ _ Hvm),
        (visit_msgs_Ok _ _ _ _ _ Hvp).
      rewrite app_nil_r. reflexivity.
Qed.

(** C4, as the code has it: a node that aggregates ([points], [metadata],
    [poly_block] with or without a description) returns first the diagnostics
    that are its own children (blank lines), in their order, and then the
    diagnostics of its subtrees from left to right, each subtree's list as
    that subtree returned it.  So for every such node of a tree of the
    grammar that the visit does not fail on, with the lists that the visits
    of its subtrees return. *)
Theorem diagnostics_own_first_then_subtrees (self : t)
    (rows : list PyObj) (results : list (PyObj * list PyObj))
    (meta rest : list PyObj) (e0 e1 : PyObj) (name : string) (R C : Z)
    (name_msgs dimensions_msgs : list PyObj)
    (block bare : list PyObj) (d m p : PyObj)
    (h : DescriptionHeader.t) (md : Metadata.t) (pts : list Point.t)
    (dmsgs mmsgs pmsgs : list PyObj)
    (data : Rule.t) (children : list PyObj) :
  (Forall2 (fun e r => visit e self = (Ok (VTuple [fst r; VList (snd r)]), self))
           (elems rows) results ->
   visit (VTree Rule.points rows) self
   = (Ok (VTuple [VList (filter truth (map fst results));
                  VList (own_msgs rows ++ concat (map snd results))]), self))
  /\ (elems meta = e0 :: e1 :: rest ->
      visit e0 self = (Ok (VTuple [VStr name; VList name_msgs]), self) ->
      visit e1 self
      = (Ok (VTuple [VTuple [VInt R; VInt C]; VList dimensions_msgs]), self) ->
      visit (VTree Rule.metadata meta) self
      = (Ok (VTuple [VMetadata (Metadata.mk name R C);
                     VList (own_msgs meta ++ name_msgs ++ dimensions_msgs)]), self))
  /\ (visit m self = (Ok (VTuple [VMetadata md; VList mmsgs]), self) ->
      visit p self = (Ok (VTuple [VList (map VPoint pts); VList pmsgs]), self) ->
      (elems block = [d; m; p] ->
       visit d self = (Ok (VTuple [VDescriptionHeader h; VList dmsgs]), self) ->
       visit (VTree Rule.poly_block block) self
       = (Ok (VTuple [VPolyObject (PolyObject.mk (Some h) md pts);
                      VList (own_msgs block ++ dmsgs ++ mmsgs ++ pmsgs)]), self))
      /\ (elems bare = [m; p] ->
          visit (VTree Rule.poly_block bare) self
          = (Ok (VTuple [VPolyObject (PolyObject.mk None md pts);
                         VList (own_msgs bare ++ mmsgs ++ pmsgs)]), self)))
  /\ (aggregates data = true ->
      conforms (VTree data children) = true ->
      clean (VTree data children) = true ->
      exists a msgs,
        visit (VTree data children) self = (Ok (VTuple [a; VList msgs]), self)
        /\ msgs = own_msgs children ++ flat_map (visit_msgs self) (elems children)).
Proof.
  split; [| split; [| split]].
  - intros Hrows. apply visit_points. exact Hrows.
  - intros Hmeta H0 H1.
    erewrite visit_metadata by first [ exact Hmeta | exact H0 | exact H1 | reflexivity ].
    rewrite <- app_assoc. reflexivity.
  - intros Hm Hp. split.
    + intros Hblock Hd. eapply visit_poly_block; eassumption.
    + intros Hbare. eapply visit_poly_block_no_header; eassumption.
  - apply aggregated_msgs.
Qed.

Lemma diagnostics_own_first_then_subtrees_witness :
  let self := __init__ true in
  let blank l := VParseMsg (ParseMsg.mk WARNING (l, l + 1) (1, 1) reason_empty_lines) in
  let ws := VParseMsg (ParseMsg.mk WARNING (3, 3) (1, 3) reason_whitespace) in
  let short l := VParseMsg (ParseMsg.mk ERROR (l, l) (1, 8) reason_point_missing) in
  let object description :=
    VPolyObject (PolyObject.mk description (Metadata.mk "myName" 3 3)
                   [Point.mk 1.0 2.0 None []; Point.mk 3.0 4.0 None []]) in
  visit (VTree Rule.points (transformed_children points_with_blank_line)) self
  = (Ok (VTuple [VList [VPoint (Point.mk 1.0 2.0 None []); VPoint (Point.mk 3.0 4.0 None [])];
                 VList [blank 2; short 1; short 3]]), self)
  /\ visit (VTree Rule.metadata (transformed_children metadata_with_blank_line)) self
     = (Ok (VTuple [VMetadata (Metadata.mk "myName" 3 3);
                    VList [blank 2;
                           VParseMsg (ParseMsg.mk WARNING (1, 1) (1, 3)
                                        reason_whitespace)]]), self)
  /\ visit (transformed block_with_diagnostics) self
     = (Ok (VTuple [object (Some (DescriptionHeader.mk " desc"));
                    VList [blank 2; blank 4; ws; blank 7; short 6; short 8]]), self)
  /\ visit (transformed bare_block_with_diagnostics) self
     = (Ok (VTuple [object None; VList [blank 4; ws; blank 7; short 6; short 8]]), self)
  /\ (exists a msgs,
        visit (transformed block_with_diagnostics) self
        = (Ok (VTuple [a; VList msgs]), self)
        /\ msgs = own_msgs (transformed_children block_with_diagnostics)
                  ++ flat_map (visit_msgs self)
                       (elems (transformed_children block_with_diagnostics))).
Proof.
  cbv zeta.
  pose proof
    (diagnostics_own_first_then_subtrees (__init__ true)
       (transformed_children points_with_blank_line)
       [ (VPoint (Point.mk 1.0 2.0 None []),
          [VParseMsg (ParseMsg.mk ERROR (1, 1) (1, 8) reason_point_missing)]);
         (VPoint (Point.mk 3.0 4.0 None []),
          [VParseMsg (ParseMsg.mk ERROR (3, 3) (1, 8) reason_point_missing)]) ]
       (transformed_children metadata_with_blank_line) []
       (nth 0 (transformed_children metadata_with_blank_line) VNone)
       (nth 2 (transformed_children metadata_with_blank_line) VNone)
       "myName" 3 3
       [VParseMsg (ParseMsg.mk WARNING (1, 1) (1, 3) reason_whitespace)] []
       (transformed_children block_with_diagnostics)
       (transformed_children bare_block_with_diagnostics)
       (nth 0 (transformed_children block_with_diagnostics) VNone)
       (nth 1 (transformed_children block_with_diagnostics) VNone)
       (nth 2 (transformed_children block_with_diagnostics) VNone)
       (DescriptionHeader.mk " desc") (Metadata.mk "myName" 3 3)
       [Point.mk 1.0 2.0 None []; Point.mk 3.0 4.0 None []]
       [VParseMsg (ParseMsg.mk WARNING (2, 3) (1, 1) reason_empty_lines)]
       [ VParseMsg (ParseMsg.mk WARNING (4, 5) (1, 1) reason_empty_lines);
         VParseMsg (ParseMsg.mk WARNING (3, 3) (1, 3) reason_whitespace) ]
       [ VParseMsg (ParseMsg.mk WARNING (7, 8) (1, 1) reason_empty_lines);
         VParseMsg (ParseMsg.mk ERROR (6, 6) (1, 8) reason_point_missing);
         VParseMsg (ParseMsg.mk ERROR (8, 8) (1, 8) reason_point_missing) ]
       Rule.poly_block (transformed_children block_with_diagnostics))
    as (Hpoints & Hmeta & Hblock & Hall).
  destruct (Hblock eq_refl eq_refl) as [Hheader Hbare].
  split; [| split; [| split; [| split]]].
  - apply Hpoints. repeat constructor.
  - apply Hmeta; reflexivity.
  - apply Hheader; reflexivity.
  - apply Hbare. reflexivity.
  - apply Hall; reflexivity.
Defined.

(** ** The shape of the results *)

(** C5, against the claim: interpreting an [invalid_block] returns the ERROR
    itself, not a pair of an absent value and a list that holds the ERROR. *)
Lemma invalid_block_returns_no_pair :
  exists v,
    interpret (__init__ false) invalid_block_tree = (Ok v, __init__ false)
    /\ v = VParseMsg (ParseMsg.mk ERROR (5, 6) (1, 1) reason_invalid_block)
    /\ is_pair v = false
    /\ v <> VTuple [VNone; VList [VParseMsg (ParseMsg.mk ERROR (5, 6) (1, 1)
                                               reason_invalid_block)]].
Proof. eexists. repeat split. discriminate. Qed.

(** C5, as the code has it.  On a tree of the grammar in which no dimension
    line starts with white space, every step but [invalid_block] and
    [poly_file] returns a pair of a value and a list of diagnostics, and
    raises nothing; on any tree at all such a step, when it returns, returns
    such a pair.  [invalid_block], on the tokens that it matched, returns one
    ERROR, not in a pair, whose span runs from the start of the first token
    to the end of the last one. *)
Theorem steps_return_pairs_invalid_block_one_error (self : t)
    (data : Rule.t) (children : list PyObj) (first : Token.t) (rest : list Token.t) :
  (data <> Rule.invalid_block ->
   data <> Rule.poly_file ->
   conforms (VTree data children) = true ->
   clean (VTree data children) = true ->
   exists a msgs,
     visit (VTree data children) self = (Ok (VTuple [a; VList msgs]), self)
     /\ msg_list msgs)
  /\ (forall self' v,
        data <> Rule.invalid_block ->
        data <> Rule.poly_file ->
        visit (VTree data children) self = (Ok v, self') ->
        (exists a msgs, v = VTuple [a; VList msgs] /\ msg_list msgs)
        /\ is_pair v = true)
  /\ visit (VTree Rule.invalid_block (map VToken (first :: rest))) self
     = (Ok (msg_at ERROR first (last (first :: rest) first) reason_invalid_block), self)
  /\ is_pair (msg_at ERROR first (last (first :: rest) first) reason_invalid_block) = false
  /\ has_level ERROR (msg_at ERROR first (last (first :: rest) first) reason_invalid_block)
     = true.
Proof.
  assert (Hpair : forall self' v,
            data <> Rule.invalid_block -> data <> Rule.poly_file ->
            visit (VTree data children) self = (Ok v, self') -> pair_result v).
  { intros self' v Hi Hf Hv.
    destruct (visit_returns (VTree data children) self) as [_ Hr].
    specialize (Hr v). rewrite Hv in Hr. specialize (Hr eq_refl).
    destruct data; try exact Hr; contradiction. }
  split; [| split; [| split; [| split]]].
  - intros Hi Hf Hc Hk.
    destruct (well_visit _ data children eq_refl Hc Hk self) as (v & Hv & _).
    destruct (Hpair self v Hi Hf Hv) as (a & l & -> & Hl).
    exists a, l. split; assumption.
  - intros self' v Hi Hf Hv. pose proof (Hpair self' v Hi Hf Hv) as Hp. split.
    + exact Hp.
    + destruct Hp as (a & l & -> & _). reflexivity.
  - apply visit_invalid_block_tokens.
  - reflexivity.
  - reflexivity.
Qed.

Lemma steps_return_pairs_invalid_block_one_error_witness :
  let self := __init__ true in
  let block := Token.mk TokenType.INVALID_BLOCK ("???" ++ newline) 5 1 6 1 in
  (exists a msgs,
     visit (transformed block_with_diagnostics) self = (Ok (VTuple [a; VList msgs]), self)
     /\ msg_list msgs)
  /\ visit (VTree Rule.invalid_block [VToken block]) self
     = (Ok (msg_at ERROR block block reason_invalid_block), self)
  /\ is_pair (msg_at ERROR block block reason_invalid_block) = false.
Proof.
  cbv zeta.
  pose proof
    (steps_return_pairs_invalid_block_one_error (__init__ true) Rule.poly_block
       (transformed_children block_with_diagnostics)
       (Token.mk TokenType.INVALID_BLOCK ("???" ++ newline) 5 1 6 1) [])
    as (Htotal & _ & Hblock & Hbare & _).
  split; [| split].
  - apply Htotal; first [ discriminate | reflexivity ].
  - exact Hblock.
  - exact Hbare.
Defined.
